(** * Texture unpacker scripts: a shallow embedding

    The repository holds two Blender automation scripts:
    - [textureUnpacker.py]  (variant A, [remove_packed_textures]): import an
      FBX, unpack embedded textures, export [<name>_noTextures.fbx];
    - [textureUnpacker2.py] (variant B, [unpack_fbx_textures]): import an FBX,
      unpack embedded textures and move the extracted files next to the input.

    Python strings are modelled as [string] (byte strings), the host
    application (bpy) and the operating system as an explicit world that the
    scripts thread through their calls, exceptions as values of [exn], and the
    console output together with the host calls as a trace of events. *)

From Stdlib Require Import ZArith Ascii String List Bool Lia.
From stdpp Require Import base tactics option list gmap strings.

Open Scope Z_scope.
Open Scope string_scope.

(** ** Python string primitives *)

Module PyStr.

(** [p.rfind(c)]: the highest index holding [c], or [-1]. *)
Fixpoint rfind_aux (c : ascii) (p : list ascii) (i last : Z) : Z :=
  match p with
  | [] => last
  | x :: r => rfind_aux c r (i + 1) (if Ascii.eqb x c then i else last)
  end.

Definition rfind (c : ascii) (p : list ascii) : Z := rfind_aux c p 0 (-1).

(** Slices [p[:i]], [p[i:]] and [p[i:j]] for non-negative indices. *)
Definition slice_to (i : Z) (p : list ascii) : list ascii := take (Z.to_nat i) p.
Definition slice_from (i : Z) (p : list ascii) : list ascii := drop (Z.to_nat i) p.
Definition slice (i j : Z) (p : list ascii) : list ascii :=
  take (Z.to_nat (j - i)) (drop (Z.to_nat i) p).

Definition chars_eqb (a b : list ascii) : bool :=
  bool_decide (a = b).

(** [head.rstrip(c)] *)
Fixpoint lstrip (c : ascii) (p : list ascii) : list ascii :=
  match p with
  | x :: r => if Ascii.eqb x c then lstrip c r else p
  | [] => []
  end.

Definition rstrip (c : ascii) (p : list ascii) : list ascii :=
  rev (lstrip c (rev p)).

(** [p.startswith(c)] and [p.endswith(c)] for a one-character [c]. *)
Definition startswith (c : ascii) (p : list ascii) : bool :=
  match p with x :: _ => Ascii.eqb x c | [] => false end.

Definition endswith (c : ascii) (p : list ascii) : bool :=
  startswith c (rev p).

(** [c.lower()] on ASCII letters; other bytes are unchanged. *)
Definition lower_char (c : ascii) : ascii :=
  let n := nat_of_ascii c in
  if ((65 <=? n)%nat && (n <=? 90)%nat)%bool then ascii_of_nat (n + 32) else c.

Definition lower_l (p : list ascii) : list ascii := map lower_char p.

Definition lower (s : string) : string :=
  string_of_list_ascii (lower_l (list_ascii_of_string s)).

(** [needle in hay] *)
Fixpoint is_prefix (a b : list ascii) : bool :=
  match a, b with
  | [], _ => true
  | x :: a', y :: b' => Ascii.eqb x y && is_prefix a' b'
  | _ :: _, [] => false
  end.

Fixpoint contains_l (needle hay : list ascii) : bool :=
  is_prefix needle hay ||
  match hay with
  | [] => false
  | _ :: r => contains_l needle r
  end.

Definition contains (needle hay : string) : bool :=
  contains_l (list_ascii_of_string needle) (list_ascii_of_string hay).

Definition nonempty (s : string) : bool :=
  match s with EmptyString => false | String _ _ => true end.

(** [s.endswith(suffix)] *)
Definition ends_with (suffix s : string) : bool :=
  is_prefix (rev (list_ascii_of_string suffix)) (rev (list_ascii_of_string s)).

End PyStr.

(** ** [os.path] on POSIX ([posixpath] and [genericpath]) *)

Module PosixPath.
Import PyStr.

Definition sep : ascii := "/"%char.
Definition extsep : ascii := "."%char.

(** [all_sep head]: [head == sep*len(head)] *)
Definition all_sep (head : list ascii) : bool := forallb (fun x => Ascii.eqb x sep) head.

Definition basename_l (p : list ascii) : list ascii :=
  let i := rfind sep p + 1 in
  slice_from i p.

Definition dirname_l (p : list ascii) : list ascii :=
  let i := rfind sep p + 1 in
  let head := slice_to i p in
  match head with
  | [] => head
  | _ :: _ => if all_sep head then head else rstrip sep head
  end.

(** [os.path.join(a, b)] with a single second argument. *)
Definition join_l (a b : list ascii) : list ascii :=
  if startswith sep b then b
  else match a with
       | [] => a ++ b
       | _ :: _ => if endswith sep a then a ++ b else a ++ sep :: b
       end.

(** The scanning loop of [genericpath._splitext]; [n] is the number of
    iterations left, [dotIndex - filenameIndex]. *)
Fixpoint splitext_scan (n : nat) (p : list ascii) (filenameIndex dotIndex : Z)
  : list ascii * list ascii :=
  match n with
  | O => (p, [])
  | S n' =>
      if negb (chars_eqb (slice filenameIndex (filenameIndex + 1) p) [extsep])
      then (slice_to dotIndex p, slice_from dotIndex p)
      else splitext_scan n' p (filenameIndex + 1) dotIndex
  end.

Definition splitext_l (p : list ascii) : list ascii * list ascii :=
  let sepIndex := rfind sep p in
  let dotIndex := rfind extsep p in
  if dotIndex >? sepIndex
  then splitext_scan (Z.to_nat (dotIndex - (sepIndex + 1))) p (sepIndex + 1) dotIndex
  else (p, []).

(** A directory name as [dirname] returns it: only separators, or not
    ending with one. *)
Definition dir_normal (d : list ascii) : Prop :=
  all_sep d = true \/ endswith sep d = false.

Definition basename (p : string) : string :=
  string_of_list_ascii (basename_l (list_ascii_of_string p)).

Definition dirname (p : string) : string :=
  string_of_list_ascii (dirname_l (list_ascii_of_string p)).

Definition join (a b : string) : string :=
  string_of_list_ascii (join_l (list_ascii_of_string a) (list_ascii_of_string b)).

Definition splitext (p : string) : string * string :=
  let '(root, ext) := splitext_l (list_ascii_of_string p) in
  (string_of_list_ascii root, string_of_list_ascii ext).

End PosixPath.

(** ** Python exceptions and results *)

Module Py.

(** The exception classes the scripts distinguish.  [SystemExit] and
    [KeyboardInterrupt] derive from [BaseException] only, so that
    [except Exception] does not catch them. *)
Inductive exn :=
| RuntimeError (msg : string)
| ValueError (msg : string)
| FileNotFoundError (msg : string)
| OSError (msg : string)
| OtherException (msg : string)
| SystemExit (code : option Z)
| KeyboardInterrupt.

Definition is_RuntimeError (e : exn) : bool :=
  match e with RuntimeError _ => true | _ => false end.

Definition is_Exception (e : exn) : bool :=
  match e with SystemExit _ | KeyboardInterrupt => false | _ => true end.

(** [str(e)] *)
Definition str (e : exn) : string :=
  match e with
  | RuntimeError m | ValueError m | FileNotFoundError m | OSError m
  | OtherException m => m
  | SystemExit _ | KeyboardInterrupt => ""
  end.

Inductive result (A : Type) :=
| Ok (a : A)
| Raise (e : exn).
Arguments Ok {A} a.
Arguments Raise {A} e.

(** The status with which the interpreter leaves on an uncaught
    [SystemExit]: the code itself, and 0 for [SystemExit(None)]. *)
Definition exit_status {A} (r : result A) : option Z :=
  match r with
  | Raise (SystemExit (Some c)) => Some c
  | Raise (SystemExit None) => Some 0
  | _ => None
  end.

End Py.

(** ** The host application and the operating system *)

Module Bpy.
Import Py.

(** One entry of [bpy.data.images]; [packed_file] is the truth value of the
    attribute of that name. *)
Record image := Image {
  img_name : string;
  packed_file : bool;
  source : string;
  filepath : string;
  filepath_raw : string
}.

Record library := Library {
  lib_name : string;
  lib_packed_file : bool
}.

(** A file-system entry: its identity (what [os.path.samefile] compares)
    and whether it is a directory. *)
Record fnode := FNode {
  st_ino : Z;
  is_dir : bool
}.

Record world := World {
  images : list image;
  libraries : list library;
  fs : gmap string fnode
}.

(** Calls into the host and the operating system, as they are issued. *)
Inductive host_call :=
| SelectAll
| ObjectDelete
| OrphansPurge (do_recursive : bool)
| ImportFbx (path : string) (use_image_search : bool)
| UnpackAll (method : string)
| ExportFbx (path : string)
| QuitBlender
| Makedirs (dir : string)
| ShutilMove (src dst : string)
| Rmdir (dir : string)
| SetFilepath (img : string) (path : string)
| Reload (img : string).

(** What the scripts cannot see into: the operators of the host, which
    transform the session and the disk or raise, and the parts of the
    operating system whose outcome the scripts do not control. *)
Definition is_unpack_call (c : host_call) : bool :=
  match c with UnpackAll _ => true | _ => false end.

(** The outcome of an operating-system call: it succeeds, or it raises
    [OSError] (or a subclass) with a message. *)
Inductive os_result (A : Type) :=
| OsOk (a : A)
| OsFail (msg : string).
Arguments OsOk {A} a.
Arguments OsFail {A} msg.

Record Host := {
  background : bool;
  (** [hasattr(bpy.app, "background") and bpy.app.background] *)
  bpy_ops : host_call -> world -> result world;
  bpy_path_abspath : string -> string;
  os_makedirs : string -> gmap string fnode -> os_result (gmap string fnode);
  shutil_move : string -> string -> gmap string fnode -> os_result (gmap string fnode);
  rmdir_error : string -> gmap string fnode -> option string
}.

Inductive event (msg : Type) :=
| Print (m : msg)
| Call (c : host_call).
Arguments Print {msg} m.
Arguments Call {msg} c.

Record state (msg : Type) := State {
  st_world : world;
  st_trace : list (event msg)
}.
Arguments State {msg} _ _.
Arguments st_world {msg} _.
Arguments st_trace {msg} _.

(** *** File-system reads *)

Definition exists_ (f : gmap string fnode) (p : string) : bool :=
  bool_decide (is_Some (f !! p)).

Definition isfile (f : gmap string fnode) (p : string) : bool :=
  match f !! p with
  | Some n => negb (is_dir n)
  | None => false
  end.

(** [os.path.samefile(a, b)] for two existing paths. *)
Definition samefile (f : gmap string fnode) (a b : string) : bool :=
  match f !! a, f !! b with
  | Some x, Some y => bool_decide (st_ino x = st_ino y)
  | _, _ => false
  end.

(** The entries directly inside [d]. *)
Definition children (f : gmap string fnode) (d : string) : list string :=
  filter (fun p => bool_decide (PosixPath.dirname p = d ∧ p ≠ d)) (map_to_list f).*1.

(** [os.listdir(d)] *)
Definition listdir (f : gmap string fnode) (d : string) : result (list string) :=
  match f !! d with
  | Some n =>
      if is_dir n then Ok (PosixPath.basename <$> children f d)
      else Raise (OSError "Not a directory")
  | None => Raise (FileNotFoundError "No such file or directory")
  end.

(** [not os.listdir(d)] for an existing directory [d]. *)
Definition dir_empty (f : gmap string fnode) (d : string) : bool :=
  match listdir f d with
  | Ok [] => true
  | _ => false
  end.

(** [os.rmdir(d)]: removes an empty directory, and raises otherwise, or
    when the system refuses. *)
Definition rmdir (h : Host) (f : gmap string fnode) (d : string)
  : result (gmap string fnode) :=
  match rmdir_error h d f with
  | Some msg => Raise (OSError msg)
  | None =>
      match listdir f d with
      | Ok [] => Ok (delete d f)
      | Ok (_ :: _) => Raise (OSError "Directory not empty")
      | Raise e => Raise e
      end
  end.

End Bpy.

(** ** The script monad: state, trace and exceptions *)

Module Script.
Import Py Bpy.

Definition M (msg A : Type) : Type := state msg -> result A * state msg.

Definition ret {msg A} (a : A) : M msg A := fun s => (Ok a, s).

Definition bind {msg A B} (m : M msg A) (k : A -> M msg B) : M msg B :=
  fun s =>
    match m s with
    | (Ok a, s') => k a s'
    | (Raise e, s') => (Raise e, s')
    end.

#[global] Instance M_ret {msg} : MRet (M msg) := fun A a => ret a.
#[global] Instance M_bind {msg} : MBind (M msg) := fun A B k m => bind m k.

Definition raise {msg A} (e : exn) : M msg A := fun s => (Raise e, s).

(** [try: body  except ...: handler]; [handler e = None] when no clause
    matches.  An exception raised by the handler itself is not caught by
    the clauses of the same statement. *)
Definition try_except {msg A} (body : M msg A) (handler : exn -> option (M msg A))
  : M msg A :=
  fun s =>
    match body s with
    | (Ok a, s') => (Ok a, s')
    | (Raise e, s') =>
        match handler e with
        | Some hd => hd s'
        | None => (Raise e, s')
        end
    end.

Definition emit {msg} (e : event msg) : M msg unit :=
  fun s => (Ok tt, State (st_world s) (st_trace s ++ [e])).

Definition print {msg} (m : msg) : M msg unit := emit (Print m).

Definition get_world {msg} : M msg world := fun s => (Ok (st_world s), s).

Definition put_world {msg} (w : world) : M msg unit :=
  fun s => (Ok tt, State w (st_trace s)).

(** [sys.exit(code)] *)
Definition sys_exit {msg A} (code : Z) : M msg A := raise (SystemExit (Some code)).

(** A call of a host operator [bpy.ops....]: recorded, then run. *)
Definition op {msg} (h : Host) (c : host_call) : M msg unit :=
  emit (Call c) ;;
  w ← get_world ;
  match bpy_ops h c w with
  | Ok w' => put_world w'
  | Raise e => raise e
  end.

(** [bpy.ops.wm.quit_blender()], which the scripts expect to return. *)
Definition quit_blender {msg} : M msg unit := emit (Call QuitBlender).

Definition when {msg} (b : bool) (m : M msg unit) : M msg unit :=
  if b then m else ret tt.

(** [os.makedirs(d, exist_ok=True)] *)
Definition makedirs {msg} (h : Host) (d : string) : M msg unit :=
  emit (Call (Makedirs d)) ;;
  w ← get_world ;
  match os_makedirs h d (fs w) with
  | OsOk f' => put_world (World (images w) (libraries w) f')
  | OsFail m => raise (OSError m)
  end.

(** [shutil.move(src, dst)] *)
Definition move {msg} (h : Host) (src dst : string) : M msg unit :=
  emit (Call (ShutilMove src dst)) ;;
  w ← get_world ;
  match shutil_move h src dst (fs w) with
  | OsOk f' => put_world (World (images w) (libraries w) f')
  | OsFail m => raise (OSError m)
  end.

(** [os.listdir(d)] *)
Definition listdir_m {msg} (d : string) : M msg (list string) :=
  w ← get_world ;
  match listdir (fs w) d with
  | Ok l => mret l
  | Raise e => raise e
  end.

(** [os.rmdir(d)] *)
Definition rmdir_m {msg} (h : Host) (d : string) : M msg unit :=
  emit (Call (Rmdir d)) ;;
  w ← get_world ;
  match rmdir h (fs w) d with
  | Ok f' => put_world (World (images w) (libraries w) f')
  | Raise e => raise e
  end.

(** [img.filepath = path] for the image at position [i] of
    [bpy.data.images].  The scripts do not read [filepath_raw] of that image
    again, and the model leaves it as it was. *)
Definition set_filepath {msg} (i : nat) (path : string) : M msg unit :=
  w ← get_world ;
  match images w !! i with
  | Some img =>
      emit (Call (SetFilepath (img_name img) path)) ;;
      put_world
        (World (<[i := Image (img_name img) (packed_file img) (source img) path
                         (filepath_raw img)]> (images w))
               (libraries w) (fs w))
  | None => mret tt
  end.

(** [img.reload()] *)
Definition reload {msg} (name : string) : M msg unit := emit (Call (Reload name)).

Fixpoint for_each {msg A} (l : list A) (body : A -> M msg unit) : M msg unit :=
  match l with
  | [] => ret tt
  | x :: r => body x ;; for_each r body
  end.

(** [adds_only ok P m Q]: started in a session that satisfies [P], the
    script [m] only adds events that [ok] accepts to the trace, and when it
    returns [a] the session satisfies [Q a]. *)
Definition adds_only {msg A} (ok : event msg -> bool) (P : world -> Prop)
    (m : M msg A) (Q : A -> world -> Prop) : Prop :=
  forall s, P (st_world s) ->
    exists new,
      st_trace (snd (m s)) = (st_trace s ++ new)%list /\
      forallb ok new = true /\
      forall a, fst (m s) = Ok a -> Q a (st_world (snd (m s))).

End Script.

(** ** The command line *)

Module Cli.

(** What [parser.parse_args(args=script_args)] does: it returns a namespace
    holding the value of [-i/--input], or leaves through [SystemExit] with
    the status chosen by [argparse]. *)
Inductive parsed :=
| Namespace (input : string)
| ParserExit (code : option Z).

Record Env := {
  argv : list string;          (* sys.argv *)
  script_file : string;        (* __file__ *)
  parse_args : list string -> parsed;
  os_getcwd : string;
  os_path_abspath : string -> string
}.

(** [argv.index(x)] when [x in argv] *)
Fixpoint index_of (x : string) (l : list string) : option nat :=
  match l with
  | [] => None
  | y :: r => if String.eqb y x then Some O else S <$> index_of x r
  end.

End Cli.

(** ** Variant A: [textureUnpacker.py] *)

Module VariantA.
Import Py Bpy Script PyStr PosixPath Cli.

(** The lines the script prints, one constructor for each [print], with the
    values it interpolates. *)
Inductive message :=
| WarnNotFbx (base_name : string)
| ErrIdentical
| MsgInput (path : string)
| MsgOutput (path : string)
| Processing (path : string)
| OutputtingTo (path : string)
| Imported
| ErrImport (e : string)
| Found (total n_images : nat)
| Attempting
| TargetUnpackDir (dir : string)
| UnpackFinished
| Verified (img : string) (filepath_raw : string)
| WarnStillPacked (n : nat)
| Item (item : string)
| Successfully (n : nat)
| NoteUnpackError (e : string)
| ErrUnpack (e : string)
| NoPacked
| Exporting (path : string)
| Exported
| ErrExport (e : string)
| Finished
| ErrInputNotFound (path : string).

Abbreviation script := (M message).

(** The lines that report on one asset, and the events of a run that neither
    calls the unpack operator nor reports on an asset. *)
Definition per_asset_warning (m : message) : bool :=
  match m with
  | WarnStillPacked _ | Item _ => true
  | _ => false
  end.

Definition quiet (e : event message) : bool :=
  match e with
  | Print m => negb (per_asset_warning m)
  | Call c => negb (is_unpack_call c)
  end.

(** The extension of the output file (lines 18-21). *)
Definition is_fbx_ext (name_ext : string) : bool :=
  String.eqb (lower name_ext) ".fbx".

(** The derived output path (lines 14-24), without the warning. *)
Definition fbx_out_path (fbx_in_path : string) : string :=
  let input_dir := dirname fbx_in_path in
  let base_name := basename fbx_in_path in
  let '(name_root, name_ext) := splitext base_name in
  let name_ext := if negb (is_fbx_ext name_ext) then ".fbx" else name_ext in
  let output_filename := name_root +:+ "_noTextures" +:+ name_ext in
  join input_dir output_filename.

Definition name_root (fbx_in_path : string) : string :=
  fst (splitext (basename fbx_in_path)).

Definition name_ext (fbx_in_path : string) : string :=
  snd (splitext (basename fbx_in_path)).

(** The calls that [remove_packed_textures] may issue on the input
    [fbx_in_path]: the reset, the import of that file, the creation of the
    [textures] folder beside the output, the unpack with [REMOVE], the
    export to the derived path, and the final quit. *)
Definition expected_call (fbx_in_path : string) (c : host_call) : bool :=
  match c with
  | SelectAll | ObjectDelete | QuitBlender => true
  | OrphansPurge do_recursive => do_recursive
  | ImportFbx path use_image_search => String.eqb path fbx_in_path && negb use_image_search
  | UnpackAll method => String.eqb method "REMOVE"
  | Makedirs d => String.eqb d (join (dirname (fbx_out_path fbx_in_path)) "textures")
  | ExportFbx path => String.eqb path (fbx_out_path fbx_in_path)
  | ShutilMove _ _ | Rmdir _ | SetFilepath _ _ | Reload _ => false
  end.

Definition expected_event (fbx_in_path : string) (e : event message) : bool :=
  match e with
  | Print _ => true
  | Call c => expected_call fbx_in_path c
  end.

(** The [except Exception] clauses of the import, unpack and export steps. *)
Definition abort_or_reraise {A} (h : Host) (e : exn) : script A :=
  if background h then quit_blender ;; sys_exit 1 else raise e.

Definition packed_images_before (w : world) : gset string :=
  list_to_set (img_name <$> List.filter packed_file (images w)).

Definition packed_others_before (w : world) : gset string :=
  list_to_set (lib_name <$> List.filter lib_packed_file (libraries w)).

(** [bpy.data.images.get(img_name)] *)
Definition images_get (w : world) (name : string) : option image :=
  List.find (fun img => String.eqb (img_name img) name) (images w).

(** The verification loop (lines 94-102). *)
Fixpoint verify (names : list string) (unpacked_count : nat) (still_packed : list string)
  : script (nat * list string) :=
  match names with
  | [] => mret (unpacked_count, still_packed)
  | name :: rest =>
      w ← get_world ;
      match images_get w name with
      | Some img =>
          if negb (packed_file img) && String.eqb (source img) "FILE" then
            print (Verified name (filepath_raw img)) ;;
            verify rest (S unpacked_count) still_packed
          else if packed_file img then
            verify rest unpacked_count (still_packed ++ ["Image '" +:+ name +:+ "'"])
          else verify rest unpacked_count still_packed
      | None => verify rest unpacked_count still_packed
      end
  end.

(** What the verification loop reports for one name of the image
    inventory, given the session [w] left by the unpack operator: a
    [Verified] line for an image found unpacked with source [FILE], an item
    of the still-packed warning for an image found with its payload, and
    nothing otherwise. *)
Definition verified_line (w : world) (name : string) : option (event message) :=
  match images_get w name with
  | Some img =>
      if negb (packed_file img) && String.eqb (source img) "FILE"
      then Some (Print (Verified name (filepath_raw img)))
      else None
  | None => None
  end.

Definition still_packed_item (w : world) (name : string) : option string :=
  match images_get w name with
  | Some img =>
      if negb (packed_file img) && String.eqb (source img) "FILE" then None
      else if packed_file img then Some ("Image '" +:+ name +:+ "'")
      else None
  | None => None
  end.

(** The body of the [try] of the unpack step (lines 76-109). *)
Definition unpack_and_verify (h : Host) (fbx_out_path : string) (names : gset string)
  : script unit :=
  let unpack_dir := join (dirname fbx_out_path) "textures" in
  makedirs h unpack_dir ;;
  print (TargetUnpackDir unpack_dir) ;;
  op h (UnpackAll "REMOVE") ;;
  print UnpackFinished ;;
  r ← verify (elements names) 0 [] ;
  let '(unpacked_count, still_packed) := r in
  when (negb (bool_decide (still_packed = [])))
    (print (WarnStillPacked (length still_packed)) ;;
     for_each still_packed (fun item => print (Item item))) ;;
  print (Successfully unpacked_count).

(** The unpack step (lines 69-122). *)
Definition unpack_step (h : Host) (fbx_out_path : string) (names : gset string)
    (total_packed_before : nat) : script unit :=
  if (0 <? total_packed_before)%nat then
    print Attempting ;;
    try_except (unpack_and_verify h fbx_out_path names)
      (fun e =>
         if is_RuntimeError e then Some (print (NoteUnpackError (str e)))
         else if is_Exception e then
           Some (print (ErrUnpack (str e)) ;; abort_or_reraise h e)
         else None)
  else print NoPacked.

(** The export step and the end of the function (lines 126-160). *)
Definition export_step (h : Host) (fbx_out_path : string) : script unit :=
  try_except
    (print (Exporting fbx_out_path) ;;
     op h (ExportFbx fbx_out_path) ;;
     print Exported)
    (fun e =>
       if is_Exception e then Some (print (ErrExport (str e)) ;; abort_or_reraise h e)
       else None) ;;
  print Finished ;;
  when (background h) quit_blender.

(** Lines 60-160: the scan, the unpack step and the export. *)
Definition scan_unpack_export (h : Host) (fbx_out_path : string) : script unit :=
  w ← get_world ;
  let imgs := packed_images_before w in
  let others := packed_others_before w in
  let total_packed_before := (size imgs + size others)%nat in
  print (Found total_packed_before (size imgs)) ;;
  unpack_step h fbx_out_path imgs total_packed_before ;;
  export_step h fbx_out_path.

(** Lines 27-37: the guard against overwriting the input. *)
Definition check_collision (h : Host) (fbx_in_path fbx_out_path : string) : script unit :=
  if String.eqb fbx_in_path fbx_out_path then
    print ErrIdentical ;;
    print (MsgInput fbx_in_path) ;;
    print (MsgOutput fbx_out_path) ;;
    if background h then sys_exit 1
    else raise (ValueError "Input and output paths are identical.")
  else mret tt.

(** Lines 40-160: reset, import, scan, unpack, export. *)
Definition convert (h : Host) (fbx_in_path fbx_out_path : string) : script unit :=
  print (Processing fbx_in_path) ;;
  print (OutputtingTo fbx_out_path) ;;
  op h SelectAll ;;
  op h ObjectDelete ;;
  op h (OrphansPurge true) ;;
  try_except
    (op h (ImportFbx fbx_in_path false) ;; print Imported)
    (fun e =>
       if is_Exception e then Some (print (ErrImport (str e)) ;; abort_or_reraise h e)
       else None) ;;
  scan_unpack_export h fbx_out_path.

(** Lines 27-160: everything after the output path is known. *)
Definition remove_packed_textures_from (h : Host) (fbx_in_path fbx_out_path : string)
  : script unit :=
  check_collision h fbx_in_path fbx_out_path ;;
  convert h fbx_in_path fbx_out_path.

Definition remove_packed_textures (h : Host) (fbx_in_path : string) : script unit :=
  let input_dir := dirname fbx_in_path in
  let base_name := basename fbx_in_path in
  let '(name_root, name_ext) := splitext base_name in
  name_ext ← (if negb (is_fbx_ext name_ext)
              then print (WarnNotFbx base_name) ;; mret ".fbx"
              else mret name_ext) ;
  let output_filename := name_root +:+ "_noTextures" +:+ name_ext in
  let fbx_out_path := join input_dir output_filename in
  remove_packed_textures_from h fbx_in_path fbx_out_path.

(** Lines 164-189. *)
Definition script_args (argv : list string) : list string :=
  match index_of "--" argv with
  | Some i => drop (i + 1) argv
  | None => []
  end.

Definition main (h : Host) (env : Env) : script unit :=
  match parse_args env (script_args (argv env)) with
  | ParserExit code => raise (SystemExit code)
  | Namespace input =>
      w ← get_world ;
      if negb (isfile (fs w) input) then
        print (ErrInputNotFound input) ;; sys_exit 1
      else
        let input_path_abs := os_path_abspath env input in
        remove_packed_textures h input_path_abs
  end.

End VariantA.

(** ** Variant B: [textureUnpacker2.py] *)

Module VariantB.
Import Py Bpy Script PyStr PosixPath Cli.

Inductive message :=
| ErrNotFoundInFunction (path : string)
| Processing (path : string)
| TargetDirectory (dir : string)
| Imported
| ErrImport (e : string)
| Found (n : nat)
| Attempting
| InitialUnpackFinished
| NoteUnpackError (e : string)
| ErrUnpack (e : string)
| NoPacked
| Scanning (dir : string)
| WarnSourceMissing (img : string) (path : string)
| InfoAlreadyAtTarget (img : string) (target : string)
| WarnTargetExists (img : string) (target : string)
| Moving (src dst : string)
| ErrProcessing (img : string) (e : string)
| WarnStillPacked (img : string)
| WarnUnexpectedState (img : string) (source filepath : string)
| WarnMissing (n : nat)
| MissingItem (img : string)
| FinishedMoving (moved failed still_packed : nat)
| FailuresHeader
| FailureItem (item : string)
| StillPackedHeader
| StillPackedItem (img : string)
| AttemptRemoveDir (dir : string)
| NoteDirNotEmpty (dir : string)
| WarnCouldNotRemove (dir : string) (e : string)
| ProcessFinished
| SuccessProcessed (n : nat) (dir : string)
| NoneProcessed
| Exiting
| ScriptFinished
| InfoUiNoArgs
| ArgParseFailed (code : option Z)
| ExitingArgError
| RelativeResolved (raw resolved cwd : string)
| ErrInputNotFound (path : string)
| OriginalInput (path : string).

Abbreviation script := (M message).

(** The lines that report on one asset, and the events of a run that neither
    calls the unpack operator nor reports on an asset. *)
Definition per_asset_warning (m : message) : bool :=
  match m with
  | WarnSourceMissing _ _ | WarnTargetExists _ _ | ErrProcessing _ _
  | WarnStillPacked _ | WarnUnexpectedState _ _ _
  | WarnMissing _ | MissingItem _
  | FailuresHeader | FailureItem _ | StillPackedHeader | StillPackedItem _ => true
  | _ => false
  end.

Definition quiet (e : event message) : bool :=
  match e with
  | Print m => negb (per_asset_warning m)
  | Call c => negb (is_unpack_call c)
  end.

(** The local variables of the reconciliation (lines 103-110). *)
Record tally := Tally {
  moved_count : nat;
  failed_to_move : list string;
  still_packed_after : list string;
  processed_packed_names : gset string;
  possible_texture_dirs : gset string
}.

Definition tally0 : tally := Tally 0 [] [] ∅ ∅.

Definition add_processed (name : string) (t : tally) : tally :=
  Tally (moved_count t) (failed_to_move t) (still_packed_after t)
        ({[name]} ∪ processed_packed_names t) (possible_texture_dirs t).

Definition add_texture_dir (d : string) (t : tally) : tally :=
  Tally (moved_count t) (failed_to_move t) (still_packed_after t)
        (processed_packed_names t) ({[d]} ∪ possible_texture_dirs t).

Definition add_failed (item : string) (t : tally) : tally :=
  Tally (moved_count t) (failed_to_move t ++ [item]) (still_packed_after t)
        (processed_packed_names t) (possible_texture_dirs t).

Definition add_still_packed (name : string) (t : tally) : tally :=
  Tally (moved_count t) (failed_to_move t) (still_packed_after t ++ [name])
        (processed_packed_names t) (possible_texture_dirs t).

Definition add_moved (t : tally) : tally :=
  Tally (S (moved_count t)) (failed_to_move t) (still_packed_after t)
        (processed_packed_names t) (possible_texture_dirs t).

(** The pre-unpack inventory (lines 54-67). *)
Definition original_filename (name : string) : string :=
  if contains "." name then name else name +:+ ".png".

Definition packed_images_info (imgs : list image) : gmap string string :=
  foldl (fun info img =>
           if packed_file img
           then <[img_name img := original_filename (img_name img)]> info
           else info)
        ∅ imgs.

(** The unpack step (lines 74-100); it returns [total_packed_before], which
    the handler of "Nothing packed" resets. *)
Definition unpack_step (h : Host) (total_packed_before : nat) : script nat :=
  if (0 <? total_packed_before)%nat then
    print Attempting ;;
    try_except
      (op h (UnpackAll "USE_LOCAL") ;;
       print InitialUnpackFinished ;;
       mret total_packed_before)
      (fun e =>
         if is_RuntimeError e then
           Some (print (NoteUnpackError (str e)) ;;
                 if contains "Nothing packed" (str e) then mret 0%nat else raise e)
         else if is_Exception e then
           Some (print (ErrUnpack (str e)) ;;
                 if background h then sys_exit 1 else raise e)
         else None)
  else
    print NoPacked ;; mret total_packed_before.

(** The condition of line 117. *)
Definition unpacked_to_file (img : image) : bool :=
  negb (packed_file img) && String.eqb (source img) "FILE" && nonempty (filepath img).

(** The body of the [try] of lines 118-161, for the image at position [i];
    [t] already holds the folder recorded at line 127. *)
Definition move_unpacked (h : Host) (input_dir : string) (i : nat) (img : image)
    (unpacked_abs_path : string) (t : tally) : script tally :=
  let unpacked_filename := basename unpacked_abs_path in
  w ← get_world ;
  if negb (exists_ (fs w) unpacked_abs_path) then
    print (WarnSourceMissing (img_name img) unpacked_abs_path) ;;
    mret (add_failed (img_name img +:+ " (source file missing)") t)
  else
    let target_path := join input_dir unpacked_filename in
    if exists_ (fs w) target_path then
      if samefile (fs w) unpacked_abs_path target_path then
        print (InfoAlreadyAtTarget (img_name img) target_path) ;;
        set_filepath i target_path ;;
        reload (img_name img) ;;
        mret (add_moved t)
      else
        print (WarnTargetExists (img_name img) target_path) ;;
        mret (add_failed (img_name img +:+ " (target exists: " +:+ unpacked_filename +:+ ")") t)
    else
      print (Moving unpacked_abs_path target_path) ;;
      move h unpacked_abs_path target_path ;;
      set_filepath i target_path ;;
      reload (img_name img) ;;
      mret (add_moved t).

(** Lines 126-127: the folder of the extracted file is recorded when its
    name is [textures], in any letter case. *)
Definition note_texture_dir (unpacked_dir : string) (t : tally) : tally :=
  if String.eqb (lower (basename unpacked_dir)) "textures"
  then add_texture_dir unpacked_dir t else t.

(** Lines 118-165.  The folder is recorded (a mutation of a set, which
    survives an exception) before anything in the [try] can raise, so the
    handler continues from the tally that holds it. *)
Definition try_move_unpacked (h : Host) (input_dir : string) (i : nat) (img : image)
    (t : tally) : script tally :=
  let unpacked_abs_path := bpy_path_abspath h (filepath_raw img) in
  let unpacked_dir := dirname unpacked_abs_path in
  let t := note_texture_dir unpacked_dir t in
  try_except
    (move_unpacked h input_dir i img unpacked_abs_path t)
    (fun e =>
       if is_Exception e then
         Some (print (ErrProcessing (img_name img) (str e)) ;;
               mret (add_failed (img_name img +:+ " (error: " +:+ str e +:+ ")") t))
       else None).

(** One iteration of the loop of line 112, on the image at position [i]. *)
Definition process_image (h : Host) (input_dir : string) (info : gmap string string)
    (i : nat) (t : tally) : script tally :=
  w ← get_world ;
  match images w !! i with
  | None => mret t
  | Some img =>
      if bool_decide (is_Some (info !! img_name img)) then
        let t := add_processed (img_name img) t in
        if unpacked_to_file img then
          try_move_unpacked h input_dir i img t
        else if packed_file img then
          print (WarnStillPacked (img_name img)) ;;
          mret (add_still_packed (img_name img) t)
        else
          print (WarnUnexpectedState (img_name img) (source img) (filepath img)) ;;
          mret t
      else mret t
  end.

Fixpoint scan_images (h : Host) (input_dir : string) (info : gmap string string)
    (idxs : list nat) (t : tally) : script tally :=
  match idxs with
  | [] => mret t
  | i :: rest =>
      t' ← process_image h input_dir info i t ;
      scan_images h input_dir info rest t'
  end.

(** The four classes of the reconciliation. *)
Inductive asset_class :=
| UnpackedConfirmed
| StillPacked
| Anomalous
| Missing.

(** The class that a line of the reconciliation, or a call it makes on an
    image, reports for an asset.  The move step names its image in every
    outcome: in its warnings, or in the assignment of the new path. *)
Definition reported_class (e : event message) : option (string * asset_class) :=
  match e with
  | Print (WarnSourceMissing n _) | Print (InfoAlreadyAtTarget n _)
  | Print (WarnTargetExists n _) | Print (ErrProcessing n _)
  | Call (SetFilepath n _) => Some (n, UnpackedConfirmed)
  | Print (WarnStillPacked n) => Some (n, StillPacked)
  | Print (WarnUnexpectedState n _ _) => Some (n, Anomalous)
  | Print (MissingItem n) => Some (n, Missing)
  | _ => None
  end.

Definition reports (new : list (event message)) : list (string * asset_class) :=
  omap reported_class new.

(** The classes in words, on the images found after the unpack. *)
Definition in_class (imgs : list image) (n : string) (c : asset_class) : Prop :=
  match c with
  | UnpackedConfirmed =>
      exists img, img ∈ imgs /\ img_name img = n /\ packed_file img = false /\
                  source img = "FILE" /\ filepath img <> ""
  | StillPacked =>
      exists img, img ∈ imgs /\ img_name img = n /\ packed_file img = true
  | Anomalous =>
      exists img, img ∈ imgs /\ img_name img = n /\ packed_file img = false /\
                  ~ (source img = "FILE" /\ filepath img <> "")
  | Missing => forall img, img ∈ imgs -> img_name img <> n
  end.

(** The branch of lines 117-173 that an image takes. *)
Definition class_of_image (img : image) : asset_class :=
  if unpacked_to_file img then UnpackedConfirmed
  else if packed_file img then StillPacked
  else Anomalous.

(** The images whose names are in the inventory. *)
Definition inventoried (info : gmap string string) (imgs : list image) : list image :=
  filter (fun img => is_Some (info !! img_name img)) imgs.

(** The inventoried images that still carry their payload after the unpack
    (the branch of line 167), and those the unpack wrote to a file (the
    branch of line 118). *)
Definition left_packed (info : gmap string string) (imgs : list image) : list image :=
  filter (fun img => Is_true (negb (unpacked_to_file img) && packed_file img))
         (inventoried info imgs).

Definition written_out (info : gmap string string) (imgs : list image) : list image :=
  filter (fun img => Is_true (unpacked_to_file img)) (inventoried info imgs).

(** The assets the tally accounts for, and the warnings about an
    unexpected state, which are printed but not tallied. *)
Definition handled (t : tally) : nat :=
  (moved_count t + length (failed_to_move t) + length (still_packed_after t))%nat.

Definition is_unexpected_state (e : event message) : bool :=
  match e with
  | Print (WarnUnexpectedState _ _ _) => true
  | _ => false
  end.

Definition unexpected_count (new : list (event message)) : nat :=
  length (List.filter is_unexpected_state new).


(** The calls that [unpack_fbx_textures] may issue on the input
    [fbx_in_path]: the reset, the import of that file, the unpack with
    [USE_LOCAL], moves into the input's directory under the same base name,
    new paths directly inside that directory, reloads, removals of folders
    named [textures], and the final quit. *)
Definition expected_call (fbx_in_path : string) (c : host_call) : bool :=
  match c with
  | SelectAll | ObjectDelete | QuitBlender | Reload _ => true
  | OrphansPurge do_recursive => negb do_recursive
  | ImportFbx path use_image_search => String.eqb path fbx_in_path && use_image_search
  | UnpackAll method => String.eqb method "USE_LOCAL"
  | ShutilMove src dst => String.eqb dst (join (dirname fbx_in_path) (basename src))
  | SetFilepath _ path => String.eqb path (join (dirname fbx_in_path) (basename path))
  | Rmdir d => String.eqb (lower (basename d)) "textures"
  | Makedirs _ | ExportFbx _ => false
  end.

Definition expected_event (fbx_in_path : string) (e : event message) : bool :=
  match e with
  | Print _ => true
  | Call c => expected_call fbx_in_path c
  end.

(** Every folder recorded for the clean-up is named [textures], letter case
    apart. *)
Definition texture_dirs_only (t : tally) : Prop :=
  forall d, d ∈ possible_texture_dirs t ->
            String.eqb (lower (basename d)) "textures" = true.

(** Lines 179-184. *)
Definition missing_after_unpack (info : gmap string string) (t : tally) : gset string :=
  dom info ∖ processed_packed_names t.

Definition report_missing (missing : list string) : script unit :=
  when (negb (bool_decide (missing = [])))
    (print (WarnMissing (length missing)) ;;
     for_each missing (fun name => print (MissingItem name))).

(** Lines 187-195. *)
Definition report_summary (t : tally) : script unit :=
  print (FinishedMoving (moved_count t) (length (failed_to_move t))
           (length (still_packed_after t))) ;;
  when (negb (bool_decide (failed_to_move t = [])))
    (print FailuresHeader ;;
     for_each (failed_to_move t) (fun item => print (FailureItem item))) ;;
  when (negb (bool_decide (still_packed_after t = [])))
    (print StillPackedHeader ;;
     for_each (still_packed_after t) (fun item => print (StillPackedItem item))).

(** One iteration of the clean-up loop (lines 200-207). *)
Definition cleanup_dir (h : Host) (tex_dir : string) : script unit :=
  try_except
    (w ← get_world ;
     empty ← (if exists_ (fs w) tex_dir
              then l ← listdir_m tex_dir ; mret (bool_decide (l = []))
              else mret false) ;
     if (empty : bool) then
       print (AttemptRemoveDir tex_dir) ;;
       rmdir_m h tex_dir
     else if exists_ (fs w) tex_dir then
       print (NoteDirNotEmpty tex_dir)
     else mret tt)
    (fun e =>
       if is_Exception e then Some (print (WarnCouldNotRemove tex_dir (str e)))
       else None).

Definition cleanup (h : Host) (dirs : list string) : script unit :=
  for_each dirs (cleanup_dir h).

(** Lines 108-207: the reconciliation, the reports and the clean-up. *)
Definition reconcile (h : Host) (input_dir : string) (info : gmap string string)
  : script tally :=
  print (Scanning input_dir) ;;
  w ← get_world ;
  t ← scan_images h input_dir info (seq 0 (length (images w))) tally0 ;
  report_missing (elements (missing_after_unpack info t)) ;;
  report_summary t ;;
  cleanup h (elements (possible_texture_dirs t)) ;;
  mret t.

(** Lines 211-224. *)
Definition finish (h : Host) (input_dir : string) (t : tally) : script unit :=
  print ProcessFinished ;;
  (if (0 <? moved_count t)%nat || bool_decide (failed_to_move t = [])
   then print (SuccessProcessed (moved_count t) input_dir)
   else print NoneProcessed) ;;
  if background h then print Exiting ;; quit_blender
  else print ScriptFinished.

(** Lines 52-224: from the scan to the end. *)
Definition scan_unpack_move (h : Host) (input_dir : string) : script unit :=
  w ← get_world ;
  let info := packed_images_info (images w) in
  let total_packed_before := size info in
  print (Found total_packed_before) ;;
  total_packed_before ← unpack_step h total_packed_before ;
  t ← (if (0 <? total_packed_before)%nat
       then reconcile h input_dir info
       else mret tally0) ;
  finish h input_dir t.

Definition unpack_fbx_textures (h : Host) (fbx_in_path : string) : script unit :=
  let input_dir := dirname fbx_in_path in
  w ← get_world ;
  (if negb (isfile (fs w) fbx_in_path) then
     print (ErrNotFoundInFunction fbx_in_path) ;;
     if background h then sys_exit 1
     else raise (FileNotFoundError ("Input FBX file not found: " +:+ fbx_in_path))
   else mret tt) ;;
  print (Processing fbx_in_path) ;;
  print (TargetDirectory input_dir) ;;
  op h SelectAll ;;
  op h ObjectDelete ;;
  op h (OrphansPurge false) ;;
  op h (OrphansPurge false) ;;
  op h (OrphansPurge false) ;;
  try_except
    (op h (ImportFbx fbx_in_path true) ;; print Imported)
    (fun e =>
       if is_Exception e then
         Some (print (ErrImport (str e)) ;;
               if background h then sys_exit 1 else raise e)
       else None) ;;
  scan_unpack_move h input_dir.

(** The test of line 240: the argument names the running script. *)
Definition names_script (file arg : string) : bool :=
  ends_with ".py" arg && String.eqb (lower (basename arg)) (lower (basename file)).

(** Lines 230-248. *)
Fixpoint find_script (file : string) (argv : list string) (i : nat) : option nat :=
  match argv with
  | [] => None
  | arg :: rest =>
      if ends_with ".py" arg
         && String.eqb (lower (basename arg)) (lower (basename file))
      then Some i
      else find_script file rest (S i)
  end.

Definition script_args (file : string) (argv : list string) : list string :=
  match index_of "--" argv with
  | Some i => drop (i + 1) argv
  | None =>
      match find_script file argv 0 with
      | Some i => if (i + 1 <? length argv)%nat then drop (i + 1) argv else []
      | None => []
      end
  end.

(** Lines 250-303. *)
Definition main (h : Host) (env : Env) : script unit :=
  let script_args := script_args (script_file env) (argv env) in
  when (bool_decide (script_args = []) && negb (background h)) (print InfoUiNoArgs) ;;
  input_path_raw ←
    match parse_args env script_args with
    | Namespace input => mret input
    | ParserExit code =>
        print (ArgParseFailed code) ;;
        if background h then
          print ExitingArgError ;;
          raise (SystemExit (Some (match code with Some c => c | None => 1 end)))
        else raise (SystemExit code)
    end ;
  input_path_resolved ←
    (if negb (startswith sep (list_ascii_of_string input_path_raw)) then
       let resolved := join (os_getcwd env) input_path_raw in
       print (RelativeResolved input_path_raw resolved (os_getcwd env)) ;;
       mret resolved
     else mret input_path_raw) ;
  let input_path_abs := os_path_abspath env input_path_resolved in
  w ← get_world ;
  (if negb (isfile (fs w) input_path_abs) then
     print (ErrInputNotFound input_path_abs) ;;
     print (OriginalInput input_path_raw) ;;
     if background h then sys_exit 1
     else raise (FileNotFoundError ("Input file not found: " +:+ input_path_abs))
   else mret tt) ;;
  unpack_fbx_textures h input_path_abs.

End VariantB.

(** ** Concrete hosts and sessions, used to run the scripts *)

Module Examples.
Import Py Bpy Script Cli.

(** [os.rename] of one entry. *)
Definition rename_entry (src dst : string) (f : gmap string fnode)
  : os_result (gmap string fnode) :=
  match f !! src with
  | Some n => OsOk (<[dst := n]> (delete src f))
  | None => OsFail "No such file or directory"
  end.

(** A host whose importer loads the session [loaded] and whose unpack
    operator answers [unpacked]; every other operator leaves the session as
    it is. *)
Definition scripted_host (bg : bool) (loaded : world) (unpacked : world -> result world)
  : Host :=
  {| background := bg;
     bpy_ops := fun c w =>
       match c with
       | ImportFbx _ _ => Ok loaded
       | UnpackAll _ => unpacked w
       | _ => Ok w
       end;
     bpy_path_abspath := fun p => p;
     os_makedirs := fun d f => OsOk (<[d := FNode 0 true]> f);
     shutil_move := rename_entry;
     rmdir_error := fun _ _ => None |}.

Definition empty_world : world := World [] [] ∅.

(** A disk holding the input file, and the same disk after an unpack that
    wrote [a.png] into a [textures] folder. *)
Definition disk0 : gmap string fnode :=
  {[ "/assets/model.fbx" := FNode 1 false ]}.

Definition disk1 : gmap string fnode :=
  <["/assets/textures/a.png" := FNode 2 false]>
    (<["/assets/textures" := FNode 3 true]> disk0).


(** Two [textures] folders, the first empty and the second not. *)
Definition disk_dirs : gmap string fnode :=
  <["/scratch/textures/left.png" := FNode 6 false]>
    (<["/scratch/textures" := FNode 5 true]>
       (<["/assets/textures" := FNode 3 true]> disk0)).

(** A session with four packed images, and what an unpack may leave of it:
    one image written to a file, one still packed, one in neither state,
    and one gone. *)
Definition packed_images : list image :=
  [Image "a.png" true "FILE" "" ""; Image "b" true "FILE" "" "";
   Image "c.png" true "FILE" "" ""; Image "gone.png" true "FILE" "" ""].

Definition unpacked_images : list image :=
  [Image "a.png" false "FILE" "/assets/textures/a.png" "/assets/textures/a.png";
   Image "b" true "FILE" "" "";
   Image "c.png" false "GENERATED" "" ""].

Definition packed_session : world := World packed_images [] disk0.
Definition unpacked_session : world := World unpacked_images [] disk1.



(** A session without packed assets. *)
Definition plain_session : world :=
  World [Image "d.png" false "FILE" "/assets/d.png" "/assets/d.png"] [] disk0.

Definition start {msg} (w : world) : state msg := State w [].

(** A background host that loads the four packed images and whose unpack
    operator raises [e]. *)
Definition failing_unpack_host (e : exn) : Host :=
  scripted_host true packed_session (fun _ => Raise e).


(** A background host that loads the session without packed assets. *)
Definition plain_host : Host := scripted_host true plain_session Ok.

(** A background host whose importer raises [e], and one whose disk
    refuses new folders. *)
Definition failing_import_host (e : exn) : Host :=
  {| background := true;
     bpy_ops := fun c w =>
       match c with
       | ImportFbx _ _ => Raise e
       | _ => Ok w
       end;
     bpy_path_abspath := fun p => p;
     os_makedirs := fun d f => OsOk (<[d := FNode 0 true]> f);
     shutil_move := rename_entry;
     rmdir_error := fun _ _ => None |}.

Definition readonly_host : Host :=
  {| background := true;
     bpy_ops := fun c w => Ok w;
     bpy_path_abspath := fun p => p;
     os_makedirs := fun _ _ => OsFail "Read-only file system";
     shutil_move := fun _ _ _ => OsFail "Read-only file system";
     rmdir_error := fun _ _ => Some "Read-only file system" |}.

(** A command line and a parser that, as [argparse] does, leaves with status
    2 when the required [-i/--input] is absent, and accepts [-i PATH]. *)
Definition argparse_input (args : list string) : parsed :=
  match args with
  | ["-i"; path] | ["--input"; path] => Namespace path
  | _ => ParserExit (Some 2)
  end.

Definition env_of (args : list string) : Env :=
  {| argv := ["blender"; "-b"; "-P"; "textureUnpacker.py"; "--"] ++ args;
     script_file := "textureUnpacker.py";
     parse_args := argparse_input;
     os_getcwd := "/work";
     os_path_abspath := fun p => p |}.

End Examples.

(** * Properties *)

Open Scope list_scope.

(** ** Strings and paths *)

Section PathLemmas.
Import PyStr PosixPath.

Lemma s2l_app (a b : string) :
  list_ascii_of_string (a +:+ b) = list_ascii_of_string a ++ list_ascii_of_string b.
Proof. induction a as [|c a IH]; simpl; [reflexivity | now rewrite IH]. Qed.

Lemma s2l_inj (a b : string) :
  list_ascii_of_string a = list_ascii_of_string b -> a = b.
Proof.
  intros H. rewrite <- (string_of_list_ascii_of_string a),
    <- (string_of_list_ascii_of_string b). now rewrite H.
Qed.

Lemma rfind_aux_absent (c : ascii) (p : list ascii) (i last : Z) :
  c ∉ p -> rfind_aux c p i last = last.
Proof.
  revert i last. induction p as [|x p IH]; intros i last Hc; simpl; [reflexivity|].
  apply not_elem_of_cons in Hc as [Hx Hp].
  rewrite IH by assumption.
  destruct (Ascii.eqb_spec x c); congruence.
Qed.

Lemma rfind_aux_last (c : ascii) (a b : list ascii) (i last : Z) :
  c ∉ b -> rfind_aux c (a ++ c :: b) i last = i + Z.of_nat (length a).
Proof.
  intros Hb. revert i last. induction a as [|x a IH]; intros i last; simpl.
  - rewrite Ascii.eqb_refl, rfind_aux_absent by assumption. lia.
  - rewrite IH. lia.
Qed.

Lemma last_occurrence (c : ascii) (p : list ascii) :
  c ∈ p -> exists a b, p = a ++ c :: b /\ (c ∉ b).
Proof.
  induction p as [|x p IH]; intros Hc; [by apply elem_of_nil in Hc|].
  destruct (decide (c ∈ p)) as [Hin|Hout].
  - destruct (IH Hin) as (a & b & -> & Hb). exists (x :: a), b. split; [reflexivity|assumption].
  - apply elem_of_cons in Hc as [->|Hc]; [|contradiction].
    exists [], p. split; [reflexivity|assumption].
Qed.

(** The two cases of [rfind]. *)
Lemma rfind_cases (c : ascii) (p : list ascii) :
  ((c ∉ p) /\ rfind c p = -1) \/
  (exists a b, p = a ++ c :: b /\ (c ∉ b) /\ rfind c p = Z.of_nat (length a)).
Proof.
  destruct (decide (c ∈ p)) as [Hin|Hout].
  - right. destruct (last_occurrence c p Hin) as (a & b & -> & Hb).
    exists a, b. repeat split; [assumption|]. unfold rfind. now rewrite rfind_aux_last.
  - left. split; [assumption|]. unfold rfind. now apply rfind_aux_absent.
Qed.

Lemma drop_succ_app_cons (a b : list ascii) (c : ascii) :
  drop (Z.to_nat (Z.of_nat (length a) + 1)) (a ++ c :: b) = b.
Proof.
  replace (Z.to_nat (Z.of_nat (length a) + 1)) with (length (a ++ [c])).
  - rewrite (cons_middle c a b), app_assoc. apply drop_app_length.
  - rewrite length_app. simpl. lia.
Qed.

(** [basename] is what follows the last separator. *)
Lemma basename_l_split (p : list ascii) :
  exists a, p = a ++ basename_l p /\ (sep ∉ basename_l p).
Proof.
  unfold basename_l, slice_from.
  destruct (rfind_cases sep p) as [[Hout ->]|(a & b & -> & Hb & ->)].
  - exists []. simpl. split; [reflexivity|assumption].
  - rewrite drop_succ_app_cons. exists (a ++ [sep]).
    split; [now rewrite <- app_assoc|assumption].
Qed.

Lemma basename_l_no_sep (p : list ascii) : sep ∉ p -> basename_l p = p.
Proof.
  intros Hp. unfold basename_l, slice_from.
  destruct (rfind_cases sep p) as [[_ ->]|(a & b & -> & _ & _)]; [reflexivity|].
  exfalso. apply Hp. apply elem_of_app. right. apply elem_of_cons. now left.
Qed.

Lemma basename_l_after_sep (a b : list ascii) :
  sep ∉ b -> basename_l (a ++ sep :: b) = b.
Proof.
  intros Hb. unfold basename_l, slice_from, rfind.
  rewrite rfind_aux_last by assumption. apply drop_succ_app_cons.
Qed.

Lemma startswith_no_sep (b : list ascii) : sep ∉ b -> startswith sep b = false.
Proof.
  destruct b as [|x b]; [reflexivity|]. intros Hb. simpl.
  destruct (Ascii.eqb_spec x sep) as [->|]; [|reflexivity].
  exfalso. apply Hb. apply elem_of_cons. now left.
Qed.

Lemma endswith_inv (c : ascii) (a : list ascii) :
  endswith c a = true -> exists a', a = a' ++ [c].
Proof.
  unfold endswith, startswith. destruct (rev a) as [|x r] eqn:E; [discriminate|].
  intros H. apply Ascii.eqb_eq in H as ->.
  exists (rev r). rewrite <- (rev_involutive a), E. reflexivity.
Qed.

(** The base name of [join(d, f)] is [f] when [f] holds no separator. *)
Lemma basename_l_join (d f : list ascii) :
  sep ∉ f -> basename_l (join_l d f) = f.
Proof.
  intros Hf. unfold join_l. rewrite startswith_no_sep by assumption.
  destruct d as [|x d]; [now apply basename_l_no_sep|].
  destruct (endswith sep (x :: d)) eqn:E.
  - apply endswith_inv in E as [a' ->]. rewrite <- app_assoc. simpl.
    now apply basename_l_after_sep.
  - now apply basename_l_after_sep.
Qed.

Lemma take_drop_at (a b : list ascii) :
  slice_to (Z.of_nat (length a)) (a ++ b) = a /\
  slice_from (Z.of_nat (length a)) (a ++ b) = b.
Proof.
  unfold slice_to, slice_from. rewrite Nat2Z.id. split.
  - apply take_app_length.
  - apply drop_app_length.
Qed.

Lemma splitext_scan_split (n : nat) (p a b : list ascii) (i : Z) :
  p = a ++ extsep :: b ->
  let '(root, ext) := splitext_scan n p i (Z.of_nat (length a)) in
  root ++ ext = p /\ (ext = [] \/ exists e, ext = extsep :: e).
Proof.
  intros ->. revert i. induction n as [|n IH]; intros i; simpl.
  - rewrite app_nil_r. auto.
  - destruct (negb _); [|apply IH].
    destruct (take_drop_at a (extsep :: b)) as [-> ->]. eauto.
Qed.

(** [splitext] cuts its argument in two, and the extension is empty or
    starts with a dot. *)
Lemma splitext_l_split (p : list ascii) :
  let '(root, ext) := splitext_l p in
  root ++ ext = p /\ (ext = [] \/ exists e, ext = extsep :: e).
Proof.
  unfold splitext_l.
  destruct (rfind extsep p >? rfind sep p) eqn:E.
  - destruct (rfind_cases extsep p) as [[_ Hr]|(a & b & Hp & _ & Hr)].
    + exfalso. rewrite Hr in E.
      destruct (rfind_cases sep p) as [[_ Hs]|(? & ? & _ & _ & Hs)]; rewrite Hs in E; lia.
    + rewrite Hr. now apply splitext_scan_split with (b := b).
  - rewrite app_nil_r. auto.
Qed.

End PathLemmas.

(** ** Variant A: the derived output path *)

Section OutputPath.
Import PyStr PosixPath VariantA.

Lemma fbx_out_path_eq (p : string) :
  fbx_out_path p =
  join (dirname p)
       (name_root p +:+ "_noTextures" +:+
        (if is_fbx_ext (name_ext p) then name_ext p else ".fbx")).
Proof.
  unfold fbx_out_path, name_root, name_ext.
  destruct (splitext (basename p)) as [r e]. simpl.
  now destruct (is_fbx_ext e).
Qed.

Lemma is_fbx_ext_lower (e : string) : is_fbx_ext e = true -> lower e = ".fbx".
Proof. unfold is_fbx_ext. apply String.eqb_eq. Qed.

(** C7 (as amended): the derived output path is the input's directory joined
    with the root of the input's base name, the suffix [_noTextures] and an
    extension that is [.fbx] up to letter case: the input's own extension
    when that is [.fbx] case-insensitively, and the forced lower-case [.fbx]
    for every other input. *)
Theorem output_path_shape (p : string) :
  exists ext : string,
    fbx_out_path p = join (dirname p) (name_root p +:+ "_noTextures" +:+ ext) /\
    lower ext = ".fbx" /\
    (is_fbx_ext (name_ext p) = true -> ext = name_ext p) /\
    (is_fbx_ext (name_ext p) = false -> ext = ".fbx").
Proof.
  rewrite fbx_out_path_eq.
  destruct (is_fbx_ext (name_ext p)) eqn:E.
  - exists (name_ext p). repeat split; try congruence. now apply is_fbx_ext_lower.
  - exists ".fbx". repeat split; congruence.
Qed.

(** C7 (as stated) fails: an upper-case [.FBX] extension is kept, so the
    output does not end in the literal [.fbx]. *)
Lemma output_path_keeps_extension_case :
  fbx_out_path "/assets/model.FBX" = "/assets/model_noTextures.FBX" /\
  ~ (forall p : string,
       fbx_out_path p = join (dirname p) (name_root p +:+ "_noTextures" +:+ ".fbx")).
Proof.
  split; [reflexivity|].
  intros H. specialize (H "/assets/model.FBX"). vm_compute in H. discriminate.
Qed.

Lemma contains_sep_app (a b : list ascii) :
  sep ∉ a -> sep ∉ b -> sep ∉ a ++ b.
Proof. intros Ha Hb H. apply elem_of_app in H as [?|?]; contradiction. Qed.

Lemma no_sep_app_l (a b : list ascii) : sep ∉ a ++ b -> sep ∉ a.
Proof. intros H Ha. apply H, elem_of_app. now left. Qed.

Lemma no_sep_app_r (a b : list ascii) : sep ∉ a ++ b -> sep ∉ b.
Proof. intros H Hb. apply H, elem_of_app. now right. Qed.

(** The output path, on lists of characters. *)
Lemma fbx_out_path_differs_l (l root ext ext' : list ascii) :
  splitext_l (basename_l l) = (root, ext) ->
  ext' = ext \/ (ext' = list_ascii_of_string ".fbx") ->
  join_l (dirname_l l) (root ++ list_ascii_of_string "_noTextures" ++ ext') <> l.
Proof.
  intros Hsplit Hext Heq.
  pose proof (splitext_l_split (basename_l l)) as Hs. rewrite Hsplit in Hs.
  destruct Hs as [Hbase Hdot].
  destruct (basename_l_split l) as (a & _ & Hnosep).
  rewrite <- Hbase in Hnosep.
  assert (Hfname : sep ∉ root ++ list_ascii_of_string "_noTextures" ++ ext').
  { apply contains_sep_app; [now apply no_sep_app_l in Hnosep|].
    apply contains_sep_app.
    - vm_compute. intros H. repeat (apply elem_of_cons in H as [H|H]; [discriminate|]).
      by apply elem_of_nil in H.
    - destruct Hext as [->| ->]; [now apply no_sep_app_r in Hnosep|].
      vm_compute. intros H. repeat (apply elem_of_cons in H as [H|H]; [discriminate|]).
      by apply elem_of_nil in H. }
  apply (f_equal basename_l) in Heq.
  rewrite basename_l_join in Heq by assumption.
  rewrite <- Hbase in Heq. apply app_inv_head in Heq.
  destruct Hext as [->| ->].
  - apply (f_equal (@length ascii)) in Heq. rewrite length_app in Heq. simpl in Heq. lia.
  - destruct Hdot as [->|[e ->]]; simpl in Heq; discriminate.
Qed.

(** The function computes [fbx_out_path], after the warning about the
    extension. *)
Lemma remove_packed_textures_run (h : Bpy.Host) (p : string) (s : Bpy.state message) :
  remove_packed_textures h p s =
  (Script.when (negb (is_fbx_ext (name_ext p))) (Script.print (WarnNotFbx (basename p))) ;;
   remove_packed_textures_from h p (fbx_out_path p)) s.
Proof.
  unfold remove_packed_textures, fbx_out_path, name_ext, Script.when.
  destruct (splitext (basename p)) as [r e]. simpl.
  destruct (is_fbx_ext e); reflexivity.
Qed.

(** C10: the derived output path never equals the input path, so the guard
    of lines 27-37 is never taken: after the warning about the extension,
    [remove_packed_textures] always goes on with the conversion. *)
Theorem output_path_never_input (h : Bpy.Host) (p : string) :
  fbx_out_path p <> p /\
  String.eqb p (fbx_out_path p) = false /\
  forall s : Bpy.state message,
    remove_packed_textures h p s =
    (Script.when (negb (is_fbx_ext (name_ext p))) (Script.print (WarnNotFbx (basename p))) ;;
     convert h p (fbx_out_path p)) s.
Proof.
  assert (Hne : fbx_out_path p <> p).
  { rewrite fbx_out_path_eq. unfold name_root, name_ext, splitext, join, dirname, basename.
    rewrite !list_ascii_of_string_of_list_ascii.
    destruct (splitext_l (basename_l (list_ascii_of_string p))) as [root ext] eqn:Hsplit.
    simpl. intros Heq. apply (f_equal list_ascii_of_string) in Heq.
    rewrite list_ascii_of_string_of_list_ascii, !s2l_app,
      !list_ascii_of_string_of_list_ascii in Heq.
    revert Heq. apply (fbx_out_path_differs_l _ root ext); [exact Hsplit|].
    destruct (is_fbx_ext (string_of_list_ascii ext));
      [left; apply list_ascii_of_string_of_list_ascii | right; reflexivity]. }
  assert (Hb : String.eqb p (fbx_out_path p) = false).
  { apply String.eqb_neq. congruence. }
  repeat split; [exact Hne | exact Hb |].
  intros s. rewrite remove_packed_textures_run.
  unfold remove_packed_textures_from, check_collision. rewrite Hb.
  unfold Script.when. destruct (negb (is_fbx_ext (name_ext p))); reflexivity.
Qed.

End OutputPath.

(** ** Running scripts *)

Section Running.
Import Py Bpy Script.
Context {msg : Type}.

Lemma run_bind {A B} (m : M msg A) (k : A -> M msg B) (s : state msg) :
  (m ≫= k) s =
  match m s with
  | (Ok a, s') => k a s'
  | (Raise e, s') => (Raise e, s')
  end.
Proof. reflexivity. Qed.

Lemma run_ret {A} (a : A) (s : state msg) : (mret a : M msg A) s = (Ok a, s).
Proof. reflexivity. Qed.

Lemma run_print (m : msg) (s : state msg) :
  print m s = (Ok tt, State (st_world s) (st_trace s ++ [Print m])).
Proof. reflexivity. Qed.

Lemma run_emit (e : event msg) (s : state msg) :
  emit e s = (Ok tt, State (st_world s) (st_trace s ++ [e])).
Proof. reflexivity. Qed.

Lemma run_op (h : Host) (c : host_call) (s : state msg) :
  op h c s =
  match bpy_ops h c (st_world s) with
  | Ok w' => (Ok tt, State w' (st_trace s ++ [Call c]))
  | Raise e => (Raise e, State (st_world s) (st_trace s ++ [Call c]))
  end.
Proof.
  unfold op. rewrite run_bind, run_emit, run_bind. unfold get_world. simpl.
  destruct (bpy_ops h c (st_world s)); reflexivity.
Qed.

Lemma run_makedirs (h : Host) (d : string) (s : state msg) :
  makedirs h d s =
  match os_makedirs h d (fs (st_world s)) with
  | OsOk f' =>
      (Ok tt, State (World (images (st_world s)) (libraries (st_world s)) f')
                    (st_trace s ++ [Call (Makedirs d)]))
  | OsFail m => (Raise (OSError m), State (st_world s) (st_trace s ++ [Call (Makedirs d)]))
  end.
Proof.
  unfold makedirs. rewrite run_bind, run_emit, run_bind. unfold get_world. simpl.
  destruct (os_makedirs h d (fs (st_world s))); reflexivity.
Qed.

Lemma for_each_print {A} (f : A -> msg) (l : list A) (s : state msg) :
  for_each l (fun x => print (f x)) s =
  (Ok tt, State (st_world s) (st_trace s ++ ((fun x => Print (f x)) <$> l))).
Proof.
  revert s. induction l as [|x l IH]; intros s; simpl.
  - rewrite app_nil_r. now destruct s.
  - rewrite run_bind, run_print, IH. simpl. now rewrite <- app_assoc.
Qed.

(** *** Scripts that only add accepted events *)

Variable ok : event msg -> bool.

Lemma adds_only_ret {A} (P : world -> Prop) (a : A) (Q : A -> world -> Prop) :
  (forall w, P w -> Q a w) -> adds_only ok P (mret a : M msg A) Q.
Proof.
  intros HQ s HP. exists []. rewrite app_nil_r. repeat split.
  intros a' Ha. inversion Ha; subst. now apply HQ.
Qed.

Lemma adds_only_raise {A} (P : world -> Prop) (e : exn) (Q : A -> world -> Prop) :
  adds_only ok P (raise e : M msg A) Q.
Proof. intros s HP. exists []. rewrite app_nil_r. repeat split. discriminate. Qed.

Lemma adds_only_bind {A B} (P : world -> Prop) (m : M msg A) (Q : A -> world -> Prop)
    (k : A -> M msg B) (R : B -> world -> Prop) :
  adds_only ok P m Q -> (forall a, adds_only ok (Q a) (k a) R) ->
  adds_only ok P (m ≫= k) R.
Proof.
  intros Hm Hk s HP. rewrite run_bind.
  destruct (Hm s HP) as (new1 & Htr1 & Hok1 & HQ).
  destruct (m s) as [[a|e] s1]; simpl in *.
  - destruct (Hk a s1 (HQ a eq_refl)) as (new2 & Htr2 & Hok2 & HR).
    exists (new1 ++ new2). rewrite Htr2, Htr1, app_assoc, forallb_app, Hok1, Hok2.
    repeat split. exact HR.
  - exists new1. repeat split; [assumption..|discriminate].
Qed.

Lemma adds_only_try {A} (P : world -> Prop) (body : M msg A)
    (handler : exn -> option (M msg A)) (Q : A -> world -> Prop) :
  adds_only ok P body Q ->
  (forall e hd, handler e = Some hd -> adds_only ok (fun _ => True) hd Q) ->
  adds_only ok P (try_except body handler) Q.
Proof.
  intros Hb Hh s HP. unfold try_except.
  destruct (Hb s HP) as (new1 & Htr1 & Hok1 & HQ).
  destruct (body s) as [[a|e] s1]; simpl in *.
  - exists new1. repeat split; assumption.
  - destruct (handler e) as [hd|] eqn:E.
    + destruct (Hh e hd E s1 I) as (new2 & Htr2 & Hok2 & HR).
      exists (new1 ++ new2). rewrite Htr2, Htr1, app_assoc, forallb_app, Hok1, Hok2.
      repeat split. exact HR.
    + exists new1. repeat split; [assumption..|discriminate].
Qed.

Lemma adds_only_emit (P : world -> Prop) (e : event msg) :
  ok e = true -> adds_only ok P (emit e) (fun _ => P).
Proof.
  intros He s HP. exists [e]. rewrite run_emit. simpl. rewrite He.
  repeat split. intros _ _. exact HP.
Qed.

Lemma adds_only_op (P Q : world -> Prop) (h : Host) (c : host_call) :
  ok (Call c) = true ->
  (forall w w', P w -> bpy_ops h c w = Ok w' -> Q w') ->
  adds_only ok P (op h c) (fun _ => Q).
Proof.
  intros Hc HQ s HP. exists [Call c]. rewrite run_op.
  destruct (bpy_ops h c (st_world s)) as [w'|e] eqn:E; simpl; rewrite Hc;
    repeat split; [|discriminate].
  intros _ _. now apply (HQ (st_world s)).
Qed.

Lemma adds_only_get_world (P : world -> Prop) :
  adds_only ok P get_world (fun w w' => w = w' /\ P w').
Proof.
  intros s HP. exists []. rewrite app_nil_r.
  split; [reflexivity|]. split; [reflexivity|].
  intros w Hw. inversion Hw; subst. split; [reflexivity|assumption].
Qed.

Lemma adds_only_weaken {A} (P P' : world -> Prop) (m : M msg A)
    (Q Q' : A -> world -> Prop) :
  adds_only ok P m Q -> (forall w, P' w -> P w) -> (forall a w, Q a w -> Q' a w) ->
  adds_only ok P' m Q'.
Proof.
  intros Hm HP HQ s Hs. destruct (Hm s (HP _ Hs)) as (new & Htr & Hok & Hpost).
  exists new. repeat split; [assumption..|]. intros a Ha. now apply HQ, Hpost.
Qed.

End Running.

Ltac run :=
  repeat first
    [ rewrite run_bind
    | rewrite run_ret
    | rewrite run_print
    | rewrite run_emit
    | progress simpl ].

(** ** Variant A: the guard against overwriting the input *)

Section Collision.
Import Py Bpy Script VariantA.

(** C8: when the output path equals the input path, the function stops at
    the guard: it prints the three error lines and leaves with
    [sys.exit(1)] in background mode, and with [ValueError] otherwise; the
    session is untouched and no host operator has been called. *)
Theorem collision_aborts (h : Host) (fbx_in_path fbx_out_path : string)
    (s : state message) :
  fbx_in_path = fbx_out_path ->
  remove_packed_textures_from h fbx_in_path fbx_out_path s =
  (Raise (if background h then SystemExit (Some 1)
          else ValueError "Input and output paths are identical."),
   State (st_world s)
         (st_trace s ++ [Print ErrIdentical; Print (MsgInput fbx_in_path);
                         Print (MsgOutput fbx_out_path)])).
Proof.
  intros <-. unfold remove_packed_textures_from, check_collision.
  rewrite String.eqb_refl. run. rewrite <- !app_assoc. simpl.
  destruct (background h); reflexivity.
Qed.

End Collision.

(** ** Nothing packed: the unpack operator is not called *)

Section NothingPacked.
Import Py Bpy Script.

Lemma export_step_quiet (h : Host) (out : string) (s : state VariantA.message) :
  exists new,
    st_trace (snd (VariantA.export_step h out s)) = st_trace s ++ new /\
    forallb VariantA.quiet new = true.
Proof.
  unfold VariantA.export_step, try_except. run. rewrite run_op. simpl.
  destruct (bpy_ops h (ExportFbx out) (st_world s)) as [w'|e]; simpl.
  - unfold when. destruct (background h); simpl; rewrite <- !app_assoc; simpl;
      eexists; (split; [reflexivity|reflexivity]).
  - destruct (is_Exception e); simpl.
    + unfold VariantA.abort_or_reraise. destruct (background h); simpl;
        rewrite <- !app_assoc; simpl; eexists; (split; [reflexivity|reflexivity]).
    + rewrite <- !app_assoc; simpl; eexists; (split; [reflexivity|reflexivity]).
Qed.

(** Variant A, from the scan on. *)
Lemma scan_unpack_export_quiet (h : Host) (out : string) (s : state VariantA.message) :
  (size (VariantA.packed_images_before (st_world s)) +
   size (VariantA.packed_others_before (st_world s)) = 0)%nat ->
  exists new,
    st_trace (snd (VariantA.scan_unpack_export h out s)) = st_trace s ++ new /\
    forallb VariantA.quiet new = true.
Proof.
  intros H0. unfold VariantA.scan_unpack_export, get_world. run. rewrite H0.
  unfold VariantA.unpack_step. run.
  match goal with |- context [VariantA.export_step h out ?s'] =>
    destruct (export_step_quiet h out s') as (new & -> & Hq) end.
  simpl. rewrite <- !app_assoc. simpl. eexists. split; [reflexivity|]. exact Hq.
Qed.

(** Variant B, from the scan on. *)
Lemma scan_unpack_move_quiet (h : Host) (dir : string) (s : state VariantB.message) :
  size (VariantB.packed_images_info (images (st_world s))) = 0%nat ->
  exists new,
    VariantB.scan_unpack_move h dir s =
      (Ok tt, State (st_world s) (st_trace s ++ new)) /\
    new = [Print (VariantB.Found 0); Print VariantB.NoPacked;
           Print VariantB.ProcessFinished;
           Print (VariantB.SuccessProcessed 0 dir)] ++
          (if background h then [Print VariantB.Exiting; Call QuitBlender]
           else [Print VariantB.ScriptFinished]) /\
    forallb VariantB.quiet new = true.
Proof.
  intros H0. unfold VariantB.scan_unpack_move, get_world. run. rewrite H0.
  unfold VariantB.unpack_step, VariantB.finish. run.
  unfold quit_blender.
  destruct (background h); run; rewrite <- !app_assoc; simpl;
    eexists; (split; [reflexivity|split; reflexivity]).
Qed.

Ltac quiet_print :=
  eapply adds_only_bind; [unfold print; apply adds_only_emit; reflexivity|intros ?; cbv beta].

Ltac quiet_op :=
  eapply adds_only_bind;
  [apply adds_only_op with (Q := fun _ => True); [reflexivity|auto]|intros ?; cbv beta].

(** The whole of variant A, on a host whose importer never loads a packed
    asset. *)
Lemma remove_packed_textures_quiet (h : Host) (p : string) :
  (forall path b w w',
     bpy_ops h (ImportFbx path b) w = Ok w' ->
     (size (VariantA.packed_images_before w') +
      size (VariantA.packed_others_before w') = 0)%nat) ->
  adds_only VariantA.quiet (fun _ => True) (VariantA.remove_packed_textures h p)
    (fun _ _ => True).
Proof.
  intros Himport s HP. rewrite remove_packed_textures_run. revert s HP.
  change (adds_only VariantA.quiet (fun _ => True)
            (when (negb (VariantA.is_fbx_ext (VariantA.name_ext p)))
               (print (VariantA.WarnNotFbx (PosixPath.basename p))) ;;
             VariantA.remove_packed_textures_from h p (VariantA.fbx_out_path p))
            (fun _ _ => True)).
  eapply adds_only_bind.
  { unfold when. destruct (negb _).
    - unfold print. apply adds_only_emit. reflexivity.
    - apply adds_only_ret. auto. }
  intros ?. cbv beta. unfold VariantA.remove_packed_textures_from.
  eapply adds_only_bind with (Q := fun _ _ => True).
  { unfold VariantA.check_collision. destruct (String.eqb _ _).
    - do 3 quiet_print. destruct (background h); apply adds_only_raise.
    - apply adds_only_ret. auto. }
  intros ?. cbv beta. unfold VariantA.convert.
  do 2 quiet_print. do 3 quiet_op.
  eapply adds_only_bind
    with (Q := fun _ w => (size (VariantA.packed_images_before w) +
                           size (VariantA.packed_others_before w) = 0)%nat).
  { apply adds_only_try.
    - eapply adds_only_bind.
      + apply adds_only_op
          with (Q := fun w => (size (VariantA.packed_images_before w) +
                               size (VariantA.packed_others_before w) = 0)%nat);
          [reflexivity|]. intros w w' _ Hop. exact (Himport _ _ _ _ Hop).
      + intros ?. cbv beta. unfold print. apply adds_only_emit. reflexivity.
    - intros e hd Hhd. destruct (is_Exception e); [|discriminate].
      inversion Hhd; subst hd. quiet_print.
      unfold VariantA.abort_or_reraise. destruct (background h).
      + eapply adds_only_bind; [unfold quit_blender; apply adds_only_emit; reflexivity|].
        intros ?. apply adds_only_raise.
      + apply adds_only_raise. }
  intros ? s Hs.
  destruct (scan_unpack_export_quiet h (VariantA.fbx_out_path p) s Hs) as (new & Htr & Hq).
  exists new. repeat split; assumption.
Qed.

(** The whole of variant B, on a host whose importer never loads a packed
    image. *)
Lemma unpack_fbx_textures_quiet (h : Host) (p : string) :
  (forall path b w w',
     bpy_ops h (ImportFbx path b) w = Ok w' ->
     size (VariantB.packed_images_info (images w')) = 0%nat) ->
  adds_only VariantB.quiet (fun _ => True) (VariantB.unpack_fbx_textures h p)
    (fun _ _ => True).
Proof.
  intros Himport. unfold VariantB.unpack_fbx_textures.
  eapply adds_only_bind; [apply adds_only_get_world|]. intros w.
  eapply adds_only_bind with (Q := fun _ _ => True).
  { destruct (negb _).
    - quiet_print. destruct (background h); apply adds_only_raise.
    - apply adds_only_ret. auto. }
  intros ?. cbv beta. do 2 quiet_print. do 5 quiet_op.
  eapply adds_only_bind
    with (Q := fun _ w => size (VariantB.packed_images_info (images w)) = 0%nat).
  { apply adds_only_try.
    - eapply adds_only_bind.
      + apply adds_only_op
          with (Q := fun w => size (VariantB.packed_images_info (images w)) = 0%nat);
          [reflexivity|]. intros w0 w' _ Hop. exact (Himport _ _ _ _ Hop).
      + intros ?. cbv beta. unfold print. apply adds_only_emit. reflexivity.
    - intros e hd Hhd. destruct (is_Exception e); [|discriminate].
      inversion Hhd; subst hd. quiet_print.
      destruct (background h); apply adds_only_raise. }
  intros ? s Hs.
  destruct (scan_unpack_move_quiet h (PosixPath.dirname p) s Hs) as (new & Hrun & _ & Hq).
  exists new. rewrite Hrun. repeat split; assumption.
Qed.

(** C5: when the scan finds no packed asset, neither variant calls the
    unpack operator, and neither prints a report about an asset.  This holds
    from the scan on, where variant B prints exactly its fixed closing
    lines, and for the whole run on a host whose importer loads no packed
    asset. *)
Theorem nothing_packed_no_unpack (h : Host) (p : string) :
  (forall s : state VariantA.message,
     (size (VariantA.packed_images_before (st_world s)) +
      size (VariantA.packed_others_before (st_world s)) = 0)%nat ->
     exists new,
       st_trace (snd (VariantA.scan_unpack_export h p s)) = st_trace s ++ new /\
       forallb VariantA.quiet new = true) /\
  (forall s : state VariantB.message,
     size (VariantB.packed_images_info (images (st_world s))) = 0%nat ->
     exists new,
       VariantB.scan_unpack_move h p s =
         (Ok tt, State (st_world s) (st_trace s ++ new)) /\
       new = [Print (VariantB.Found 0); Print VariantB.NoPacked;
              Print VariantB.ProcessFinished;
              Print (VariantB.SuccessProcessed 0 p)] ++
             (if background h then [Print VariantB.Exiting; Call QuitBlender]
              else [Print VariantB.ScriptFinished]) /\
       forallb VariantB.quiet new = true) /\
  ((forall path b w w',
      bpy_ops h (ImportFbx path b) w = Ok w' ->
      (size (VariantA.packed_images_before w') +
       size (VariantA.packed_others_before w') = 0)%nat) ->
   forall s : state VariantA.message,
     exists new,
       st_trace (snd (VariantA.remove_packed_textures h p s)) = st_trace s ++ new /\
       forallb VariantA.quiet new = true) /\
  ((forall path b w w',
      bpy_ops h (ImportFbx path b) w = Ok w' ->
      size (VariantB.packed_images_info (images w')) = 0%nat) ->
   forall s : state VariantB.message,
     exists new,
       st_trace (snd (VariantB.unpack_fbx_textures h p s)) = st_trace s ++ new /\
       forallb VariantB.quiet new = true).
Proof.
  split; [exact (scan_unpack_export_quiet h p)|].
  split; [exact (scan_unpack_move_quiet h p)|].
  split.
  - intros Himport s.
    destruct (remove_packed_textures_quiet h p Himport s I) as (new & Htr & Hq & _).
    eauto.
  - intros Himport s.
    destruct (unpack_fbx_textures_quiet h p Himport s I) as (new & Htr & Hq & _).
    eauto.
Qed.

End NothingPacked.

(** ** Exceptions of the unpack operator *)

Section UnpackExceptions.
Import Py Bpy Script PosixPath.

(** C4 (as amended): what each variant does when the unpack operator raises
    an exception [e] of class [Exception].
    - Variant A: every [RuntimeError], whatever its message, is logged as a
      note and the run goes on with the export; any other exception is
      logged, and the run leaves with [sys.exit(1)] after [quit_blender] in
      background mode, and re-raises [e] otherwise.
    - Variant B: a [RuntimeError] whose message contains "Nothing packed" is
      logged and the run goes on as with no packed image; any other
      [RuntimeError] is logged and re-raised in both modes; any other
      exception is logged, and the run leaves with [sys.exit(1)] in
      background mode, and re-raises [e] otherwise. *)
Theorem unpack_exception_handling (h : Host) (e : exn) :
  is_Exception e = true ->
  (forall (out : string) (s : state VariantA.message) (fs' : gmap string fnode),
     let w := st_world s in
     let imgs := VariantA.packed_images_before w in
     let total := (size imgs + size (VariantA.packed_others_before w))%nat in
     let unpack_dir := join (dirname out) "textures" in
     let w1 := World (images w) (libraries w) fs' in
     let pre := st_trace s ++
                [Print (VariantA.Found total (size imgs)); Print VariantA.Attempting;
                 Call (Makedirs unpack_dir); Print (VariantA.TargetUnpackDir unpack_dir);
                 Call (UnpackAll "REMOVE")] in
     (0 < total)%nat ->
     os_makedirs h unpack_dir (fs w) = OsOk fs' ->
     bpy_ops h (UnpackAll "REMOVE") w1 = Raise e ->
     VariantA.scan_unpack_export h out s =
     if is_RuntimeError e then
       VariantA.export_step h out
         (State w1 (pre ++ [Print (VariantA.NoteUnpackError (str e))]))
     else if background h then
       (Raise (SystemExit (Some 1)),
        State w1 (pre ++ [Print (VariantA.ErrUnpack (str e)); Call QuitBlender]))
     else
       (Raise e, State w1 (pre ++ [Print (VariantA.ErrUnpack (str e))]))) /\
  (forall (dir : string) (s : state VariantB.message),
     let w := st_world s in
     let total := size (VariantB.packed_images_info (images w)) in
     let pre := st_trace s ++
                [Print (VariantB.Found total); Print VariantB.Attempting;
                 Call (UnpackAll "USE_LOCAL")] in
     (0 < total)%nat ->
     bpy_ops h (UnpackAll "USE_LOCAL") w = Raise e ->
     VariantB.scan_unpack_move h dir s =
     if is_RuntimeError e then
       if PyStr.contains "Nothing packed" (str e) then
         VariantB.finish h dir VariantB.tally0
           (State w (pre ++ [Print (VariantB.NoteUnpackError (str e))]))
       else
         (Raise e, State w (pre ++ [Print (VariantB.NoteUnpackError (str e))]))
     else if background h then
       (Raise (SystemExit (Some 1)),
        State w (pre ++ [Print (VariantB.ErrUnpack (str e))]))
     else
       (Raise e, State w (pre ++ [Print (VariantB.ErrUnpack (str e))]))).
Proof.
  intros Hexc. split.
  - intros out s fs' w imgs total unpack_dir w1 pre Hpos Hmk Hop.
    unfold VariantA.scan_unpack_export, get_world. run.
    fold w imgs total.
    unfold VariantA.unpack_step.
    destruct (Nat.ltb_spec 0 total) as [_|]; [|lia].
    unfold try_except, VariantA.unpack_and_verify, makedirs, get_world. run.
    fold unpack_dir. rewrite Hmk. unfold put_world. run. rewrite run_op. simpl.
    fold w1. rewrite Hop. simpl.
    subst pre. rewrite <- !app_assoc. simpl.
    destruct (is_RuntimeError e); simpl.
    + rewrite <- !app_assoc. reflexivity.
    + rewrite Hexc. unfold VariantA.abort_or_reraise, quit_blender. run.
      destruct (background h); run; rewrite <- !app_assoc; reflexivity.
  - intros dir s w total pre Hpos Hop.
    unfold VariantB.scan_unpack_move, get_world. run. fold w total.
    unfold VariantB.unpack_step.
    destruct (Nat.ltb_spec 0 total) as [_|]; [|lia].
    unfold try_except. run. rewrite run_op. simpl. fold w. rewrite Hop. simpl.
    subst pre. rewrite <- !app_assoc. simpl.
    destruct (is_RuntimeError e); simpl.
    + destruct (PyStr.contains "Nothing packed" (str e)); run;
        rewrite <- !app_assoc; reflexivity.
    + rewrite Hexc. destruct (background h); run; rewrite <- !app_assoc; reflexivity.
Qed.

End UnpackExceptions.

(** ** The command line *)

Section CommandLine.
Import Py Bpy Script Cli.

(** C9 (as amended): when [parse_args] leaves through [SystemExit], the
    background process ends with the status chosen by [argparse] (2 for a
    parse error such as a missing [-i/--input]), not with 1: variant A lets
    the [SystemExit] through unchanged, and variant B logs it and exits with
    the same code, using 1 only when the code is [None]. *)
Theorem parse_failure_status (h : Host) (env : Env) (code : option Z) :
  background h = true ->
  (forall s : state VariantA.message,
     parse_args env (VariantA.script_args (argv env)) = ParserExit code ->
     VariantA.main h env s = (Raise (SystemExit code), s) /\
     exit_status (fst (VariantA.main h env s)) = Some (default 0 code)) /\
  (forall s : state VariantB.message,
     parse_args env (VariantB.script_args (script_file env) (argv env)) = ParserExit code ->
     VariantB.main h env s =
       (Raise (SystemExit (Some (default 1 code))),
        State (st_world s)
              (st_trace s ++ [Print (VariantB.ArgParseFailed code);
                              Print VariantB.ExitingArgError])) /\
     exit_status (fst (VariantB.main h env s)) = Some (default 1 code)).
Proof.
  intros Hbg. split.
  - intros s Hp. unfold VariantA.main. rewrite Hp. split; [reflexivity|].
    destruct code; reflexivity.
  - intros s Hp. unfold VariantB.main. rewrite Hp, Hbg.
    rewrite andb_false_r. run. rewrite <- !app_assoc. simpl.
    split; [destruct code; reflexivity|]. reflexivity.
Qed.

End CommandLine.

(** ** Variant B: the move step *)

Section MoveStep.
Import Py Bpy Script PosixPath VariantB.


End MoveStep.

(** ** Variant B: removing the extraction folders *)

Section Cleanup.
Import Py Bpy Script VariantB.

(** What one iteration of the clean-up loop does, case by case. *)
Lemma cleanup_dir_run (h : Host) (d : string) (s : state message) :
  let w := st_world s in
  cleanup_dir h d s =
  match fs w !! d with
  | None => (Ok tt, s)
  | Some n =>
      if dir_empty (fs w) d then
        match rmdir_error h d (fs w) with
        | None =>
            (Ok tt, State (World (images w) (libraries w) (delete d (fs w)))
                          (st_trace s ++ [Print (AttemptRemoveDir d); Call (Rmdir d)]))
        | Some m =>
            (Ok tt, State w (st_trace s ++ [Print (AttemptRemoveDir d); Call (Rmdir d);
                                            Print (WarnCouldNotRemove d m)]))
        end
      else if is_dir n then
        (Ok tt, State w (st_trace s ++ [Print (NoteDirNotEmpty d)]))
      else
        (Ok tt, State w (st_trace s ++ [Print (WarnCouldNotRemove d "Not a directory")]))
  end.
Proof.
  destruct s as [w tr]. simpl.
  unfold cleanup_dir, try_except, listdir_m, get_world, exists_, dir_empty. run.
  unfold listdir. destruct (fs w !! d) as [n|] eqn:Hd; simpl.
  - run. rewrite Hd.
    destruct (is_dir n) eqn:Hn; simpl.
    + destruct (children (fs w) d) as [|c cs] eqn:Hc; simpl.
      * unfold rmdir_m, rmdir, get_world, put_world, listdir. run.
        destruct (rmdir_error h d (fs w)) as [m|]; simpl.
        -- run. rewrite <- !app_assoc. reflexivity.
        -- rewrite Hd, Hn, Hc. run. rewrite <- !app_assoc. reflexivity.
      * reflexivity.
    + reflexivity.
  - reflexivity.
Qed.

(** One iteration either removes [d], which then was there, empty and
    removable, or leaves the disk as it is and, when [d] is there, says so. *)
Lemma cleanup_dir_spec (h : Host) (d : string) (s : state message) :
  let f := fs (st_world s) in
  exists f' new,
    cleanup_dir h d s =
      (Ok tt, State (World (images (st_world s)) (libraries (st_world s)) f')
                    (st_trace s ++ new)) /\
    (reports new = [] /\ unexpected_count new = 0%nat) /\
    ((f' = delete d f /\ is_Some (f !! d) /\
      dir_empty f d = true /\ rmdir_error h d f = None) \/
     (f' = f /\ ~ (dir_empty f d = true /\ rmdir_error h d f = None) /\
      (is_Some (f !! d) ->
       exists m, Print m ∈ new /\
                 (m = NoteDirNotEmpty d \/ exists e, m = WarnCouldNotRemove d e)))).
Proof.
  intros f. rewrite cleanup_dir_run. subst f. destruct s as [[imgs libs f] tr]. simpl.
  destruct (f !! d) as [n|] eqn:Hd.
  - destruct (dir_empty f d) eqn:He.
    + destruct (rmdir_error h d f) as [m|] eqn:Hr.
      * eexists f, _. split; [reflexivity|]. split; [split; reflexivity|].
        right. split; [reflexivity|].
        split; [intros [_ ?]; discriminate|]. intros _.
        exists (WarnCouldNotRemove d m). split; [|right; eauto].
        apply list_elem_of_In. simpl. auto.
      * eexists _, _. split; [reflexivity|]. split; [split; reflexivity|]. left. eauto.
    + destruct (is_dir n).
      * eexists f, _. split; [reflexivity|]. split; [split; reflexivity|].
        right. split; [reflexivity|].
        split; [intros [? _]; discriminate|]. intros _.
        exists (NoteDirNotEmpty d). split; [|left; reflexivity].
        apply list_elem_of_In. simpl. auto.
      * eexists f, _. split; [reflexivity|]. split; [split; reflexivity|].
        right. split; [reflexivity|].
        split; [intros [? _]; discriminate|]. intros _.
        exists (WarnCouldNotRemove d "Not a directory"). split; [|right; eauto].
        apply list_elem_of_In. simpl. auto.
  - exists f, []. rewrite app_nil_r. split; [reflexivity|]. split; [split; reflexivity|].
    right. split; [reflexivity|]. split.
    + unfold dir_empty, listdir. rewrite Hd. intros [? _]; discriminate.
    + intros [? ?]; discriminate.
Qed.

Lemma reports_app (a b : list (event message)) : reports (a ++ b) = reports a ++ reports b.
Proof. apply omap_app. Qed.

Lemma unexpected_count_app (a b : list (event message)) :
  unexpected_count (a ++ b) = (unexpected_count a + unexpected_count b)%nat.
Proof. unfold unexpected_count. now rewrite List.filter_app, length_app. Qed.

(** The whole loop: it returns, adds to the trace, and only touches the
    entries it was given. *)
Lemma cleanup_spec (h : Host) (dirs : list string) (s : state message) :
  exists f' new,
    cleanup h dirs s =
      (Ok tt, State (World (images (st_world s)) (libraries (st_world s)) f')
                    (st_trace s ++ new)) /\
    (reports new = [] /\ unexpected_count new = 0%nat) /\
    (forall p, p ∉ dirs -> f' !! p = fs (st_world s) !! p).
Proof.
  revert s. induction dirs as [|d dirs IH]; intros s.
  - exists (fs (st_world s)), []. rewrite app_nil_r.
    destruct s as [[? ? ?] ?]. simpl. split; [reflexivity|auto].
  - unfold cleanup. simpl. rewrite run_bind.
    destruct (cleanup_dir_spec h d s) as (f1 & new1 & -> & [Hr1 Hu1] & Hstep).
    destruct (IH (State (World (images (st_world s)) (libraries (st_world s)) f1)
                        (st_trace s ++ new1))) as (f2 & new2 & Hrun & [Hr2 Hu2] & Hframe).
    unfold cleanup in Hrun. rewrite Hrun. simpl.
    exists f2, (new1 ++ new2). rewrite app_assoc. split; [reflexivity|].
    split; [now rewrite reports_app, unexpected_count_app, Hr1, Hr2, Hu1, Hu2|].
    intros p Hp. apply not_elem_of_cons in Hp as [Hpd Hp].
    rewrite (Hframe p Hp). simpl.
    destruct Hstep as [(-> & _)|(-> & _)]; [|reflexivity].
    apply lookup_delete_ne. congruence.
Qed.


(** A directory is empty when it is a directory and no entry lies directly
    inside it. *)
Lemma dir_empty_true_iff (f : gmap string fnode) (d : string) :
  dir_empty f d = true <->
  (exists n, f !! d = Some n /\ is_dir n = true) /\
  (forall p, is_Some (f !! p) -> PosixPath.dirname p = d -> p = d).
Proof.
  assert (Hch : children f d = [] <->
                forall p, is_Some (f !! p) -> PosixPath.dirname p = d -> p = d).
  { unfold children. split.
    - intros Hnil p [n Hp] Hdir. destruct (decide (p = d)) as [|Hne]; [assumption|].
      exfalso. eapply (filter_nil_not_elem_of _ _ p Hnil).
      + apply bool_decide_pack. auto.
      + apply list_elem_of_fmap. exists (p, n). split; [reflexivity|].
        now apply elem_of_map_to_list.
    - intros Hall. apply elem_of_nil_inv. intros p Hp.
      apply list_elem_of_filter in Hp as [HP Hin].
      apply bool_decide_unpack in HP as [Hdir Hne].
      apply list_elem_of_fmap in Hin as ([p' n] & -> & Hin).
      apply elem_of_map_to_list in Hin. simpl in *. apply Hne, Hall; eauto. }
  unfold dir_empty, listdir. destruct (f !! d) as [n|] eqn:Hd.
  - destruct (is_dir n) eqn:Hn.
    + destruct (children f d) as [|c cs] eqn:Hc; simpl.
      * split; [|reflexivity]. intros _. split; [eauto|]. now apply Hch.
      * split; [discriminate|]. intros [_ Hall]. apply Hch in Hall. discriminate.
    + split; [discriminate|]. intros [(n' & Hn' & Hdir) _]. congruence.
  - split; [discriminate|]. intros [(n' & Hn' & _) _]. discriminate.
Qed.



End Cleanup.

(** ** Variant B: the reconciliation *)

Section Reconciliation.
Import Py Bpy Script PosixPath VariantB.

Lemma note_texture_dir_same (d : string) (t : tally) :
  moved_count (note_texture_dir d t) = moved_count t /\
  failed_to_move (note_texture_dir d t) = failed_to_move t /\
  still_packed_after (note_texture_dir d t) = still_packed_after t /\
  processed_packed_names (note_texture_dir d t) = processed_packed_names t.
Proof. unfold note_texture_dir. destruct (String.eqb _ _); simpl; auto. Qed.

Lemma handled_note_texture_dir (d : string) (t : tally) :
  handled (note_texture_dir d t) = handled t.
Proof.
  unfold handled. destruct (note_texture_dir_same d t) as (-> & -> & -> & _). reflexivity.
Qed.

Lemma lookup_insert_other (imgs : list image) (i j : nat) (x : image) :
  j <> i -> <[i := x]> imgs !! j = imgs !! j.
Proof. intros H. apply list_lookup_insert_ne. congruence. Qed.

Ltac in_singletons H :=
  repeat (apply elem_of_cons in H as [->|H]; [reflexivity|]);
  by apply elem_of_nil in H.

Ltac step_done :=
  eexists _, _, _; split; [reflexivity|]; simpl;
  split; [reflexivity|];
  split; [reflexivity|];
  split; [try apply length_insert; reflexivity|];
  split; [intros ? ?; try (now apply lookup_insert_other); reflexivity|];
  split; [assumption|];
  split; [discriminate|];
  split; [let x := fresh "x" in let Hx := fresh "Hx" in
          intros x Hx; cbn in Hx; in_singletons Hx
         |unfold handled, unexpected_count in *; simpl; rewrite ?length_app; simpl; lia].

(** What the move step does with one image, whatever the disk holds. *)
Lemma try_move_unpacked_spec (h : Host) (dir : string) (i : nat) (img : image)
    (t : tally) (s : state message) :
  images (st_world s) !! i = Some img ->
  exists t' s' new,
    try_move_unpacked h dir i img t s = (Ok t', s') /\
    st_trace s' = st_trace s ++ new /\
    libraries (st_world s') = libraries (st_world s) /\
    length (images (st_world s')) = length (images (st_world s)) /\
    (forall j, j <> i -> images (st_world s') !! j = images (st_world s) !! j) /\
    processed_packed_names t' = processed_packed_names t /\
    reports new <> [] /\
    (forall x, x ∈ reports new -> x = (img_name img, UnpackedConfirmed)) /\
    (handled t' + unexpected_count new = S (handled t))%nat.
Proof.
  intros Hi. destruct s as [w tr]. simpl in Hi.
  unfold try_move_unpacked, try_except, move_unpacked, get_world. run.
  set (src := bpy_path_abspath h (filepath_raw img)).
  set (t1 := note_texture_dir (dirname src) t).
  assert (Hp : processed_packed_names t1 = processed_packed_names t)
    by apply note_texture_dir_same.
  assert (Hh : handled t1 = handled t) by apply handled_note_texture_dir.
  destruct (exists_ (fs w) src); simpl.
  2: { run. step_done. }
  destruct (exists_ (fs w) (join dir (basename src))); simpl.
  - destruct (samefile (fs w) src (join dir (basename src))); run.
    + unfold set_filepath, reload, get_world, put_world. run. rewrite Hi. run.
      rewrite <- !app_assoc. simpl. step_done.
    + step_done.
  - run. unfold move, get_world, put_world. run.
    destruct (shutil_move h src (join dir (basename src)) (fs w)) as [f'|m]; run.
    + unfold set_filepath, reload, get_world, put_world. run. rewrite Hi. run.
      rewrite <- !app_assoc. simpl. step_done.
    + rewrite <- !app_assoc. simpl. step_done.
Qed.

(** One iteration of the loop. *)
Lemma process_image_spec (h : Host) (dir : string) (info : gmap string string)
    (i : nat) (img : image) (t : tally) (s : state message) :
  images (st_world s) !! i = Some img ->
  exists t' s' new,
    process_image h dir info i t s = (Ok t', s') /\
    st_trace s' = st_trace s ++ new /\
    libraries (st_world s') = libraries (st_world s) /\
    length (images (st_world s')) = length (images (st_world s)) /\
    (forall j, j <> i -> images (st_world s') !! j = images (st_world s) !! j) /\
    if bool_decide (is_Some (info !! img_name img)) then
      processed_packed_names t' = {[img_name img]} ∪ processed_packed_names t /\
      reports new <> [] /\
      (forall x, x ∈ reports new -> x = (img_name img, class_of_image img)) /\
      (handled t' + unexpected_count new = S (handled t))%nat
    else
      processed_packed_names t' = processed_packed_names t /\
      reports new = [] /\
      (handled t' + unexpected_count new = handled t)%nat.
Proof.
  intros Hi. unfold process_image, get_world. run. rewrite Hi.
  destruct (bool_decide (is_Some (info !! img_name img))) eqn:Hin.
  2: { exists t, s, []. rewrite app_nil_r. repeat split; auto. }
  unfold class_of_image.
  destruct (unpacked_to_file img) eqn:Hf.
  - destruct (try_move_unpacked_spec h dir i img (add_processed (img_name img) t) s Hi)
      as (t' & s' & new & Hrun & Htr & Hlib & Hlen & Hother & Hproc & Hne & Hrep & Hcnt).
    exists t', s', new. repeat split; try assumption.
  - destruct (packed_file img) eqn:Hp; run.
    + eexists _, _, _. split; [reflexivity|]. simpl. repeat split; try reflexivity.
      * discriminate.
      * intros x Hx. cbn in Hx. in_singletons Hx.
      * unfold handled, unexpected_count. simpl. rewrite length_app. simpl. lia.
    + eexists _, _, _. split; [reflexivity|]. simpl. repeat split; try reflexivity.
      * discriminate.
      * intros x Hx. cbn in Hx. in_singletons Hx.
      * unfold handled, unexpected_count. simpl. lia.
Qed.

(** The loop over the images [rest] that follow the images [pre]. *)
Lemma scan_images_spec (h : Host) (dir : string) (info : gmap string string)
    (rest pre : list image) (t : tally) (s : state message) :
  (forall j img, (pre ++ rest) !! j = Some img -> length pre <= j ->
                 images (st_world s) !! j = Some img)%nat ->
  exists t' s' new,
    scan_images h dir info (seq (length pre) (length rest)) t s = (Ok t', s') /\
    st_trace s' = st_trace s ++ new /\
    processed_packed_names t' =
      list_to_set (img_name <$> inventoried info rest) ∪ processed_packed_names t /\
    (forall x, x ∈ reports new <->
               exists img, img ∈ inventoried info rest /\
                           x = (img_name img, class_of_image img)) /\
    (handled t' + unexpected_count new = handled t + length (inventoried info rest))%nat.
Proof.
  revert pre t s. induction rest as [|img rest IH]; intros pre t s Hinv.
  - exists t, s, []. rewrite app_nil_r.
    assert (E : inventoried info [] = []) by reflexivity. rewrite E. simpl.
    split; [reflexivity|]. split; [reflexivity|].
    split; [simpl; now rewrite (left_id_L ∅ (∪))|]. split.
    + intros x. split.
      * intros Hx. by apply elem_of_nil in Hx.
      * intros (img & Himg & _). by apply elem_of_nil in Himg.
    + unfold unexpected_count. simpl. lia.
  - simpl. rewrite run_bind.
    assert (Hi : images (st_world s) !! length pre = Some img).
    { apply Hinv; [|lia]. rewrite lookup_app_r by lia.
      now replace (length pre - length pre)%nat with 0%nat by lia. }
    destruct (process_image_spec h dir info (length pre) img t s Hi)
      as (t1 & s1 & new1 & -> & Htr1 & _ & _ & Hother & Hcase).
    destruct (IH (pre ++ [img]) t1 s1) as (t2 & s2 & new2 & Hrun & Htr2 & Hproc & Hrep & Hcnt).
    { intros j img' Hj Hle. rewrite length_app in Hle. simpl in Hle.
      rewrite Hother by lia. apply Hinv; [|lia]. now rewrite <- app_assoc in Hj. }
    rewrite length_app in Hrun. simpl in Hrun.
    replace (length pre + 1)%nat with (S (length pre)) in Hrun by lia.
    rewrite Hrun. exists t2, s2, (new1 ++ new2).
    split; [reflexivity|]. split; [now rewrite Htr2, Htr1, app_assoc|].
    unfold inventoried in *. rewrite filter_cons.
    rewrite reports_app, unexpected_count_app.
    destruct (decide (is_Some (info !! img_name img))) as [Hin|Hin].
    + rewrite bool_decide_eq_true_2 in Hcase by assumption.
      destruct Hcase as (Hp1 & Hne1 & Hrep1 & Hcnt1).
      split.
      { rewrite Hproc, Hp1. apply set_eq. intros x.
        rewrite !elem_of_union, !elem_of_list_to_set, fmap_cons, elem_of_cons,
          elem_of_singleton. tauto. }
      split.
      * intros x. rewrite elem_of_app, Hrep. split.
        -- intros [Hx|(img' & Himg' & ->)].
           ++ exists img. split; [apply elem_of_cons; now left|now apply Hrep1].
           ++ exists img'. split; [apply elem_of_cons; now right|reflexivity].
        -- intros (img' & Himg' & ->). apply elem_of_cons in Himg' as [->|Himg'].
           ++ left. destruct (reports new1) as [|y ys] eqn:E; [contradiction|].
              rewrite <- (Hrep1 y); [apply elem_of_cons; now left|].
              apply elem_of_cons; now left.
           ++ right. eauto.
      * simpl. lia.
    + rewrite bool_decide_eq_false_2 in Hcase by assumption.
      destruct Hcase as (Hp1 & Hr1 & Hcnt1).
      split; [rewrite Hproc, Hp1; reflexivity|]. split.
      * intros x. rewrite Hr1. simpl. apply Hrep.
      * lia.
Qed.

Lemma report_missing_run (l : list string) (s : state message) :
  exists new,
    report_missing l s = (Ok tt, State (st_world s) (st_trace s ++ new)) /\
    reports new = (fun n => (n, Missing)) <$> l /\
    unexpected_count new = 0%nat.
Proof.
  assert (Hitems : forall l' : list string,
             reports ((fun x => Print (MissingItem x)) <$> l') = (fun n => (n, Missing)) <$> l' /\
             unexpected_count ((fun x => Print (MissingItem x)) <$> l') = 0%nat).
  { unfold reports, unexpected_count.
    induction l' as [|y l' [IH1 IH2]]; [split; reflexivity|].
    split; [|exact IH2]. cbn. f_equal. exact IH1. }
  unfold report_missing, when. destruct (bool_decide (l = [])) eqn:E; cbn [negb].
  - apply bool_decide_eq_true in E. subst l. exists []. rewrite app_nil_r.
    destruct s. repeat split.
  - rewrite run_bind, run_print, for_each_print. cbn [st_world st_trace].
    rewrite <- app_assoc. eexists. split; [reflexivity|].
    rewrite reports_app, unexpected_count_app.
    destruct (Hitems l) as [-> ->]. split; reflexivity.
Qed.

Lemma report_summary_run (t : tally) (s : state message) :
  exists new,
    report_summary t s = (Ok tt, State (st_world s) (st_trace s ++ new)) /\
    reports new = [] /\
    unexpected_count new = 0%nat.
Proof.
  unfold report_summary, when. rewrite run_bind, run_print.
  assert (Hitems : forall (f : string -> message) (l : list string),
             (forall x, reported_class (Print (f x)) = None) ->
             (forall x, is_unexpected_state (Print (f x)) = false) ->
             reports ((fun x => Print (f x)) <$> l) = [] /\
             unexpected_count ((fun x => Print (f x)) <$> l) = 0%nat).
  { intros f l Hf Hu. unfold reports, unexpected_count.
    induction l as [|x l [IH1 IH2]]; [split; reflexivity|].
    split.
    - change (omap reported_class ((fun x => Print (f x)) <$> x :: l))
        with (match reported_class (Print (f x)) with
              | Some y => y :: omap reported_class ((fun x => Print (f x)) <$> l)
              | None => omap reported_class ((fun x => Print (f x)) <$> l)
              end).
      now rewrite Hf.
    - change (List.filter is_unexpected_state ((fun x => Print (f x)) <$> x :: l))
        with (if is_unexpected_state (Print (f x))
              then Print (f x) :: List.filter is_unexpected_state ((fun x => Print (f x)) <$> l)
              else List.filter is_unexpected_state ((fun x => Print (f x)) <$> l)).
      now rewrite Hu. }
  destruct (Hitems FailureItem (failed_to_move t)) as [Hf1 Hf2]; [reflexivity..|].
  destruct (Hitems StillPackedItem (still_packed_after t)) as [Hs1 Hs2]; [reflexivity..|].
  destruct (bool_decide (failed_to_move t = [])); cbn [negb];
    destruct (bool_decide (still_packed_after t = [])); cbn [negb];
    repeat (rewrite ?run_bind, ?run_print, ?for_each_print; unfold ret;
            cbn [st_world st_trace]);
    rewrite <- ?app_assoc;
    (eexists; split; [reflexivity|]);
    rewrite ?reports_app, ?unexpected_count_app, ?Hf1, ?Hf2, ?Hs1, ?Hs2; auto.
Qed.

(** The reconciliation as a whole: it returns, and what it reports is what
    the loop reports for the inventoried images, then [Missing] for the
    names it did not meet. *)
Lemma reconcile_spec (h : Host) (dir : string) (info : gmap string string)
    (s : state message) :
  let imgs := images (st_world s) in
  exists t s' new,
    reconcile h dir info s = (Ok t, s') /\
    st_trace s' = st_trace s ++ new /\
    processed_packed_names t = list_to_set (img_name <$> inventoried info imgs) /\
    (forall x, x ∈ reports new <->
               (exists img, img ∈ inventoried info imgs /\
                            x = (img_name img, class_of_image img)) \/
               (exists n, n ∈ missing_after_unpack info t /\ x = (n, Missing))) /\
    (handled t + unexpected_count new = length (inventoried info imgs))%nat.
Proof.
  intros imgs. unfold reconcile, get_world.
  rewrite run_bind, run_print, run_bind. cbn [st_world st_trace]. fold imgs.
  destruct (scan_images_spec h dir info imgs [] tally0
              (State (st_world s) (st_trace s ++ [Print (Scanning dir)])))
    as (t & s1 & new1 & Hrun & Htr1 & Hproc & Hrep & Hcnt).
  { intros j img Hj _. exact Hj. }
  cbn [length] in Hrun. rewrite run_bind, Hrun.
  destruct (report_missing_run (elements (missing_after_unpack info t)) s1)
    as (new2 & Hrun2 & Hrep2 & Hu2).
  rewrite run_bind, Hrun2, run_bind.
  match goal with |- context [report_summary t ?s2] =>
    destruct (report_summary_run t s2) as (new3 & Hrun3 & Hrep3 & Hu3) end.
  rewrite Hrun3, run_bind.
  match goal with |- context [cleanup h ?l ?s3] =>
    destruct (cleanup_spec h l s3) as (f4 & new4 & Hrun4 & [Hrep4 Hu4] & _) end.
  rewrite Hrun4, run_ret. cbn [st_world st_trace] in *.
  eexists t, _, ([Print (Scanning dir)] ++ new1 ++ new2 ++ new3 ++ new4).
  split; [reflexivity|]. cbn [st_trace].
  split; [rewrite Htr1; cbn [st_trace]; now rewrite <- !app_assoc|].
  split; [rewrite Hproc; cbn; apply (right_id_L ∅ (∪))|].
  rewrite !reports_app, !unexpected_count_app, Hrep2, Hrep3, Hrep4, Hu2, Hu3, Hu4.
  split.
  - intros x. cbn [reports omap]. rewrite app_nil_r. cbn.
    rewrite elem_of_app, Hrep, list_elem_of_fmap. split.
    + intros [Hx|(n & -> & Hn)]; [now left|right].
      exists n. split; [now apply elem_of_elements in Hn|reflexivity].
    + intros [Hx|(n & Hn & ->)]; [now left|right].
      exists n. split; [reflexivity|now apply elem_of_elements].
  - change (unexpected_count [Print (Scanning dir)]) with 0%nat.
    unfold handled in Hcnt at 2. cbn in Hcnt. lia.
Qed.

Lemma class_of_image_confirmed (img : image) :
  class_of_image img = UnpackedConfirmed <->
  packed_file img = false /\ source img = "FILE" /\ filepath img <> "".
Proof.
  unfold class_of_image, unpacked_to_file.
  destruct (packed_file img); simpl.
  - split; [discriminate|intros [? _]; discriminate].
  - destruct (String.eqb_spec (source img) "FILE") as [Hs|Hs]; simpl.
    + destruct (filepath img); simpl.
      * split; [discriminate|]. intros (_ & _ & H). contradiction.
      * split; [|reflexivity]. intros _. repeat split; [assumption|discriminate].
    + split; [discriminate|]. intros (_ & H & _). contradiction.
Qed.

Lemma class_of_image_still_packed (img : image) :
  class_of_image img = StillPacked <-> packed_file img = true.
Proof.
  unfold class_of_image, unpacked_to_file.
  destruct (packed_file img); simpl; [tauto|].
  destruct (String.eqb _ _ && _); split; discriminate.
Qed.

Lemma class_of_image_anomalous (img : image) :
  class_of_image img = Anomalous <->
  packed_file img = false /\ ~ (source img = "FILE" /\ filepath img <> "").
Proof.
  pose proof (class_of_image_confirmed img) as Hc.
  pose proof (class_of_image_still_packed img) as Hs.
  destruct (class_of_image img) eqn:E.
  - split; [discriminate|]. intros [Hp Hn]. exfalso. apply Hn.
    destruct Hc as [Hc _]. destruct (Hc eq_refl) as (_ & ? & ?). auto.
  - split; [discriminate|]. intros [Hp _]. destruct Hs as [Hs _].
    rewrite (Hs eq_refl) in Hp. discriminate.
  - split; [|reflexivity]. intros _.
    destruct (packed_file img) eqn:Hp.
    + destruct Hs as [_ Hs]. specialize (Hs eq_refl). discriminate.
    + split; [reflexivity|]. intros [? ?]. destruct Hc as [_ Hc].
      assert (Anomalous = UnpackedConfirmed) by auto. discriminate.
  - unfold class_of_image in E.
    destruct (unpacked_to_file img); [discriminate|].
    destruct (packed_file img); discriminate.
Qed.

Lemma class_of_image_not_missing (img : image) : class_of_image img <> Missing.
Proof.
  unfold class_of_image. destruct (unpacked_to_file img); [discriminate|].
  destruct (packed_file img); discriminate.
Qed.

(** The class in words is the branch taken. *)
Lemma in_class_image (imgs : list image) (n : string) (c : asset_class) :
  c <> Missing ->
  in_class imgs n c <->
  exists img, img ∈ imgs /\ img_name img = n /\ class_of_image img = c.
Proof.
  intros Hc. destruct c; simpl; [| | |contradiction].
  - split; intros (img & Hin & Hn & H); exists img; (split; [assumption|]);
      (split; [assumption|]); now apply class_of_image_confirmed.
  - split; intros (img & Hin & Hn & H); exists img; (split; [assumption|]);
      (split; [assumption|]); now apply class_of_image_still_packed.
  - split.
    + intros (img & Hin & Hn & Hp & H). exists img. split; [assumption|].
      split; [assumption|]. apply class_of_image_anomalous. auto.
    + intros (img & Hin & Hn & H). exists img. split; [assumption|].
      split; [assumption|]. now apply class_of_image_anomalous.
Qed.

(** Names identify images when no two images share a name. *)
Lemma same_name_same_image (imgs : list image) (a b : image) :
  NoDup (img_name <$> imgs) -> a ∈ imgs -> b ∈ imgs ->
  img_name a = img_name b -> a = b.
Proof.
  induction imgs as [|x imgs IH]; intros Hnd Ha Hb Hn.
  - by apply elem_of_nil in Ha.
  - rewrite fmap_cons in Hnd. apply NoDup_cons in Hnd as [Hx Hnd].
    apply elem_of_cons in Ha as [->|Ha]; apply elem_of_cons in Hb as [->|Hb].
    + reflexivity.
    + exfalso. apply Hx. rewrite Hn. now apply list_elem_of_fmap_2.
    + exfalso. apply Hx. rewrite <- Hn. now apply list_elem_of_fmap_2.
    + now apply IH.
Qed.

(** What is reported for a name of the inventory. *)
Lemma reported_for_name (info : gmap string string) (imgs : list image) (t : tally)
    (rep : list (string * asset_class)) (n : string) (c : asset_class) :
  processed_packed_names t = list_to_set (img_name <$> inventoried info imgs) ->
  (forall x, x ∈ rep <->
             (exists img, img ∈ inventoried info imgs /\
                          x = (img_name img, class_of_image img)) \/
             (exists m, m ∈ missing_after_unpack info t /\ x = (m, Missing))) ->
  n ∈ dom info ->
  (n, c) ∈ rep <->
  (exists img, img ∈ imgs /\ img_name img = n /\ class_of_image img = c) \/
  (c = Missing /\ forall img, img ∈ imgs -> img_name img <> n).
Proof.
  intros Hproc Hrep Hn. rewrite Hrep. unfold missing_after_unpack, inventoried.
  rewrite Hproc. split.
  - intros [(img & Hin & Heq)|(m & Hm & Heq)].
    + left. apply list_elem_of_filter in Hin as [_ Hin]. inversion Heq; subst. eauto.
    + right. inversion Heq; subst m c. split; [reflexivity|].
      apply elem_of_difference in Hm as [_ Hm]. intros img Hin Hname. apply Hm.
      apply elem_of_list_to_set, list_elem_of_fmap. exists img. split; [auto|].
      apply list_elem_of_filter. split; [|assumption].
      rewrite Hname. now apply elem_of_dom.
  - intros [(img & Hin & Hname & Hc)|(-> & Hnone)].
    + left. exists img. split; [|now subst].
      apply list_elem_of_filter. split; [|assumption].
      rewrite Hname. now apply elem_of_dom.
    + right. exists n. split; [|reflexivity].
      apply elem_of_difference. split; [assumption|].
      intros Hin. apply elem_of_list_to_set, list_elem_of_fmap in Hin
        as (img & Hname & Hin).
      apply list_elem_of_filter in Hin as [_ Hin]. apply (Hnone img Hin). congruence.
Qed.

(** C1: the reconciliation of variant B returns, and for every name of the
    pre-unpack inventory what it reports names exactly one of the four
    classes, the one that the state of the session after the unpack puts the
    name in: unpacked-confirmed (no payload, source [FILE], non-empty path),
    still-packed (payload), anomalous (no payload, not in the file state) or
    missing (no image of that name). *)
Theorem reconcile_classifies (h : Host) (dir : string) (info : gmap string string)
    (s : state message) :
  NoDup (img_name <$> images (st_world s)) ->
  exists t s' new,
    reconcile h dir info s = (Ok t, s') /\
    st_trace s' = st_trace s ++ new /\
    forall n, n ∈ dom info ->
      (forall c, (n, c) ∈ reports new <-> in_class (images (st_world s)) n c) /\
      (exists c, (n, c) ∈ reports new /\
                 forall c', (n, c') ∈ reports new -> c' = c).
Proof.
  intros Hnd.
  destruct (reconcile_spec h dir info s) as (t & s' & new & Hrun & Htr & Hproc & Hrep & _).
  exists t, s', new. split; [exact Hrun|]. split; [exact Htr|].
  intros n Hn.
  pose proof (fun c => reported_for_name info _ t (reports new) n c Hproc Hrep Hn) as Hfor.
  split.
  - intros c. rewrite Hfor.
    assert (Hdec : c = Missing \/ c <> Missing)
      by (destruct c; auto; right; discriminate).
    destruct Hdec as [->|Hc].
    + simpl. split; [|auto].
      intros [(img & _ & _ & Hcl)|[_ H]]; [|exact H].
      now apply class_of_image_not_missing in Hcl.
    + rewrite in_class_image by assumption. split; [|auto].
      intros [H|[H _]]; [exact H|contradiction].
  - destruct (decide (n ∈ img_name <$> images (st_world s))) as [Hin|Hout].
    + apply list_elem_of_fmap in Hin as (img & -> & Hin).
      exists (class_of_image img). split.
      * apply Hfor. left. eauto.
      * intros c' Hc'. apply Hfor in Hc' as [(img' & Hin' & Hname & <-)|[_ Hnone]].
        -- f_equal. now apply (same_name_same_image (images (st_world s))).
        -- now destruct (Hnone img Hin).
    + assert (Hnone : forall img, img ∈ images (st_world s) -> img_name img <> n).
      { intros img Hin <-. apply Hout. now apply list_elem_of_fmap_2. }
      exists Missing. split.
      * apply Hfor. right. auto.
      * intros c' Hc'. apply Hfor in Hc' as [(img' & Hin' & Hname & _)|[-> _]].
        -- now destruct (Hnone img' Hin').
        -- reflexivity.
Qed.

End Reconciliation.

(** ** Every name of the inventory is accounted for *)

Section Accounting.
Import Py Bpy Script PosixPath.

(** The verification loop of variant A, as a whole. *)
Lemma verify_spec (names : list string) (unpacked_count : nat)
    (still_packed : list string) (s : state VariantA.message) :
  let w := st_world s in
  VariantA.verify names unpacked_count still_packed s =
  (Ok ((unpacked_count + length (omap (VariantA.verified_line w) names))%nat,
       still_packed ++ omap (VariantA.still_packed_item w) names),
   State w (st_trace s ++ omap (VariantA.verified_line w) names)).
Proof.
  revert unpacked_count still_packed s.
  induction names as [|n names IH]; intros u sp s.
  - simpl. rewrite !app_nil_r, Nat.add_0_r. now destruct s.
  - cbn [omap list_omap VariantA.verify].
    pose proof (eq_refl (VariantA.verified_line (st_world s) n)) as Hv.
    pose proof (eq_refl (VariantA.still_packed_item (st_world s) n)) as Hs.
    unfold VariantA.verified_line in Hv at 2.
    unfold VariantA.still_packed_item in Hs at 2.
    unfold get_world. rewrite run_bind. cbn [st_world].
    destruct (VariantA.images_get (st_world s) n) as [img|].
    + destruct (negb (packed_file img) && String.eqb (source img) "FILE").
      * rewrite Hv, Hs, run_bind, run_print, IH. cbn [st_world st_trace length].
        rewrite <- app_assoc. cbn [app]. rewrite Nat.add_succ_r. reflexivity.
      * destruct (packed_file img); rewrite Hv, Hs, IH; cbn [st_world st_trace];
          rewrite <- ?app_assoc; reflexivity.
    + rewrite Hv, Hs. apply IH.
Qed.



End Accounting.

(** ** The theorems on concrete sessions *)

Section Concrete.
Import Py Bpy Script Cli Examples.

Lemma reconcile_classifies_witness :
  exists t s' new,
    VariantB.reconcile (scripted_host true packed_session Ok) "/assets"
      (VariantB.packed_images_info packed_images) (start unpacked_session) = (Ok t, s') /\
    st_trace s' = [] ++ new /\
    forall n, n ∈ dom (VariantB.packed_images_info packed_images) ->
      (forall c, (n, c) ∈ VariantB.reports new <->
                 VariantB.in_class unpacked_images n c) /\
      (exists c, (n, c) ∈ VariantB.reports new /\
                 forall c', (n, c') ∈ VariantB.reports new -> c' = c).
Proof.
  apply (reconcile_classifies (scripted_host true packed_session Ok) "/assets"
           (VariantB.packed_images_info packed_images) (start unpacked_session)).
  apply (bool_decide_unpack _). vm_compute. exact I.
Defined.



Lemma collision_aborts_witness :
  VariantA.remove_packed_textures_from (scripted_host true packed_session Ok)
    "/assets/model.fbx" "/assets/model.fbx" (start empty_world) =
  (Raise (SystemExit (Some 1)),
   State empty_world
     [Print VariantA.ErrIdentical; Print (VariantA.MsgInput "/assets/model.fbx");
      Print (VariantA.MsgOutput "/assets/model.fbx")]).
Proof.
  apply (collision_aborts (scripted_host true packed_session Ok)
           "/assets/model.fbx" "/assets/model.fbx" (start empty_world)).
  reflexivity.
Defined.

(** C4 (as stated) fails: in background mode, a [RuntimeError] of the unpack
    operator that does not say "Nothing packed" is not fatal with a non-zero
    exit.  Variant A logs it as a note, exports and returns; variant B
    re-raises it instead of leaving with [sys.exit(1)]. *)
Lemma other_runtime_error_not_fatal :
  let h := failing_unpack_host (RuntimeError "Error: disk full") in
  let rA := VariantA.remove_packed_textures h "/assets/model.fbx"
              (start (World [] [] disk0)) in
  let rB := VariantB.unpack_fbx_textures h "/assets/model.fbx"
              (start (World [] [] disk0)) in
  background h = true /\
  PyStr.contains "Nothing packed" "Error: disk full" = false /\
  fst rA = Ok tt /\
  st_trace (snd rA) =
    [Print (VariantA.Processing "/assets/model.fbx");
     Print (VariantA.OutputtingTo "/assets/model_noTextures.fbx");
     Call SelectAll; Call ObjectDelete; Call (OrphansPurge true);
     Call (ImportFbx "/assets/model.fbx" false);
     Print VariantA.Imported; Print (VariantA.Found 4 4);
     Print VariantA.Attempting; Call (Makedirs "/assets/textures");
     Print (VariantA.TargetUnpackDir "/assets/textures");
     Call (UnpackAll "REMOVE");
     Print (VariantA.NoteUnpackError "Error: disk full");
     Print (VariantA.Exporting "/assets/model_noTextures.fbx");
     Call (ExportFbx "/assets/model_noTextures.fbx");
     Print VariantA.Exported; Print VariantA.Finished;
     Call QuitBlender] /\
  exit_status (fst rA) = None /\
  fst rB = Raise (RuntimeError "Error: disk full") /\
  exit_status (fst rB) = None.
Proof. vm_compute. repeat split. Qed.

Lemma unpack_exception_handling_witness :
  let h := failing_unpack_host (RuntimeError "Error: Nothing packed") in
  fst (VariantA.scan_unpack_export h "/assets/model_noTextures.fbx"
         (start packed_session)) = Ok tt /\
  fst (VariantB.scan_unpack_move h "/assets" (start packed_session)) = Ok tt.
Proof.
  intros h.
  destruct (unpack_exception_handling h (RuntimeError "Error: Nothing packed") eq_refl)
    as [HA HB].
  split.
  - rewrite (HA "/assets/model_noTextures.fbx" (start packed_session)
               (<["/assets/textures" := FNode 0 true]> disk0)).
    + vm_compute. reflexivity.
    + vm_compute. lia.
    + reflexivity.
    + reflexivity.
  - rewrite (HB "/assets" (start packed_session)).
    + vm_compute. reflexivity.
    + vm_compute. lia.
    + reflexivity.
Defined.

Lemma nothing_packed_no_unpack_witness :
  (exists new,
     st_trace (snd (VariantA.scan_unpack_export plain_host "/assets/model.fbx"
                      (start plain_session))) = [] ++ new /\
     forallb VariantA.quiet new = true) /\
  (exists new,
     VariantB.scan_unpack_move plain_host "/assets/model.fbx" (start plain_session) =
       (Ok tt, State plain_session ([] ++ new)) /\
     new = [Print (VariantB.Found 0); Print VariantB.NoPacked;
            Print VariantB.ProcessFinished;
            Print (VariantB.SuccessProcessed 0 "/assets/model.fbx");
            Print VariantB.Exiting; Call QuitBlender] /\
     forallb VariantB.quiet new = true) /\
  (exists new,
     st_trace (snd (VariantA.remove_packed_textures plain_host "/assets/model.fbx"
                      (start (World [] [] disk0)))) = [] ++ new /\
     forallb VariantA.quiet new = true) /\
  (exists new,
     st_trace (snd (VariantB.unpack_fbx_textures plain_host "/assets/model.fbx"
                      (start (World [] [] disk0)))) = [] ++ new /\
     forallb VariantB.quiet new = true).
Proof.
  assert (Himport : forall path b w w',
             bpy_ops plain_host (ImportFbx path b) w = Ok w' -> w' = plain_session).
  { intros path b w w' H. simpl in H. congruence. }
  destruct (nothing_packed_no_unpack plain_host "/assets/model.fbx")
    as (HA & HB & HA' & HB').
  split; [|split; [|split]].
  - apply (HA (start plain_session)). vm_compute. reflexivity.
  - apply (HB (start plain_session)). vm_compute. reflexivity.
  - apply HA'. intros path b w w' H. rewrite (Himport _ _ _ _ H).
    vm_compute. reflexivity.
  - apply HB'. intros path b w w' H. rewrite (Himport _ _ _ _ H).
    vm_compute. reflexivity.
Defined.



(** C9 (as stated) fails: with [-i/--input] absent, [argparse] leaves with
    status 2, and both variants end with that status in background mode. *)
Lemma missing_input_exits_with_2 :
  background plain_host = true /\
  parse_args (env_of []) (VariantA.script_args (argv (env_of []))) = ParserExit (Some 2) /\
  exit_status (fst (VariantA.main plain_host (env_of []) (start plain_session)))
    = Some 2 /\
  exit_status (fst (VariantB.main plain_host (env_of []) (start plain_session)))
    = Some 2.
Proof. vm_compute. repeat split. Qed.

Lemma parse_failure_status_witness :
  exit_status (fst (VariantA.main plain_host (env_of ["--output"; "x.fbx"])
                      (start plain_session))) = Some 2 /\
  exit_status (fst (VariantB.main plain_host (env_of ["--output"; "x.fbx"])
                      (start plain_session))) = Some 2.
Proof.
  destruct (parse_failure_status plain_host (env_of ["--output"; "x.fbx"]) (Some 2) eq_refl)
    as [HA HB].
  split.
  - apply (HA (start plain_session)). reflexivity.
  - apply (HB (start plain_session)). reflexivity.
Defined.

End Concrete.

(** * Further properties *)

(** ** The output path of variant A *)

Section OutputPathMore.
Import PyStr PosixPath VariantA.

Lemma lstrip_not_head (c x : ascii) (l : list ascii) :
  x <> c -> lstrip c (x :: l) = x :: l.
Proof. intros H. simpl. destruct (Ascii.eqb_spec x c); [contradiction|reflexivity]. Qed.

Lemma startswith_lstrip (c : ascii) (l : list ascii) : startswith c (lstrip c l) = false.
Proof.
  induction l as [|x l IH]; [reflexivity|]. simpl.
  destruct (Ascii.eqb_spec x c) as [->|Hne]; [exact IH|]. simpl.
  now apply Ascii.eqb_neq.
Qed.

(** [rstrip] leaves nothing to strip. *)
Lemma endswith_rstrip (c : ascii) (l : list ascii) : endswith c (rstrip c l) = false.
Proof. unfold endswith, rstrip. rewrite rev_involutive. apply startswith_lstrip. Qed.

Lemma rstrip_snoc (c : ascii) (l : list ascii) :
  endswith c l = false -> rstrip c (l ++ [c]) = l.
Proof.
  unfold endswith, rstrip. rewrite rev_app_distr. simpl. rewrite Ascii.eqb_refl.
  intros H. destruct (rev l) as [|x r] eqn:E.
  - simpl. apply (f_equal (@rev ascii)) in E. rewrite rev_involutive in E. now rewrite E.
  - simpl in H. simpl. rewrite H. rewrite <- E. apply rev_involutive.
Qed.

Lemma all_sep_snoc (l : list ascii) :
  all_sep (l ++ [sep]) = all_sep l.
Proof.
  unfold all_sep. rewrite forallb_app. simpl. now rewrite andb_true_r.
Qed.

Lemma all_sep_endswith (l : list ascii) :
  l <> [] -> all_sep l = true -> endswith sep l = true.
Proof.
  intros Hne Hall. unfold endswith.
  destruct (rev l) as [|x r] eqn:E.
  - apply (f_equal (@rev ascii)) in E. rewrite rev_involutive in E. contradiction.
  - simpl. unfold all_sep in Hall. rewrite forallb_forall in Hall. apply Hall.
    apply in_rev. rewrite E. now left.
Qed.

Lemma dirname_l_normal (p : list ascii) : dir_normal (dirname_l p).
Proof.
  unfold dirname_l, dir_normal.
  destruct (slice_to (rfind sep p + 1) p) as [|x head] eqn:E; [now left|].
  destruct (all_sep (x :: head)) eqn:Hall; [now left|].
  right. apply endswith_rstrip.
Qed.

Lemma slice_to_app_length (a b : list ascii) (c : ascii) :
  slice_to (Z.of_nat (length a) + 1) (a ++ c :: b) = a ++ [c].
Proof.
  unfold slice_to.
  replace (Z.to_nat (Z.of_nat (length a) + 1)) with (length (a ++ [c])).
  - rewrite (cons_middle c a b), app_assoc. apply take_app_length.
  - rewrite length_app. simpl. lia.
Qed.

Lemma dirname_l_after_sep (a b : list ascii) :
  sep ∉ b ->
  dirname_l (a ++ sep :: b) =
  if all_sep (a ++ [sep]) then a ++ [sep] else rstrip sep (a ++ [sep]).
Proof.
  intros Hb. unfold dirname_l, rfind. rewrite rfind_aux_last by assumption.
  rewrite Z.add_0_l, slice_to_app_length.
  destruct (a ++ [sep]) as [|x l] eqn:E; [|reflexivity].
  now destruct a.
Qed.

(** [dirname(join(d, f))] is [d], for a directory name [d] as [dirname]
    returns it and a file name [f] without separator. *)
Lemma dirname_l_join (d f : list ascii) :
  dir_normal d -> sep ∉ f -> dirname_l (join_l d f) = d.
Proof.
  intros Hd Hf. unfold join_l. rewrite startswith_no_sep by assumption.
  destruct d as [|x d].
  - simpl. unfold dirname_l.
    destruct (rfind_cases sep f) as [[_ ->]|(a & b & -> & _ & _)]; [reflexivity|].
    exfalso. apply Hf, elem_of_app. right. apply elem_of_cons. now left.
  - destruct (endswith sep (x :: d)) eqn:E.
    + destruct Hd as [Hall|Hend]; [|congruence].
      apply endswith_inv in E as [a' Ha']. rewrite Ha' in *.
      rewrite <- app_assoc. simpl. rewrite dirname_l_after_sep by assumption.
      now rewrite Hall.
    + rewrite dirname_l_after_sep by assumption.
      rewrite all_sep_snoc.
      destruct (all_sep (x :: d)) eqn:Hall.
      * apply all_sep_endswith in Hall; [congruence|discriminate].
      * now apply rstrip_snoc.
Qed.

Lemma no_sep_literal (s : string) :
  forallb (fun x => negb (Ascii.eqb x sep)) (list_ascii_of_string s) = true ->
  sep ∉ list_ascii_of_string s.
Proof.
  intros H Hin. rewrite forallb_forall in H. apply list_elem_of_In in Hin.
  specialize (H _ Hin). now rewrite Ascii.eqb_refl in H.
Qed.

(** The file name that [fbx_out_path] joins to the directory holds no
    separator. *)
Lemma output_filename_no_sep (l root ext ext' : list ascii) :
  splitext_l (basename_l l) = (root, ext) ->
  ext' = ext \/ ext' = list_ascii_of_string ".fbx" ->
  sep ∉ root ++ list_ascii_of_string "_noTextures" ++ ext'.
Proof.
  intros Hsplit Hext.
  pose proof (splitext_l_split (basename_l l)) as Hs. rewrite Hsplit in Hs.
  destruct Hs as [Hbase _].
  destruct (basename_l_split l) as (a & _ & Hnosep). rewrite <- Hbase in Hnosep.
  apply contains_sep_app; [now apply no_sep_app_l in Hnosep|].
  apply contains_sep_app; [now apply no_sep_literal|].
  destruct Hext as [->| ->]; [now apply no_sep_app_r in Hnosep|now apply no_sep_literal].
Qed.

(** [dirname] and [basename] of the derived output path. *)
Lemma fbx_out_path_split (p : string) :
  dirname (fbx_out_path p) = dirname p /\
  basename (fbx_out_path p) =
    name_root p +:+ "_noTextures" +:+
    (if is_fbx_ext (name_ext p) then name_ext p else ".fbx").
Proof.
  rewrite fbx_out_path_eq.
  unfold name_root, name_ext, splitext, join, dirname, basename.
  rewrite !list_ascii_of_string_of_list_ascii.
  destruct (splitext_l (basename_l (list_ascii_of_string p))) as [root ext] eqn:Hsplit.
  cbn [fst snd].
  set (ext' := if is_fbx_ext (string_of_list_ascii ext)
               then string_of_list_ascii ext else ".fbx").
  assert (Hext : list_ascii_of_string ext' = ext \/
                 list_ascii_of_string ext' = list_ascii_of_string ".fbx").
  { subst ext'. destruct (is_fbx_ext _);
      [left; apply list_ascii_of_string_of_list_ascii|right; reflexivity]. }
  rewrite !s2l_app, list_ascii_of_string_of_list_ascii.
  pose proof (output_filename_no_sep _ root ext _ Hsplit Hext) as Hno.
  split.
  - f_equal. apply dirname_l_join; [apply dirname_l_normal|exact Hno].
  - rewrite basename_l_join by exact Hno.
    apply s2l_inj.
    now rewrite list_ascii_of_string_of_list_ascii, !s2l_app,
      list_ascii_of_string_of_list_ascii.
Qed.

(** X1: the output file lies in the directory of the input, and its base
    name is the root of the input's base name, then [_noTextures], then the
    extension. *)
Theorem output_in_input_directory (p : string) :
  dirname (fbx_out_path p) = dirname p /\
  basename (fbx_out_path p) =
    name_root p +:+ "_noTextures" +:+
    (if is_fbx_ext (name_ext p) then name_ext p else ".fbx").
Proof. apply fbx_out_path_split. Qed.

(** The scanning loop returns the split at the dot as soon as it meets a
    character that is not a dot. *)
Lemma splitext_scan_found (n : nat) (p : list ascii) (i d : Z) (k : nat) (x : ascii) :
  0 <= i -> i <= Z.of_nat k < d -> n = Z.to_nat (d - i) ->
  p !! k = Some x -> x <> extsep ->
  splitext_scan n p i d = (slice_to d p, slice_from d p).
Proof.
  revert i. induction n as [|n IH]; intros i Hi Hk Hn Hpk Hx; [lia|].
  simpl. unfold chars_eqb, slice.
  replace (Z.to_nat (i + 1 - i)) with 1%nat by lia.
  destruct (decide (Z.of_nat k = i)) as [<-|Hne].
  - rewrite Nat2Z.id.
    destruct (drop k p) as [|y r] eqn:E.
    + apply (f_equal (fun l => l !! 0%nat)) in E. rewrite lookup_drop in E.
      rewrite Nat.add_0_r, Hpk in E. discriminate.
    + apply (f_equal (fun l => l !! 0%nat)) in E. rewrite lookup_drop in E.
      rewrite Nat.add_0_r, Hpk in E. simpl in E. inversion E; subst y.
      rewrite bool_decide_eq_false_2; [reflexivity|]. simpl. congruence.
  - destruct (negb _); [reflexivity|]. apply IH; try assumption; lia.
Qed.

(** The extension that [splitext] returns holds no second dot. *)
Lemma splitext_l_ext (p root ext : list ascii) :
  splitext_l p = (root, ext) ->
  ext = [] \/ exists b, ext = extsep :: b /\ (extsep ∉ b).
Proof.
  unfold splitext_l. destruct (rfind extsep p >? rfind sep p) eqn:E.
  - destruct (rfind_cases extsep p) as [[_ Hr]|(a & b & Hp & Hb & Hr)].
    + exfalso. rewrite Hr in E.
      destruct (rfind_cases sep p) as [[_ Hs]|(? & ? & _ & _ & Hs)]; rewrite Hs in E; lia.
    + rewrite Hr. generalize (Z.to_nat (Z.of_nat (length a) - (rfind sep p + 1))).
      generalize (rfind sep p + 1). intros i n. revert i.
      induction n as [|n IH]; intros i; simpl.
      * intros H. inversion H. now left.
      * destruct (negb _); [|apply IH].
        subst p. destruct (take_drop_at a (extsep :: b)) as [-> ->].
        intros H. inversion H. right. eauto.
  - intros H. inversion H. now left.
Qed.

(** [splitext] of a file name made of a root, [_noTextures] and an
    extension. *)
Lemma splitext_l_output (root b : list ascii) :
  sep ∉ root ++ list_ascii_of_string "_noTextures" ++ extsep :: b -> extsep ∉ b ->
  splitext_l (root ++ list_ascii_of_string "_noTextures" ++ extsep :: b) =
  (root ++ list_ascii_of_string "_noTextures", extsep :: b).
Proof.
  intros Hsep Hb.
  set (X := list_ascii_of_string "_noTextures") in *.
  unfold splitext_l.
  assert (Hs : rfind sep (root ++ X ++ extsep :: b) = -1).
  { unfold rfind. now apply rfind_aux_absent. }
  assert (Hd : rfind extsep (root ++ X ++ extsep :: b) = Z.of_nat (length (root ++ X))).
  { unfold rfind. rewrite app_assoc. rewrite rfind_aux_last by assumption. lia. }
  rewrite Hs, Hd.
  destruct (Z.gtb_spec (Z.of_nat (length (root ++ X))) (-1)) as [_|]; [|lia].
  rewrite (splitext_scan_found _ _ _ _ (length root) "_"%char); try lia.
  - rewrite app_assoc. destruct (take_drop_at (root ++ X) (extsep :: b)) as [-> ->].
    reflexivity.
  - rewrite length_app. subst X. simpl. lia.
  - rewrite lookup_app_r by lia. now replace (length root - length root)%nat with 0%nat by lia.
  - discriminate.
Qed.

(** X2: the output file name always splits into the root followed by
    [_noTextures] and an extension that the script accepts as [.fbx]; run on
    its own output, the script therefore prints no warning about the
    extension. *)
Theorem output_has_fbx_extension (p : string) :
  name_root (fbx_out_path p) = name_root p +:+ "_noTextures" /\
  name_ext (fbx_out_path p) = (if is_fbx_ext (name_ext p) then name_ext p else ".fbx") /\
  is_fbx_ext (name_ext (fbx_out_path p)) = true.
Proof.
  assert (Hgoal : name_root (fbx_out_path p) = name_root p +:+ "_noTextures" /\
                  name_ext (fbx_out_path p) =
                  (if is_fbx_ext (name_ext p) then name_ext p else ".fbx")).
  { unfold name_root at 1, name_ext at 1.
    destruct (fbx_out_path_split p) as [_ ->].
    unfold name_root, name_ext, splitext, basename.
    rewrite !list_ascii_of_string_of_list_ascii.
    destruct (splitext_l (basename_l (list_ascii_of_string p))) as [root ext] eqn:Hsplit.
    cbn [fst snd].
    set (ext' := if is_fbx_ext (string_of_list_ascii ext)
                 then string_of_list_ascii ext else ".fbx").
    assert (Hext : list_ascii_of_string ext' = ext \/
                   list_ascii_of_string ext' = list_ascii_of_string ".fbx").
    { subst ext'. destruct (is_fbx_ext _);
        [left; apply list_ascii_of_string_of_list_ascii|right; reflexivity]. }
    pose proof (output_filename_no_sep _ root ext _ Hsplit Hext) as Hno.
    assert (Hshape : exists b, list_ascii_of_string ext' = extsep :: b /\ (extsep ∉ b)).
    { subst ext'. destruct (is_fbx_ext (string_of_list_ascii ext)) eqn:Hfbx.
      - rewrite list_ascii_of_string_of_list_ascii.
        destruct (splitext_l_ext _ _ _ Hsplit) as [->|Hb]; [discriminate|exact Hb].
      - exists (list_ascii_of_string "fbx"). split; [reflexivity|].
        intros Hin. apply list_elem_of_In in Hin. simpl in Hin.
        repeat (destruct Hin as [Hin|Hin]; [discriminate|]). exact Hin. }
    destruct Hshape as (b & Hb & Hnodot).
    rewrite !s2l_app, list_ascii_of_string_of_list_ascii, Hb in *.
    rewrite splitext_l_output by assumption. cbn [fst snd].
    split.
    - apply s2l_inj.
      now rewrite list_ascii_of_string_of_list_ascii, s2l_app,
        list_ascii_of_string_of_list_ascii.
    - rewrite <- Hb. apply string_of_list_ascii_of_string. }
  destruct Hgoal as [Hroot Hext]. split; [exact Hroot|]. split; [exact Hext|].
  rewrite Hext. destruct (is_fbx_ext (name_ext p)) eqn:E; [exact E|reflexivity].
Qed.

End OutputPathMore.

(** ** The scans *)

Section Scans.
Import PyStr Py Bpy Script.

Lemma contains_l_app_r (x a b : list ascii) :
  contains_l x b = true -> contains_l x (a ++ b) = true.
Proof.
  intros H. induction a as [|c a IH]; [exact H|].
  simpl. rewrite IH. apply orb_true_r.
Qed.

(** The presumed file name always holds a dot. *)
Lemma original_filename_has_dot (name : string) :
  contains "." (VariantB.original_filename name) = true.
Proof.
  unfold VariantB.original_filename. destruct (contains "." name) eqn:E; [exact E|].
  unfold contains. rewrite s2l_app. now apply contains_l_app_r.
Qed.

Lemma packed_images_info_foldl (imgs : list image) (acc : gmap string string) (n : string) :
  foldl (fun info img =>
           if packed_file img
           then <[img_name img := VariantB.original_filename (img_name img)]> info
           else info) acc imgs !! n =
  if existsb (fun img => String.eqb (img_name img) n && packed_file img) imgs
  then Some (VariantB.original_filename n)
  else acc !! n.
Proof.
  revert acc. induction imgs as [|img imgs IH]; intros acc; simpl; [reflexivity|].
  rewrite IH.
  destruct (existsb (fun img0 => String.eqb (img_name img0) n && packed_file img0) imgs);
    [now rewrite orb_true_r|].
  rewrite orb_false_r.
  destruct (packed_file img); [|now rewrite andb_false_r].
  rewrite andb_true_r.
  destruct (String.eqb_spec (img_name img) n) as [->|Hn].
  - apply lookup_insert_eq.
  - now apply lookup_insert_ne.
Qed.

Lemma existsb_packed_named (imgs : list image) (n : string) :
  existsb (fun img => String.eqb (img_name img) n && packed_file img) imgs = true <->
  exists img, img ∈ imgs /\ img_name img = n /\ packed_file img = true.
Proof.
  rewrite existsb_exists. split.
  - intros (img & Hin & H). apply andb_true_iff in H as [Hn Hp].
    apply String.eqb_eq in Hn. exists img. split; [now apply list_elem_of_In|auto].
  - intros (img & Hin & Hn & Hp). exists img. split; [now apply list_elem_of_In|].
    apply andb_true_iff. split; [now apply String.eqb_eq|assumption].
Qed.

(** X3: the pre-unpack inventory of variant B holds exactly the names of
    the images that carry a payload; the file name it presumes for a name is
    the name itself when it holds a dot and the name followed by [.png]
    otherwise, so it always holds a dot; and the inventory is empty exactly
    when no image carries a payload. *)
Theorem packed_images_info_spec (imgs : list image) :
  (forall n v,
     VariantB.packed_images_info imgs !! n = Some v <->
     (exists img, img ∈ imgs /\ img_name img = n /\ packed_file img = true) /\
     v = VariantB.original_filename n) /\
  (forall n v, VariantB.packed_images_info imgs !! n = Some v -> contains "." v = true) /\
  (size (VariantB.packed_images_info imgs) = 0%nat <->
   forall img, img ∈ imgs -> packed_file img = false).
Proof.
  assert (Hlook : forall n v,
             VariantB.packed_images_info imgs !! n = Some v <->
             (exists img, img ∈ imgs /\ img_name img = n /\ packed_file img = true) /\
             v = VariantB.original_filename n).
  { intros n v. unfold VariantB.packed_images_info. rewrite packed_images_info_foldl.
    rewrite <- existsb_packed_named.
    destruct (existsb _ imgs).
    - split.
      + intros H. inversion H. auto.
      + intros [_ ->]. reflexivity.
    - rewrite lookup_empty. split.
      + discriminate.
      + intros [H _]. discriminate. }
  split; [exact Hlook|]. split.
  - intros n v H. apply Hlook in H as [_ ->]. apply original_filename_has_dot.
  - rewrite map_size_empty_iff, map_empty. split.
    + intros Hnone img Hin. destruct (packed_file img) eqn:Hp; [|reflexivity].
      specialize (Hnone (img_name img)).
      assert (Hsome : VariantB.packed_images_info imgs !! img_name img =
                      Some (VariantB.original_filename (img_name img))).
      { apply Hlook. split; [|reflexivity]. eauto. }
      congruence.
    + intros Hall n.
      destruct (VariantB.packed_images_info imgs !! n) as [v|] eqn:E; [|reflexivity].
      apply Hlook in E as [(img & Hin & _ & Hp) _].
      rewrite (Hall img Hin) in Hp. discriminate.
Qed.

Lemma filter_nil_iff {A} (f : A -> bool) (l : list A) :
  List.filter f l = [] <-> forall x, x ∈ l -> f x = false.
Proof.
  induction l as [|y l IH]; simpl.
  - split; [|reflexivity]. intros _ x Hx. by apply elem_of_nil in Hx.
  - destruct (f y) eqn:E.
    + split; [discriminate|]. intros H. specialize (H y).
      rewrite E in H. discriminate H. apply elem_of_cons. now left.
    + rewrite IH. split.
      * intros H x Hx. apply elem_of_cons in Hx as [->|Hx]; auto.
      * intros H x Hx. apply H. apply elem_of_cons. now right.
Qed.

Lemma size_names_zero {A} (name : A -> string) (f : A -> bool) (l : list A) :
  size (list_to_set (C := gset string) (name <$> List.filter f l)) = 0%nat <->
  forall x, x ∈ l -> f x = false.
Proof.
  rewrite <- filter_nil_iff. rewrite size_empty_iff. split.
  - intros H. destruct (List.filter f l) as [|y r]; [reflexivity|].
    exfalso. assert (Hin : name y ∈ (∅ : gset string)).
    { rewrite <- H. apply elem_of_list_to_set. simpl. apply elem_of_cons. now left. }
    by apply elem_of_empty in Hin.
  - intros ->. reflexivity.
Qed.

Lemma size_names_le {A} (name : A -> string) (l : list A) :
  (size (list_to_set (C := gset string) (name <$> l)) <= length l)%nat.
Proof.
  induction l as [|x l IH].
  - change (size (∅ : gset string) <= 0)%nat. rewrite size_empty. lia.
  - rewrite fmap_cons, list_to_set_cons. cbn [length].
    etransitivity; [rewrite size_union_alt; reflexivity|].
    rewrite size_singleton.
    pose proof (subseteq_size (list_to_set (C := gset string) (name <$> l) ∖ {[name x]})
                  (list_to_set (name <$> l))) as Hle.
    assert (size (list_to_set (C := gset string) (name <$> l) ∖ {[name x]}) <=
            size (list_to_set (C := gset string) (name <$> l)))%nat.
    { apply Hle. intros y Hy. apply elem_of_difference in Hy. tauto. }
    lia.
Qed.

(** X4: the count that variant A prints and tests before unpacking is zero
    exactly when no image and no library carries a payload, and never
    exceeds the number of images and libraries that do (names are counted
    once). *)
Theorem total_packed_before_spec (w : world) :
  let total := (size (VariantA.packed_images_before w) +
                size (VariantA.packed_others_before w))%nat in
  (total = 0%nat <->
   (forall img, img ∈ images w -> packed_file img = false) /\
   (forall lib, lib ∈ libraries w -> lib_packed_file lib = false)) /\
  (total <= length (List.filter packed_file (images w)) +
            length (List.filter lib_packed_file (libraries w)))%nat.
Proof.
  intros total. subst total.
  unfold VariantA.packed_images_before, VariantA.packed_others_before. split.
  - rewrite <- (size_names_zero img_name packed_file (images w)).
    rewrite <- (size_names_zero lib_name lib_packed_file (libraries w)). lia.
  - pose proof (size_names_le img_name (List.filter packed_file (images w))).
    pose proof (size_names_le lib_name (List.filter lib_packed_file (libraries w))).
    lia.
Qed.

End Scans.

(** ** The command line, continued *)

Section CommandLineMore.
Import PyStr Py Bpy Script Cli.

Lemma index_of_Some (x : string) (l : list string) (i : nat) :
  index_of x l = Some i ->
  exists pre post, l = pre ++ x :: post /\ (x ∉ pre) /\ i = length pre.
Proof.
  revert i. induction l as [|y l IH]; intros i; simpl; [discriminate|].
  destruct (String.eqb_spec y x) as [->|Hne].
  - intros H. inversion H. exists [], l. repeat split. apply not_elem_of_nil.
  - destruct (index_of x l) as [j|]; [|discriminate].
    intros H. inversion H. destruct (IH j eq_refl) as (pre & post & -> & Hpre & ->).
    exists (y :: pre), post. repeat split.
    apply not_elem_of_cons. split; [congruence|assumption].
Qed.

Lemma index_of_None (x : string) (l : list string) :
  index_of x l = None <-> x ∉ l.
Proof.
  induction l as [|y l IH]; simpl.
  - split; [intros _; apply not_elem_of_nil|reflexivity].
  - destruct (String.eqb_spec y x) as [->|Hne].
    + split; [discriminate|]. intros H. exfalso. apply H, elem_of_cons. now left.
    + destruct (index_of x l) as [j|].
      * split; [discriminate|]. intros H.
        assert (x ∉ l) by (intros Hin; apply H, elem_of_cons; now right).
        apply IH in H0. discriminate.
      * split; [|reflexivity]. intros _. apply not_elem_of_cons.
        split; [congruence|now apply IH].
Qed.

Lemma drop_after (pre post : list string) (x : string) :
  drop (length pre + 1) (pre ++ x :: post) = post.
Proof.
  rewrite (cons_middle x pre post), app_assoc.
  replace (length pre + 1)%nat with (length (pre ++ [x])) by (rewrite length_app; simpl; lia).
  apply drop_app_length.
Qed.

(** X5: the arguments that variant A hands to its parser are what follows
    the first [--] of the command line, and nothing at all when there is no
    [--]. *)
Theorem script_args_after_separator (argv : list string) :
  (forall pre post,
     argv = pre ++ "--" :: post -> "--" ∉ pre -> VariantA.script_args argv = post) /\
  ("--" ∉ argv -> VariantA.script_args argv = []) /\
  VariantA.script_args argv `suffix_of` argv.
Proof.
  unfold VariantA.script_args. split; [|split].
  - intros pre post -> Hpre.
    destruct (index_of "--" (pre ++ "--" :: post)) as [i|] eqn:E.
    + apply index_of_Some in E as (pre' & post' & Heq & Hpre' & ->).
      assert (pre' = pre).
      { clear -Heq Hpre Hpre'. revert pre' Heq Hpre'.
        induction pre as [|y pre IH]; intros pre' Heq Hpre'.
        - destruct pre' as [|z pre']; [reflexivity|]. inversion Heq; subst.
          exfalso. apply Hpre', elem_of_cons. now left.
        - destruct pre' as [|z pre'].
          + inversion Heq; subst. exfalso. apply Hpre, elem_of_cons. now left.
          + inversion Heq; subst. f_equal. apply IH; [|assumption|].
            * intros H. apply Hpre, elem_of_cons. now right.
            * intros H. apply Hpre', elem_of_cons. now right. }
      subst pre'. apply drop_after.
    + apply index_of_None in E. exfalso. apply E, elem_of_app. right.
      apply elem_of_cons. now left.
  - intros Hno. apply index_of_None in Hno. now rewrite Hno.
  - destruct (index_of "--" argv); [apply suffix_drop|apply suffix_nil].
Qed.

Lemma find_script_Some (file : string) (argv : list string) (k i : nat) :
  VariantB.find_script file argv k = Some i ->
  exists pre arg post,
    argv = pre ++ arg :: post /\ i = (k + length pre)%nat /\
    VariantB.names_script file arg = true /\
    forall a, a ∈ pre -> VariantB.names_script file a = false.
Proof.
  revert k. induction argv as [|a argv IH]; intros k; simpl; [discriminate|].
  fold (VariantB.names_script file a).
  destruct (VariantB.names_script file a) eqn:E.
  - intros H. inversion H. exists [], a, argv. simpl. repeat split; [lia|assumption|].
    intros x Hx. by apply elem_of_nil in Hx.
  - intros H. destruct (IH _ H) as (pre & arg & post & -> & -> & Harg & Hpre).
    exists (a :: pre), arg, post. simpl. repeat split; [lia|assumption|].
    intros x Hx. apply elem_of_cons in Hx as [->|Hx]; auto.
Qed.




(** X7: variant A's entry point.  When the parser returns an input that is
    not an existing file, it prints the error and leaves with status 1, in
    background and in interactive mode alike, before any host call;
    otherwise it runs the conversion on the absolute path. *)
Theorem main_checks_input_A (h : Host) (env : Env) (input : string)
    (s : state VariantA.message) :
  parse_args env (VariantA.script_args (argv env)) = Namespace input ->
  VariantA.main h env s =
  if isfile (fs (st_world s)) input then
    VariantA.remove_packed_textures h (os_path_abspath env input) s
  else
    (Raise (SystemExit (Some 1)),
     State (st_world s) (st_trace s ++ [Print (VariantA.ErrInputNotFound input)])).
Proof.
  intros Hp. unfold VariantA.main, get_world. rewrite Hp, run_bind. cbn [st_world].
  destruct (isfile (fs (st_world s)) input); [reflexivity|].
  cbn [negb]. rewrite run_bind, run_print. reflexivity.
Qed.

(** X8: variant B's entry point.  A relative input is joined to the
    working directory and reported; the resulting absolute path, when it is
    not an existing file, ends the run before any host call, with status 1
    in background mode and with [FileNotFoundError] otherwise; when it is, the
    function runs on it. *)
Theorem main_checks_input_B (h : Host) (env : Env) (input : string)
    (s : state VariantB.message) :
  let args := VariantB.script_args (script_file env) (argv env) in
  let relative := negb (startswith PosixPath.sep (list_ascii_of_string input)) in
  let resolved := if relative then PosixPath.join (os_getcwd env) input else input in
  let input_path_abs := os_path_abspath env resolved in
  let lines :=
    (if bool_decide (args = []) && negb (background h)
     then [Print VariantB.InfoUiNoArgs] else []) ++
    (if relative then [Print (VariantB.RelativeResolved input resolved (os_getcwd env))]
     else []) in
  parse_args env args = Namespace input ->
  VariantB.main h env s =
  if isfile (fs (st_world s)) input_path_abs then
    VariantB.unpack_fbx_textures h input_path_abs
      (State (st_world s) (st_trace s ++ lines))
  else
    (Raise (if background h then SystemExit (Some 1)
            else FileNotFoundError ("Input file not found: " +:+ input_path_abs)),
     State (st_world s)
       (st_trace s ++ lines ++
        [Print (VariantB.ErrInputNotFound input_path_abs);
         Print (VariantB.OriginalInput input)])).
Proof.
  intros args relative resolved input_path_abs lines Hp.
  unfold VariantB.main. fold args. rewrite Hp. unfold when, get_world.
  subst lines resolved input_path_abs relative.
  assert (Hrest : forall s0 : state VariantB.message,
    ((mret input : Script.M VariantB.message string) ≫= fun input_path_raw =>
     (if negb (startswith PosixPath.sep (list_ascii_of_string input_path_raw)) then
        let resolved := PosixPath.join (os_getcwd env) input_path_raw in
        print (VariantB.RelativeResolved input_path_raw resolved (os_getcwd env)) ;;
        mret resolved
      else mret input_path_raw) ≫= fun input_path_resolved =>
     let input_path_abs := os_path_abspath env input_path_resolved in
     (fun s1 => (Ok (st_world s1), s1)) ≫= fun w =>
     (if negb (isfile (fs w) input_path_abs) then
        print (VariantB.ErrInputNotFound input_path_abs) ;;
        print (VariantB.OriginalInput input_path_raw) ;;
        if background h then sys_exit 1
        else raise (FileNotFoundError ("Input file not found: " +:+ input_path_abs))
      else mret tt) ;;
     VariantB.unpack_fbx_textures h input_path_abs) s0 =
    let rel := negb (startswith PosixPath.sep (list_ascii_of_string input)) in
    let resolved := if rel then PosixPath.join (os_getcwd env) input else input in
    let lines := if rel
                 then [Print (VariantB.RelativeResolved input resolved (os_getcwd env))]
                 else [] in
    if isfile (fs (st_world s0)) (os_path_abspath env resolved) then
      VariantB.unpack_fbx_textures h (os_path_abspath env resolved)
        (State (st_world s0) (st_trace s0 ++ lines))
    else
      (Raise (if background h then SystemExit (Some 1)
              else FileNotFoundError ("Input file not found: " +:+
                                      os_path_abspath env resolved)),
       State (st_world s0)
         (st_trace s0 ++ lines ++
          [Print (VariantB.ErrInputNotFound (os_path_abspath env resolved));
           Print (VariantB.OriginalInput input)]))).
  { intros s0. rewrite run_bind, run_ret. cbv zeta.
    destruct (negb (startswith PosixPath.sep (list_ascii_of_string input)));
      repeat (rewrite ?run_bind, ?run_print, ?run_ret; cbn [st_world st_trace]);
      destruct (isfile _ _); cbn [negb];
      repeat (rewrite ?run_bind, ?run_print, ?run_ret; cbn [st_world st_trace]);
      rewrite <- ?app_assoc, ?app_nil_r; cbn [app];
      try (destruct s0; reflexivity);
      destruct (background h); reflexivity. }
  rewrite run_bind.
  destruct (bool_decide (args = []) && negb (background h)).
  - rewrite run_print, Hrest. cbv zeta. cbn [st_world st_trace].
    rewrite <- !app_assoc. reflexivity.
  - unfold ret. rewrite Hrest. cbv zeta. cbn [app]. reflexivity.
Qed.

(** X9: the function of variant B checks its input again.  Called on a path
    that is not an existing file, it prints the error and stops before any
    host call: with status 1 in background mode, with [FileNotFoundError]
    otherwise. *)
Theorem unpack_fbx_textures_missing_input (h : Host) (p : string)
    (s : state VariantB.message) :
  isfile (fs (st_world s)) p = false ->
  VariantB.unpack_fbx_textures h p s =
  (Raise (if background h then SystemExit (Some 1)
          else FileNotFoundError ("Input FBX file not found: " +:+ p)),
   State (st_world s) (st_trace s ++ [Print (VariantB.ErrNotFoundInFunction p)])).
Proof.
  intros Hf. unfold VariantB.unpack_fbx_textures, get_world.
  rewrite run_bind. cbn [st_world]. rewrite Hf. cbn [negb].
  rewrite !run_bind, run_print. cbn [st_world st_trace].
  destruct (background h); reflexivity.
Qed.

End CommandLineMore.

(** ** The move step of variant B, continued *)

Section MoveStepMore.
Import Py Bpy Script PosixPath VariantB.

Lemma run_move {msg} (h : Host) (src dst : string) (s : state msg) :
  move h src dst s =
  match shutil_move h src dst (fs (st_world s)) with
  | OsOk f' =>
      (Ok tt, State (World (images (st_world s)) (libraries (st_world s)) f')
                    (st_trace s ++ [Call (ShutilMove src dst)]))
  | OsFail m =>
      (Raise (OSError m), State (st_world s) (st_trace s ++ [Call (ShutilMove src dst)]))
  end.
Proof.
  unfold move. rewrite run_bind, run_emit, run_bind. unfold get_world. simpl.
  destruct (shutil_move h src dst (fs (st_world s))); reflexivity.
Qed.

Lemma run_set_filepath {msg} (i : nat) (path : string) (img : image) (s : state msg) :
  images (st_world s) !! i = Some img ->
  set_filepath i path s =
  (Ok tt,
   State (World (<[i := Image (img_name img) (packed_file img) (source img) path
                               (filepath_raw img)]> (images (st_world s)))
                (libraries (st_world s)) (fs (st_world s)))
         (st_trace s ++ [Call (SetFilepath (img_name img) path)])).
Proof.
  intros Hi. unfold set_filepath, get_world. rewrite run_bind. cbn [st_world].
  rewrite Hi. rewrite run_bind, run_emit. reflexivity.
Qed.

(** X10: an image reported as unpacked whose extracted file is not on disk:
    the step calls no move, leaves the session and the disk as they are,
    prints the warning, records the image as failed and returns. *)
Theorem source_missing_handling (h : Host) (dir : string) (info : gmap string string)
    (i : nat) (img : image) (t : tally) (s : state message) :
  let w := st_world s in
  let src := bpy_path_abspath h (filepath_raw img) in
  let t1 := note_texture_dir (dirname src) (add_processed (img_name img) t) in
  images w !! i = Some img ->
  is_Some (info !! img_name img) ->
  unpacked_to_file img = true ->
  exists_ (fs w) src = false ->
  process_image h dir info i t s =
  (Ok (add_failed (img_name img +:+ " (source file missing)") t1),
   State w (st_trace s ++ [Print (WarnSourceMissing (img_name img) src)])).
Proof.
  intros w src t1 Hi Hin Hfile Hsrc.
  unfold process_image, get_world. rewrite run_bind. cbn [st_world]. fold w. rewrite Hi.
  rewrite bool_decide_eq_true_2 by assumption. rewrite Hfile.
  unfold try_move_unpacked, try_except, move_unpacked, get_world.
  rewrite run_bind. cbn [st_world]. fold w src. rewrite Hsrc. cbn [negb].
  rewrite run_bind, run_print. reflexivity.
Qed.






End MoveStepMore.

(** ** The calls a run may issue *)

Section ExpectedCalls.
Import PyStr Py Bpy Script PosixPath.
Context {msg : Type} (ok : event msg -> bool).

(** A script whose every run only adds accepted events. *)
Lemma adds_only_of_run {A} (m : M msg A) :
  (forall s, exists new, st_trace (snd (m s)) = st_trace s ++ new /\ forallb ok new = true) ->
  adds_only ok (fun _ => True) m (fun _ _ => True).
Proof.
  intros H s _. destruct (H s) as (new & Htr & Hok). exists new. repeat split; assumption.
Qed.

Lemma adds_only_print (m : msg) :
  ok (Print m) = true -> adds_only ok (fun _ => True) (print m) (fun _ _ => True).
Proof. intros H. unfold print. now apply adds_only_emit. Qed.

Lemma adds_only_call (h : Host) (c : host_call) :
  ok (Call c) = true -> adds_only ok (fun _ => True) (op h c) (fun _ _ => True).
Proof. intros H. apply adds_only_op with (Q := fun _ => True); auto. Qed.

Lemma adds_only_makedirs (h : Host) (d : string) :
  ok (Call (Makedirs d)) = true ->
  adds_only ok (fun _ => True) (makedirs h d) (fun _ _ => True).
Proof.
  intros H. apply adds_only_of_run. intros s. exists [Call (Makedirs d)].
  rewrite run_makedirs. destruct (os_makedirs h d _); simpl; now rewrite H.
Qed.

Lemma adds_only_when (b : bool) (m : M msg unit) :
  adds_only ok (fun _ => True) m (fun _ _ => True) ->
  adds_only ok (fun _ => True) (when b m) (fun _ _ => True).
Proof. intros H. destruct b; [exact H|]. apply adds_only_ret. auto. Qed.

Lemma adds_only_for_each {A} (l : list A) (body : A -> M msg unit) :
  (forall x, x ∈ l -> adds_only ok (fun _ => True) (body x) (fun _ _ => True)) ->
  adds_only ok (fun _ => True) (for_each l body) (fun _ _ => True).
Proof.
  induction l as [|x l IH]; intros H; simpl.
  - apply adds_only_ret. auto.
  - eapply adds_only_bind; [apply H, elem_of_cons; now left|].
    intros ?. apply IH. intros y Hy. apply H, elem_of_cons. now right.
Qed.

Lemma adds_only_assume {A} (phi : Prop) (m : M msg A) (Q : A -> world -> Prop) :
  (phi -> adds_only ok (fun _ => True) m Q) -> adds_only ok (fun _ => phi) m Q.
Proof. intros H s Hs. apply (H Hs s I). Qed.

Lemma adds_only_post {A} (P : world -> Prop) (m : M msg A) (Q : A -> world -> Prop) :
  adds_only ok P m Q -> adds_only ok P m (fun _ _ => True).
Proof. intros H. eapply adds_only_weaken; [exact H|auto|auto]. Qed.

End ExpectedCalls.

Section ExpectedCallsA.
Import PyStr Py Bpy Script PosixPath VariantA.

Ltac then_ := intros ?; cbv beta.
Ltac printing := eapply adds_only_bind; [apply adds_only_print; reflexivity|then_].
Ltac calling := eapply adds_only_bind; [apply adds_only_call; reflexivity|then_].

Lemma abort_or_reraise_expected {A} (p : string) (h : Host) (e : exn) :
  adds_only (expected_event p) (fun _ => True) (abort_or_reraise (A := A) h e)
    (fun _ _ => True).
Proof.
  unfold abort_or_reraise. destruct (background h); [|apply adds_only_raise].
  eapply adds_only_bind; [unfold quit_blender; now apply adds_only_emit|].
  then_. apply adds_only_raise.
Qed.

Lemma forallb_prints (p : string) (f : string -> option (event message)) (l : list string) :
  (forall n e, f n = Some e -> exists m, e = Print m) ->
  forallb (expected_event p) (omap f l) = true.
Proof.
  intros Hf. induction l as [|n l IH]; [reflexivity|].
  cbn [omap list_omap]. destruct (f n) as [e|] eqn:E; [|exact IH].
  destruct (Hf n e E) as [m ->]. simpl. exact IH.
Qed.

(** X13: whatever the host answers, variant A only issues the calls of its
    pipeline, with these arguments: the reset, the import of the input file,
    the creation of the [textures] folder beside the output, the unpack with
    [REMOVE], the export to the derived path, and the quit.  It never moves
    or removes a file, and never changes the path of an image. *)
Theorem remove_packed_textures_calls (h : Host) (p : string) (s : state message) :
  exists new,
    st_trace (snd (remove_packed_textures h p s)) = st_trace s ++ new /\
    forallb (expected_event p) new = true.
Proof.
  cut (adds_only (expected_event p) (fun _ => True) (remove_packed_textures h p)
         (fun _ _ => True)).
  { intros H. destruct (H s I) as (new & Htr & Hok & _). eauto. }
  clear s. intros s HP. rewrite remove_packed_textures_run. revert s HP.
  change (adds_only (expected_event p) (fun _ => True)
            (when (negb (is_fbx_ext (name_ext p))) (print (WarnNotFbx (basename p))) ;;
             remove_packed_textures_from h p (fbx_out_path p))
            (fun _ _ => True)).
  eapply adds_only_bind; [apply adds_only_when, adds_only_print; reflexivity|then_].
  unfold remove_packed_textures_from.
  eapply adds_only_bind with (Q := fun _ _ => True).
  { unfold check_collision. destruct (String.eqb _ _); [|apply adds_only_ret; auto].
    do 3 printing. destruct (background h); apply adds_only_raise. }
  then_. unfold convert. do 2 printing. do 3 calling.
  eapply adds_only_bind with (Q := fun _ _ => True).
  { apply adds_only_try.
    - eapply adds_only_bind; [apply adds_only_call; simpl; now rewrite String.eqb_refl|then_].
      apply adds_only_print. reflexivity.
    - intros e hd Hhd. destruct (is_Exception e); [|discriminate].
      inversion Hhd; subst hd. printing. apply abort_or_reraise_expected. }
  then_. unfold scan_unpack_export.
  eapply adds_only_bind; [apply adds_only_get_world|then_].
  eapply adds_only_weaken with (P := fun _ => True) (Q := fun _ _ => True); [|auto|auto].
  printing.
  eapply adds_only_bind with (Q := fun _ _ => True).
  { unfold unpack_step. destruct (_ <? _)%nat; [|apply adds_only_print; reflexivity].
    printing. apply adds_only_try.
    - unfold unpack_and_verify.
      eapply adds_only_bind;
        [apply adds_only_makedirs; simpl; now rewrite String.eqb_refl|then_].
      printing. calling. printing.
      eapply adds_only_bind with (Q := fun _ _ => True).
      { apply adds_only_of_run. intros s. rewrite verify_spec. cbn [snd st_trace].
        eexists. split; [reflexivity|]. apply forallb_prints.
        intros n e. unfold verified_line. destruct (images_get _ n); [|discriminate].
        destruct (_ && _); [|discriminate]. intros H. inversion H. eauto. }
      intros [u sp]. cbv beta.
      eapply adds_only_bind.
      { apply adds_only_when. printing. apply adds_only_for_each.
        intros x _. apply adds_only_print. reflexivity. }
      then_. apply adds_only_print. reflexivity.
    - intros e hd Hhd. destruct (is_RuntimeError e).
      + inversion Hhd; subst hd. apply adds_only_print. reflexivity.
      + destruct (is_Exception e); [|discriminate]. inversion Hhd; subst hd.
        printing. apply abort_or_reraise_expected. }
  then_. unfold export_step.
  eapply adds_only_bind with (Q := fun _ _ => True).
  { apply adds_only_try.
    - printing.
      eapply adds_only_bind; [apply adds_only_call; simpl; now rewrite String.eqb_refl|then_].
      apply adds_only_print. reflexivity.
    - intros e hd Hhd. destruct (is_Exception e); [|discriminate].
      inversion Hhd; subst hd. printing. apply abort_or_reraise_expected. }
  then_. printing. apply adds_only_when. unfold quit_blender. now apply adds_only_emit.
Qed.

End ExpectedCallsA.

Section ExpectedCallsB.
Import PyStr Py Bpy Script PosixPath VariantB.

Ltac then_ := intros ?; cbv beta.
Ltac printing := eapply adds_only_bind; [apply adds_only_print; reflexivity|then_].
Ltac calling := eapply adds_only_bind; [apply adds_only_call; reflexivity|then_].

(** The target path keeps the base name of the extracted file. *)
Lemma basename_target (d src : string) : basename (join d (basename src)) = basename src.
Proof.
  unfold basename, join. rewrite !list_ascii_of_string_of_list_ascii.
  f_equal. apply basename_l_join.
  destruct (basename_l_split (list_ascii_of_string src)) as (a & _ & H). exact H.
Qed.

Lemma texture_dirs_only_note (d : string) (t : tally) :
  texture_dirs_only t -> texture_dirs_only (note_texture_dir d t).
Proof.
  intros Ht. unfold note_texture_dir.
  destruct (String.eqb (lower (basename d)) "textures") eqn:E; [|exact Ht].
  intros d' Hd'. simpl in Hd'. apply elem_of_union in Hd' as [Hd'|Hd'].
  - apply elem_of_singleton in Hd'. now subst d'.
  - now apply Ht.
Qed.

Ltac branch_done Hdirs :=
  cbn [fst snd st_trace]; rewrite <- ?app_assoc; eexists;
  split; [reflexivity|];
  split; [cbn; rewrite ?String.eqb_refl, ?basename_target, ?String.eqb_refl; reflexivity|];
  let a := fresh "a" in let Ha := fresh "Ha" in
  intros a Ha; inversion Ha; subst; exact Hdirs.

(** One iteration of the loop only issues expected calls, and only records
    folders named [textures]. *)
Lemma process_image_expected (h : Host) (p : string) (info : gmap string string)
    (i : nat) (t : tally) :
  texture_dirs_only t ->
  adds_only (expected_event p) (fun _ => True)
    (process_image h (dirname p) info i t) (fun t' _ => texture_dirs_only t').
Proof.
  intros Ht s _. unfold process_image, get_world. rewrite run_bind. cbn [st_world].
  destruct (images (st_world s) !! i) as [img|] eqn:Hi.
  2: { exists []. rewrite app_nil_r, run_ret. repeat split.
       intros a Ha. inversion Ha; subst. exact Ht. }
  destruct (bool_decide (is_Some (info !! img_name img))).
  2: { exists []. rewrite app_nil_r, run_ret. repeat split.
       intros a Ha. inversion Ha; subst. exact Ht. }
  assert (Ht0 : texture_dirs_only (add_processed (img_name img) t)) by exact Ht.
  destruct (unpacked_to_file img).
  2: { destruct (packed_file img); rewrite run_bind, run_print, run_ret;
         branch_done Ht0. }
  unfold try_move_unpacked, try_except, move_unpacked, get_world.
  rewrite run_bind. cbn [st_world].
  set (src := bpy_path_abspath h (filepath_raw img)).
  set (t1 := note_texture_dir (dirname src) (add_processed (img_name img) t)).
  assert (Ht1 : texture_dirs_only t1) by now apply texture_dirs_only_note.
  assert (Hfail : forall item, texture_dirs_only (add_failed item t1)) by (intros; exact Ht1).
  assert (Hmoved : texture_dirs_only (add_moved t1)) by exact Ht1.
  destruct (exists_ (fs (st_world s)) src); cbn [negb].
  2: { rewrite run_bind, run_print, run_ret. branch_done (Hfail (img_name img +:+ " (source file missing)")). }
  destruct (exists_ (fs (st_world s)) (join (dirname p) (basename src))).
  - destruct (samefile _ _ _).
    + rewrite run_bind, run_print, run_bind, (run_set_filepath i _ img) by exact Hi.
      unfold reload. rewrite run_bind, run_emit, run_ret. branch_done Hmoved.
    + rewrite run_bind, run_print, run_ret.
      branch_done (Hfail (img_name img +:+ " (target exists: " +:+ basename src +:+ ")")).
  - rewrite run_bind, run_print, run_bind, run_move. cbn [st_world st_trace].
    destruct (shutil_move h src _ _) as [f'|m].
    + rewrite run_bind, (run_set_filepath i _ img) by exact Hi.
      unfold reload. rewrite run_bind, run_emit, run_ret. branch_done Hmoved.
    + cbn [is_Exception str]. rewrite run_bind, run_print, run_ret.
      branch_done (Hfail (img_name img +:+ " (error: " +:+ m +:+ ")")).
Qed.

Lemma scan_images_expected (h : Host) (p : string) (info : gmap string string)
    (idxs : list nat) (t : tally) :
  texture_dirs_only t ->
  adds_only (expected_event p) (fun _ => True)
    (scan_images h (dirname p) info idxs t) (fun t' _ => texture_dirs_only t').
Proof.
  revert t. induction idxs as [|i idxs IH]; intros t Ht; simpl.
  - apply adds_only_ret. auto.
  - eapply adds_only_bind.
    + eapply adds_only_weaken; [apply (process_image_expected h p info i t Ht)|auto|].
      intros a w Ha. exact Ha.
    + then_. apply adds_only_assume. intros Ha. now apply IH.
Qed.

Lemma cleanup_dir_expected (h : Host) (p d : string) :
  String.eqb (lower (basename d)) "textures" = true ->
  adds_only (expected_event p) (fun _ => True) (cleanup_dir h d) (fun _ _ => True).
Proof.
  intros Hd. apply adds_only_of_run. intros s. rewrite cleanup_dir_run.
  destruct (fs (st_world s) !! d) as [n|].
  - destruct (dir_empty _ _); [destruct (rmdir_error _ _ _)|destruct (is_dir n)];
      cbn [snd st_trace]; eexists; (split; [reflexivity|]); cbn; now rewrite ?Hd.
  - exists []. now rewrite app_nil_r.
Qed.

(** X14: whatever the host and the disk answer, variant B only issues these
    calls: the reset, the import of the input file, the unpack with
    [USE_LOCAL], moves of extracted files into the input's directory under
    their own base name, assignments of paths that lie directly in that
    directory, reloads, removals of folders named [textures], and the quit.
    It never exports a file and never creates a folder. *)
Theorem unpack_fbx_textures_calls (h : Host) (p : string) (s : state message) :
  exists new,
    st_trace (snd (unpack_fbx_textures h p s)) = st_trace s ++ new /\
    forallb (expected_event p) new = true.
Proof.
  cut (adds_only (expected_event p) (fun _ => True) (unpack_fbx_textures h p)
         (fun _ _ => True)).
  { intros H. destruct (H s I) as (new & Htr & Hok & _). eauto. }
  clear s. unfold unpack_fbx_textures.
  eapply adds_only_bind; [apply adds_only_get_world|then_].
  eapply adds_only_weaken with (P := fun _ => True) (Q := fun _ _ => True); [|auto|auto].
  eapply adds_only_bind with (Q := fun _ _ => True).
  { destruct (negb _); [|apply adds_only_ret; auto].
    printing. destruct (background h); apply adds_only_raise. }
  then_. do 2 printing. do 5 calling.
  eapply adds_only_bind with (Q := fun _ _ => True).
  { apply adds_only_try.
    - eapply adds_only_bind; [apply adds_only_call; simpl; now rewrite String.eqb_refl|then_].
      apply adds_only_print. reflexivity.
    - intros e hd Hhd. destruct (is_Exception e); [|discriminate].
      inversion Hhd; subst hd. printing. destruct (background h); apply adds_only_raise. }
  then_. unfold scan_unpack_move.
  eapply adds_only_bind; [apply adds_only_get_world|then_].
  eapply adds_only_weaken with (P := fun _ => True) (Q := fun _ _ => True); [|auto|auto].
  printing.
  eapply adds_only_bind with (Q := fun _ _ => True).
  { unfold unpack_step. destruct (_ <? _)%nat.
    - printing. apply adds_only_try.
      + calling. printing. apply adds_only_ret. auto.
      + intros e hd Hhd. destruct (is_RuntimeError e).
        * inversion Hhd; subst hd. printing.
          destruct (contains _ _); [apply adds_only_ret; auto|apply adds_only_raise].
        * destruct (is_Exception e); [|discriminate]. inversion Hhd; subst hd.
          printing. destruct (background h); apply adds_only_raise.
    - printing. apply adds_only_ret. auto. }
  intros total. cbv beta.
  eapply adds_only_bind with (Q := fun _ _ => True).
  { destruct (_ <? _)%nat; [|apply adds_only_ret; auto].
    unfold reconcile. printing.
    eapply adds_only_bind; [apply adds_only_get_world|intros w'; cbv beta].
    eapply adds_only_weaken with (P := fun _ => True) (Q := fun _ _ => True); [|auto|auto].
    eapply adds_only_bind.
    { apply scan_images_expected. intros d Hd. by apply elem_of_empty in Hd. }
    intros t. cbv beta. apply adds_only_assume. intros Ht.
    eapply adds_only_bind with (Q := fun _ _ => True).
    { unfold report_missing. apply adds_only_when. printing.
      apply adds_only_for_each. intros x _. apply adds_only_print. reflexivity. }
    then_.
    eapply adds_only_bind with (Q := fun _ _ => True).
    { unfold report_summary. printing.
      eapply adds_only_bind with (Q := fun _ _ => True).
      { apply adds_only_when. printing.
        apply adds_only_for_each. intros x _. apply adds_only_print. reflexivity. }
      then_. apply adds_only_when. printing.
      apply adds_only_for_each. intros x _. apply adds_only_print. reflexivity. }
    then_.
    eapply adds_only_bind with (Q := fun _ _ => True).
    { unfold cleanup. apply adds_only_for_each. intros d Hd.
      apply cleanup_dir_expected. apply Ht. now apply elem_of_elements in Hd. }
    then_. apply adds_only_ret. auto. }
  intros t. cbv beta. unfold finish. printing.
  eapply adds_only_bind with (Q := fun _ _ => True).
  { destruct (_ || _); apply adds_only_print; reflexivity. }
  then_. destruct (background h).
  - printing. unfold quit_blender. now apply adds_only_emit.
  - apply adds_only_print. reflexivity.
Qed.

End ExpectedCallsB.

(** ** The clean-up, continued *)

Section CleanupMore.
Import Py Bpy Script VariantB.

(** What one iteration of the clean-up does to the disk. *)
Lemma cleanup_dir_fs (h : Host) (d : string) (s : state message) :
  let f := fs (st_world s) in
  let f' := fs (st_world (snd (cleanup_dir h d s))) in
  images (st_world (snd (cleanup_dir h d s))) = images (st_world s) /\
  libraries (st_world (snd (cleanup_dir h d s))) = libraries (st_world s) /\
  (f' = f \/ (f' = delete d f /\ dir_empty f d = true)).
Proof.
  intros f f'. subst f f'.
  destruct (cleanup_dir_spec h d s) as (f1 & new & Hrun & _ & Hcase).
  rewrite Hrun. cbn [snd st_world images libraries fs].
  split; [reflexivity|]. split; [reflexivity|].
  destruct Hcase as [(-> & _ & He & _)|(-> & _)]; auto.
Qed.

(** An entry that no clean-up can remove: a regular file, or a folder that
    holds a regular file. *)
Lemma pinned_step (f : gmap string fnode) (d p : string) (n : fnode) :
  f !! p = Some n ->
  (is_dir n = false \/
   exists q m, f !! q = Some m /\ is_dir m = false /\ PosixPath.dirname q = p /\ q <> p) ->
  dir_empty f d = true -> p <> d.
Proof.
  intros Hp Hpin Hempty ->. apply dir_empty_true_iff in Hempty as [(n' & Hn' & Hdir) Hall].
  destruct Hpin as [Hfile|(q & m & Hq & _ & Hqd & Hne)].
  - congruence.
  - apply Hne, Hall; eauto.
Qed.

(** X15: the clean-up never removes a regular file, nor a folder that holds
    a regular file, whatever folders it is given and in whatever order; and
    it leaves the images and the libraries of the session as they are. *)
Theorem cleanup_keeps_files (h : Host) (dirs : list string) (s : state message) :
  let f0 := fs (st_world s) in
  let s2 := snd (cleanup h dirs s) in
  let f2 := fs (st_world s2) in
  images (st_world s2) = images (st_world s) /\
  libraries (st_world s2) = libraries (st_world s) /\
  (forall p n, f0 !! p = Some n -> is_dir n = false -> f2 !! p = Some n) /\
  (forall d n q m,
     f0 !! d = Some n -> f0 !! q = Some m -> is_dir m = false ->
     PosixPath.dirname q = d -> q <> d -> f2 !! d = Some n).
Proof.
  revert s. induction dirs as [|d dirs IH]; intros s; [cbn; auto|].
  cbv zeta. unfold cleanup. simpl. rewrite run_bind.
  destruct (cleanup_dir_fs h d s) as (Hi & Hl & Hf).
  destruct (cleanup_dir_spec h d s) as (f1 & new & Hrun & _ & _).
  rewrite Hrun in *. cbn [snd st_world images libraries fs] in *.
  specialize (IH (State (World (images (st_world s)) (libraries (st_world s)) f1)
                        (st_trace s ++ new))).
  cbv zeta in IH. unfold cleanup in IH.
  destruct IH as (IHi & IHl & IHfile & IHdir). cbn [st_world images libraries fs] in *.
  assert (Hkeep_file : forall p n, fs (st_world s) !! p = Some n -> is_dir n = false ->
                                   f1 !! p = Some n).
  { intros p n Hp Hn. destruct Hf as [->|[-> He]]; [exact Hp|].
    rewrite lookup_delete_ne; [exact Hp|].
    intros <-. now apply (pinned_step _ d d n Hp (or_introl Hn) He). }
  split; [exact IHi|]. split; [exact IHl|]. split.
  - intros p n Hp Hn. apply IHfile; [|exact Hn]. now apply Hkeep_file.
  - intros d0 n q m Hd0 Hq Hm Hqd Hne.
    apply (IHdir d0 n q m); try assumption; [|now apply Hkeep_file].
    destruct Hf as [->|[-> He]]; [exact Hd0|].
    rewrite lookup_delete_ne; [exact Hd0|].
    intros <-. apply (pinned_step _ d d n Hd0); [|exact He|reflexivity].
    right. exists q, m. auto.
Qed.

End CleanupMore.

(** ** The verification loop of variant A *)

Section VerifyMore.
Import Py Bpy Script VariantA.

Lemma verify_lengths (w : world) (names : list string) :
  (length (omap (verified_line w) names) + length (omap (still_packed_item w) names)
   <= length names)%nat.
Proof.
  induction names as [|n names IH]; [reflexivity|].
  cbn [omap list_omap length].
  pose proof (eq_refl (verified_line w n)) as Hv.
  pose proof (eq_refl (still_packed_item w n)) as Hs.
  unfold verified_line in Hv at 2. unfold still_packed_item in Hs at 2.
  destruct (images_get w n) as [img|]; [|rewrite Hv, Hs; lia].
  destruct (negb (packed_file img) && String.eqb (source img) "FILE").
  - rewrite Hv, Hs. cbn [length]. lia.
  - rewrite Hv. destruct (packed_file img); rewrite Hs; cbn [length]; lia.
Qed.

(** X16: the verification loop only reads the session.  The count it
    returns is the number of [Verified] lines it printed, it prints nothing
    else, and that count plus the number of still-packed items never exceeds
    the number of names it was given. *)
Theorem verify_counts (names : list string) (s : state message) :
  exists unpacked_count still_packed new,
    verify names 0 [] s =
      (Ok (unpacked_count, still_packed), State (st_world s) (st_trace s ++ new)) /\
    unpacked_count = length new /\
    (forall e, e ∈ new -> exists n raw, e = Print (Verified n raw)) /\
    (unpacked_count + length still_packed <= length names)%nat.
Proof.
  rewrite verify_spec. eexists _, _, _. split; [reflexivity|].
  split; [reflexivity|]. split.
  - intros e He. apply list_elem_of_omap in He as (n & _ & Hn).
    unfold verified_line in Hn. destruct (images_get _ n); [|discriminate].
    destruct (_ && _); [|discriminate]. inversion Hn. eauto.
  - cbn [app]. apply verify_lengths.
Qed.

End VerifyMore.

(** ** Failures of the import and of the export *)

Section HostFailures.
Import Py Bpy Script PosixPath.

(** X17: variant A, when the importer raises after a successful reset.  An
    exception of class [Exception] is printed and ends the run: with status
    1 after [quit_blender] in background mode, re-raised otherwise.  Any
    other exception passes through unprinted.  In every case the unpack and
    export operators are not called. *)
Theorem import_failure_A (h : Host) (fbx_in_path fbx_out_path : string)
    (s : state VariantA.message) (w1 w2 w3 : world) (e : exn) :
  let pre := st_trace s ++
             [Print (VariantA.Processing fbx_in_path);
              Print (VariantA.OutputtingTo fbx_out_path);
              Call SelectAll; Call ObjectDelete; Call (OrphansPurge true);
              Call (ImportFbx fbx_in_path false)] in
  bpy_ops h SelectAll (st_world s) = Ok w1 ->
  bpy_ops h ObjectDelete w1 = Ok w2 ->
  bpy_ops h (OrphansPurge true) w2 = Ok w3 ->
  bpy_ops h (ImportFbx fbx_in_path false) w3 = Raise e ->
  VariantA.convert h fbx_in_path fbx_out_path s =
  if is_Exception e then
    if background h then
      (Raise (SystemExit (Some 1)),
       State w3 (pre ++ [Print (VariantA.ErrImport (str e)); Call QuitBlender]))
    else (Raise e, State w3 (pre ++ [Print (VariantA.ErrImport (str e))]))
  else (Raise e, State w3 pre).
Proof.
  intros pre H1 H2 H3 H4. subst pre. unfold VariantA.convert, try_except.
  repeat first [rewrite run_bind | rewrite run_print | rewrite run_op
               | progress cbn [st_world st_trace]
               | rewrite H1 | rewrite H2 | rewrite H3 | rewrite H4].
  rewrite <- !app_assoc. cbn [app].
  destruct (is_Exception e); [|reflexivity].
  rewrite run_bind, run_print. cbn [st_world st_trace].
  unfold VariantA.abort_or_reraise, quit_blender.
  destruct (background h).
  - rewrite run_bind, run_emit. cbn [st_world st_trace]. rewrite <- !app_assoc. reflexivity.
  - rewrite <- !app_assoc. reflexivity.
Qed.

(** X18: variant B, when the importer raises after a successful reset: as
    variant A, except that the background run leaves with status 1 without
    calling [quit_blender]. *)
Theorem import_failure_B (h : Host) (p : string) (s : state VariantB.message)
    (w1 w2 w3 w4 w5 : world) (e : exn) :
  let pre := st_trace s ++
             [Print (VariantB.Processing p);
              Print (VariantB.TargetDirectory (dirname p));
              Call SelectAll; Call ObjectDelete; Call (OrphansPurge false);
              Call (OrphansPurge false); Call (OrphansPurge false);
              Call (ImportFbx p true)] in
  isfile (fs (st_world s)) p = true ->
  bpy_ops h SelectAll (st_world s) = Ok w1 ->
  bpy_ops h ObjectDelete w1 = Ok w2 ->
  bpy_ops h (OrphansPurge false) w2 = Ok w3 ->
  bpy_ops h (OrphansPurge false) w3 = Ok w4 ->
  bpy_ops h (OrphansPurge false) w4 = Ok w5 ->
  bpy_ops h (ImportFbx p true) w5 = Raise e ->
  VariantB.unpack_fbx_textures h p s =
  if is_Exception e then
    (Raise (if background h then SystemExit (Some 1) else e),
     State w5 (pre ++ [Print (VariantB.ErrImport (str e))]))
  else (Raise e, State w5 pre).
Proof.
  intros pre Hf H1 H2 H3 H4 H5 H6. subst pre.
  unfold VariantB.unpack_fbx_textures, try_except, get_world.
  rewrite run_bind. cbn [st_world]. rewrite Hf. cbn [negb].
  repeat first [rewrite run_bind | rewrite run_print | rewrite run_op | rewrite run_ret
               | progress cbn [st_world st_trace]
               | rewrite H1 | rewrite H2 | rewrite H3 | rewrite H4 | rewrite H5
               | rewrite H6].
  rewrite <- !app_assoc. cbn [app].
  destruct (is_Exception e); [|reflexivity].
  rewrite run_bind, run_print. cbn [st_world st_trace]. rewrite <- !app_assoc.
  destruct (background h); reflexivity.
Qed.

(** X19: the export step of variant A, by the answer of the exporter.  When
    it returns, the run prints that it has finished and, in background mode
    only, quits the host.  When it raises an exception of class [Exception],
    the error is printed and the run ends without the closing line: with
    status 1 after [quit_blender] in background mode, re-raised otherwise.
    In both cases the exporter is called once. *)
Theorem export_step_outcomes (h : Host) (out : string) (s : state VariantA.message) :
  let pre := st_trace s ++ [Print (VariantA.Exporting out); Call (ExportFbx out)] in
  VariantA.export_step h out s =
  match bpy_ops h (ExportFbx out) (st_world s) with
  | Ok w' =>
      (Ok tt,
       State w' (pre ++ [Print VariantA.Exported; Print VariantA.Finished] ++
                 (if background h then [Call QuitBlender] else [])))
  | Raise e =>
      if is_Exception e then
        if background h then
          (Raise (SystemExit (Some 1)),
           State (st_world s) (pre ++ [Print (VariantA.ErrExport (str e)); Call QuitBlender]))
        else (Raise e, State (st_world s) (pre ++ [Print (VariantA.ErrExport (str e))]))
      else (Raise e, State (st_world s) pre)
  end.
Proof.
  intros pre. subst pre. unfold VariantA.export_step, try_except.
  repeat first [rewrite run_bind | rewrite run_print | rewrite run_op
               | progress cbn [st_world st_trace]].
  destruct (bpy_ops h (ExportFbx out) (st_world s)) as [w'|e].
  - repeat first [rewrite run_bind | rewrite run_print
                 | progress cbn [st_world st_trace]].
    unfold when, quit_blender. destruct (background h).
    + rewrite run_emit. cbn [st_world st_trace]. rewrite <- !app_assoc. reflexivity.
    + unfold ret. rewrite <- !app_assoc. reflexivity.
  - rewrite <- !app_assoc. cbn [app]. destruct (is_Exception e); [|reflexivity].
    rewrite run_bind, run_print. cbn [st_world st_trace].
    unfold VariantA.abort_or_reraise, quit_blender. destruct (background h).
    + rewrite run_bind, run_emit. cbn [st_world st_trace]. rewrite <- !app_assoc.
      reflexivity.
    + rewrite <- !app_assoc. reflexivity.
Qed.

End HostFailures.

(** ** A complete run of variant A *)

Section CompleteRun.
Import PyStr Py Bpy Script PosixPath VariantA.




End CompleteRun.

(** ** More on failures and on the tally *)

Section MoreFailures.
Import PyStr Py Bpy Script PosixPath Cli.

(** X21: variant A, when the [textures] folder beside the output cannot be
    created.  The unpack operator is not called; the error is printed and
    the run ends, with status 1 after [quit_blender] in background mode and
    with the [OSError] re-raised otherwise. *)
Theorem makedirs_failure_A (h : Host) (out : string) (names : gset string)
    (total : nat) (s : state VariantA.message) (m : string) :
  let unpack_dir := join (dirname out) "textures" in
  let pre := st_trace s ++
             [Print VariantA.Attempting; Call (Makedirs unpack_dir);
              Print (VariantA.ErrUnpack m)] in
  (0 < total)%nat ->
  os_makedirs h unpack_dir (fs (st_world s)) = OsFail m ->
  VariantA.unpack_step h out names total s =
  if background h then
    (Raise (SystemExit (Some 1)), State (st_world s) (pre ++ [Call QuitBlender]))
  else (Raise (OSError m), State (st_world s) pre).
Proof.
  intros unpack_dir pre Hpos Hmk. subst pre. unfold VariantA.unpack_step.
  destruct (Nat.ltb_spec 0 total) as [_|]; [|lia].
  unfold try_except, VariantA.unpack_and_verify.
  rewrite run_bind, run_print, run_bind, run_makedirs. cbn [st_world st_trace].
  fold unpack_dir. rewrite Hmk. cbn [is_RuntimeError is_Exception str].
  rewrite run_bind, run_print. cbn [st_world st_trace].
  unfold VariantA.abort_or_reraise, quit_blender. destruct (background h).
  - rewrite run_bind, run_emit. cbn [st_world st_trace]. rewrite <- !app_assoc. reflexivity.
  - rewrite <- !app_assoc. reflexivity.
Qed.

(** X22: a failure of the parser in interactive mode.  Variant A lets the
    [SystemExit] through, as in background mode; variant B prints the
    failure, after the note about missing arguments when there are none, and
    re-raises the [SystemExit] with its code unchanged. *)
Theorem parse_failure_interactive (h : Host) (env : Env) (code : option Z) :
  background h = false ->
  (forall s : state VariantA.message,
     parse_args env (VariantA.script_args (argv env)) = ParserExit code ->
     VariantA.main h env s = (Raise (SystemExit code), s)) /\
  (forall s : state VariantB.message,
     let args := VariantB.script_args (script_file env) (argv env) in
     parse_args env args = ParserExit code ->
     VariantB.main h env s =
       (Raise (SystemExit code),
        State (st_world s)
              (st_trace s ++
               (if bool_decide (args = []) then [Print VariantB.InfoUiNoArgs] else []) ++
               [Print (VariantB.ArgParseFailed code)]))).
Proof.
  intros Hbg. split.
  - intros s Hp. unfold VariantA.main. now rewrite Hp.
  - intros s args Hp. unfold VariantB.main. fold args. rewrite Hp, Hbg.
    rewrite andb_true_r. unfold when.
    destruct (bool_decide (args = []));
      repeat first [rewrite run_bind | rewrite run_print
                   | progress cbn [st_world st_trace]];
      unfold ret; repeat first [rewrite run_bind | rewrite run_print
                               | progress cbn [st_world st_trace]];
      rewrite <- ?app_assoc; reflexivity.
Qed.

End MoreFailures.

Section TallyMore.
Import Py Bpy Script PosixPath VariantB.

(** What one iteration adds to the tally, by the branch the image takes. *)
Lemma process_image_tally (h : Host) (dir : string) (info : gmap string string)
    (i : nat) (img : image) (t : tally) (s : state message)
    (t' : tally) (s' : state message) :
  images (st_world s) !! i = Some img ->
  process_image h dir info i t s = (Ok t', s') ->
  still_packed_after t' =
    still_packed_after t ++
    (if bool_decide (is_Some (info !! img_name img)) && negb (unpacked_to_file img)
        && packed_file img
     then [img_name img] else []) /\
  (moved_count t' + length (failed_to_move t') =
   moved_count t + length (failed_to_move t) +
   (if bool_decide (is_Some (info !! img_name img)) && unpacked_to_file img
    then 1 else 0))%nat /\
  (moved_count t <= moved_count t')%nat.
Proof.
  intros Hi. destruct s as [w tr]. simpl in Hi.
  unfold process_image, get_world. run. rewrite Hi.
  destruct (bool_decide (is_Some (info !! img_name img))); cbn [andb].
  2: { intros H. inversion H; subst. rewrite app_nil_r. repeat split; lia. }
  destruct (unpacked_to_file img) eqn:Hfile; cbn [negb andb].
  2: { destruct (packed_file img); run;
         intros H; inversion H; subst; cbn; rewrite ?app_nil_r; repeat split; lia. }
  unfold try_move_unpacked, try_except, move_unpacked, get_world. run.
  set (src := bpy_path_abspath h (filepath_raw img)).
  set (t1 := note_texture_dir (dirname src) (add_processed (img_name img) t)).
  assert (Hm : moved_count t1 = moved_count t)
    by (subst t1; now destruct (note_texture_dir_same (dirname src)
                                  (add_processed (img_name img) t)) as (-> & _)).
  assert (Hf : failed_to_move t1 = failed_to_move t)
    by (subst t1; now destruct (note_texture_dir_same (dirname src)
                                  (add_processed (img_name img) t)) as (_ & -> & _)).
  assert (Hs : still_packed_after t1 = still_packed_after t)
    by (subst t1; now destruct (note_texture_dir_same (dirname src)
                                  (add_processed (img_name img) t)) as (_ & _ & -> & _)).
  clearbody t1.
  assert (Hfin : forall t2 : tally,
            still_packed_after t2 = still_packed_after t1 ->
            (moved_count t2 + length (failed_to_move t2) =
             S (moved_count t1 + length (failed_to_move t1)))%nat ->
            (moved_count t1 <= moved_count t2)%nat ->
            still_packed_after t2 = still_packed_after t ++ [] /\
            (moved_count t2 + length (failed_to_move t2) =
             moved_count t + length (failed_to_move t) + 1)%nat /\
            (moved_count t <= moved_count t2)%nat).
  { intros t2 E1 E2 E3. rewrite Hm, Hf in E2. rewrite Hm in E3. rewrite app_nil_r, E1, Hs. repeat split; lia. }
  assert (Hfail : forall x, (moved_count (add_failed x t1) +
                             length (failed_to_move (add_failed x t1)) =
                             S (moved_count t1 + length (failed_to_move t1)))%nat).
  { intros x. cbn. rewrite length_app. cbn. lia. }
  destruct (exists_ (fs w) src); simpl.
  2: { run. intros H; inversion H; subst. apply Hfin; [reflexivity|apply Hfail|cbn; lia]. }
  destruct (exists_ (fs w) (join dir (basename src))); simpl.
  - destruct (samefile (fs w) src (join dir (basename src))); run.
    + unfold set_filepath, reload, get_world, put_world. run. rewrite Hi. run.
      intros H; inversion H; subst. apply Hfin; [reflexivity|cbn; lia|cbn; lia].
    + intros H; inversion H; subst. apply Hfin; [reflexivity|apply Hfail|cbn; lia].
  - run. unfold move, get_world, put_world. run.
    destruct (shutil_move h src (join dir (basename src)) (fs w)) as [f'|m]; run.
    + unfold set_filepath, reload, get_world, put_world. run. rewrite Hi. run.
      intros H; inversion H; subst. apply Hfin; [reflexivity|cbn; lia|cbn; lia].
    + intros H; inversion H; subst. apply Hfin; [reflexivity|apply Hfail|cbn; lia].
Qed.

(** The loop over the images [rest] that follow the images [pre]. *)
Lemma scan_images_tally (h : Host) (dir : string) (info : gmap string string)
    (rest pre : list image) (t : tally) (s : state message) :
  (forall j img, (pre ++ rest) !! j = Some img -> length pre <= j ->
                 images (st_world s) !! j = Some img)%nat ->
  exists t' s',
    scan_images h dir info (seq (length pre) (length rest)) t s = (Ok t', s') /\
    still_packed_after t' = still_packed_after t ++ (img_name <$> left_packed info rest) /\
    (moved_count t' + length (failed_to_move t') =
     moved_count t + length (failed_to_move t) + length (written_out info rest))%nat /\
    (moved_count t <= moved_count t')%nat.
Proof.
  revert pre t s. induction rest as [|img rest IH]; intros pre t s Hinv.
  - exists t, s. cbn. rewrite app_nil_r. repeat split; lia.
  - simpl. rewrite run_bind.
    assert (Hi : images (st_world s) !! length pre = Some img).
    { apply Hinv; [|lia]. rewrite lookup_app_r by lia.
      now replace (length pre - length pre)%nat with 0%nat by lia. }
    destruct (process_image_spec h dir info (length pre) img t s Hi)
      as (t1 & s1 & new1 & Hrun1 & _ & _ & _ & Hother & _).
    destruct (process_image_tally h dir info (length pre) img t s t1 s1 Hi Hrun1)
      as (Hs1 & Hc1 & Hm1).
    rewrite Hrun1.
    destruct (IH (pre ++ [img]) t1 s1) as (t2 & s2 & Hrun & Hs2 & Hc2 & Hm2).
    { intros j img' Hj Hle. rewrite length_app in Hle. simpl in Hle.
      rewrite Hother by lia. apply Hinv; [|lia]. now rewrite <- app_assoc in Hj. }
    rewrite length_app in Hrun. simpl in Hrun.
    replace (length pre + 1)%nat with (S (length pre)) in Hrun by lia.
    rewrite Hrun. exists t2, s2. split; [reflexivity|].
    unfold left_packed, written_out, inventoried in *. rewrite filter_cons.
    destruct (decide (is_Some (info !! img_name img))) as [Hin|Hin].
    + rewrite bool_decide_eq_true_2 in Hs1, Hc1 by assumption. cbn [andb] in Hs1, Hc1.
      rewrite !filter_cons.
      destruct (unpacked_to_file img); cbn [negb andb] in *.
      * rewrite decide_False by (intros []). rewrite decide_True by exact I.
        rewrite app_nil_r in Hs1. rewrite Hs2, Hs1. cbn [length]. repeat split; lia.
      * rewrite (decide_False (P := Is_true false)) by (intros []).
        destruct (packed_file img).
        -- rewrite decide_True by exact I. rewrite Hs2, Hs1, fmap_cons, <- app_assoc.
           repeat split; lia.
        -- rewrite decide_False by (intros []). rewrite app_nil_r in Hs1.
           rewrite Hs2, Hs1. repeat split; lia.
    + rewrite bool_decide_eq_false_2 in Hs1, Hc1 by assumption. cbn [andb] in Hs1, Hc1.
      rewrite app_nil_r in Hs1. rewrite Hs2, Hs1. repeat split; lia.
Qed.

(** X23: the tally of the reconciliation.  The list [still_packed_after]
    holds the names of the inventoried images that still carry their
    payload, in the order of the session, and every inventoried image that
    the unpack wrote to a file is counted once, as moved or as failed: none
    is dropped and none is counted twice. *)
Theorem reconcile_tally (h : Host) (dir : string) (info : gmap string string)
    (s : state message) :
  let imgs := images (st_world s) in
  exists t s',
    reconcile h dir info s = (Ok t, s') /\
    still_packed_after t = img_name <$> left_packed info imgs /\
    (moved_count t + length (failed_to_move t) = length (written_out info imgs))%nat.
Proof.
  intros imgs. unfold reconcile, get_world.
  rewrite run_bind, run_print, run_bind. cbn [st_world st_trace]. fold imgs.
  destruct (scan_images_tally h dir info imgs [] tally0
              (State (st_world s) (st_trace s ++ [Print (Scanning dir)])))
    as (t & s1 & Hrun & Hs & Hc & _).
  { intros j img Hj _. exact Hj. }
  cbn [length] in Hrun. rewrite run_bind, Hrun.
  destruct (report_missing_run (elements (missing_after_unpack info t)) s1)
    as (new2 & Hrun2 & _).
  rewrite run_bind, Hrun2, run_bind.
  match goal with |- context [report_summary t ?s2] =>
    destruct (report_summary_run t s2) as (new3 & Hrun3 & _) end.
  rewrite Hrun3, run_bind.
  match goal with |- context [cleanup h ?l ?s3] =>
    destruct (cleanup_spec h l s3) as (f4 & new4 & Hrun4 & _) end.
  rewrite Hrun4, run_ret.
  eexists t, _. split; [reflexivity|]. cbn in Hs, Hc. split; [exact Hs|lia].
Qed.

End TallyMore.

(** ** Further theorems on concrete sessions *)

Section ConcreteMore.
Import Py Bpy Script Cli Examples.

Lemma script_args_after_separator_witness :
  VariantA.script_args ["blender"; "-b"; "--"; "-i"; "x.fbx"] = ["-i"; "x.fbx"].
Proof.
  apply (proj1 (script_args_after_separator ["blender"; "-b"; "--"; "-i"; "x.fbx"])
           ["blender"; "-b"] ["-i"; "x.fbx"]).
  - reflexivity.
  - apply (bool_decide_unpack _). vm_compute. exact I.
Defined.


Lemma main_checks_input_A_witness :
  VariantA.main plain_host (env_of ["-i"; "/assets/absent.fbx"]) (start plain_session) =
  (Raise (SystemExit (Some 1)),
   State plain_session [Print (VariantA.ErrInputNotFound "/assets/absent.fbx")]).
Proof.
  exact (main_checks_input_A plain_host (env_of ["-i"; "/assets/absent.fbx"])
           "/assets/absent.fbx" (start plain_session) eq_refl).
Defined.

Lemma main_checks_input_B_witness :
  VariantB.main plain_host (env_of ["-i"; "absent.fbx"]) (start plain_session) =
  (Raise (SystemExit (Some 1)),
   State plain_session
     [Print (VariantB.RelativeResolved "absent.fbx" "/work/absent.fbx" "/work");
      Print (VariantB.ErrInputNotFound "/work/absent.fbx");
      Print (VariantB.OriginalInput "absent.fbx")]).
Proof.
  exact (main_checks_input_B plain_host (env_of ["-i"; "absent.fbx"])
           "absent.fbx" (start plain_session) eq_refl).
Defined.

Lemma unpack_fbx_textures_missing_input_witness :
  VariantB.unpack_fbx_textures plain_host "/assets/absent.fbx" (start plain_session) =
  (Raise (SystemExit (Some 1)),
   State plain_session [Print (VariantB.ErrNotFoundInFunction "/assets/absent.fbx")]).
Proof.
  exact (unpack_fbx_textures_missing_input plain_host "/assets/absent.fbx"
           (start plain_session) eq_refl).
Defined.

Lemma source_missing_handling_witness :
  exists t',
    VariantB.process_image (scripted_host true packed_session Ok) "/assets"
      (VariantB.packed_images_info packed_images) 0 VariantB.tally0
      (start (World unpacked_images [] disk0)) =
    (Ok t', State (World unpacked_images [] disk0)
              [Print (VariantB.WarnSourceMissing "a.png" "/assets/textures/a.png")]) /\
    VariantB.moved_count t' = 0%nat /\
    VariantB.failed_to_move t' = ["a.png (source file missing)"].
Proof.
  eexists. split.
  - apply (source_missing_handling (scripted_host true packed_session Ok) "/assets"
             (VariantB.packed_images_info packed_images) 0
             (Image "a.png" false "FILE" "/assets/textures/a.png" "/assets/textures/a.png")
             VariantB.tally0 (start (World unpacked_images [] disk0))).
    + reflexivity.
    + vm_compute. eauto.
    + reflexivity.
    + vm_compute. reflexivity.
  - split; reflexivity.
Defined.


Lemma cleanup_keeps_files_witness :
  let h := scripted_host true packed_session Ok in
  let s := start (msg := VariantB.message) (World [] [] disk_dirs) in
  let s2 := snd (VariantB.cleanup h ["/assets/textures"; "/scratch/textures"] s) in
  fs (st_world s2) !! "/scratch/textures/left.png" = Some (FNode 6 false) /\
  fs (st_world s2) !! "/scratch/textures" = Some (FNode 5 true).
Proof.
  intros h s s2.
  destruct (cleanup_keeps_files h ["/assets/textures"; "/scratch/textures"] s)
    as (_ & _ & Hfile & Hdir).
  split.
  - apply Hfile; vm_compute; reflexivity.
  - apply (Hdir "/scratch/textures" (FNode 5 true) "/scratch/textures/left.png"
             (FNode 6 false)).
    + vm_compute. reflexivity.
    + vm_compute. reflexivity.
    + reflexivity.
    + vm_compute. reflexivity.
    + discriminate.
Defined.

Lemma import_failure_A_witness :
  VariantA.convert (failing_import_host (RuntimeError "cannot read"))
    "/assets/model.fbx" "/assets/model_noTextures.fbx" (start empty_world) =
  (Raise (SystemExit (Some 1)),
   State empty_world
     [Print (VariantA.Processing "/assets/model.fbx");
      Print (VariantA.OutputtingTo "/assets/model_noTextures.fbx");
      Call SelectAll; Call ObjectDelete; Call (OrphansPurge true);
      Call (ImportFbx "/assets/model.fbx" false);
      Print (VariantA.ErrImport "cannot read"); Call QuitBlender]).
Proof.
  exact (import_failure_A (failing_import_host (RuntimeError "cannot read"))
           "/assets/model.fbx" "/assets/model_noTextures.fbx" (start empty_world)
           empty_world empty_world empty_world (RuntimeError "cannot read")
           eq_refl eq_refl eq_refl eq_refl).
Defined.

Lemma import_failure_B_witness :
  VariantB.unpack_fbx_textures (failing_import_host (RuntimeError "cannot read"))
    "/assets/model.fbx" (start (World [] [] disk0)) =
  (Raise (SystemExit (Some 1)),
   State (World [] [] disk0)
     [Print (VariantB.Processing "/assets/model.fbx");
      Print (VariantB.TargetDirectory "/assets");
      Call SelectAll; Call ObjectDelete; Call (OrphansPurge false);
      Call (OrphansPurge false); Call (OrphansPurge false);
      Call (ImportFbx "/assets/model.fbx" true);
      Print (VariantB.ErrImport "cannot read")]).
Proof.
  exact (import_failure_B (failing_import_host (RuntimeError "cannot read"))
           "/assets/model.fbx" (start (World [] [] disk0))
           (World [] [] disk0) (World [] [] disk0) (World [] [] disk0)
           (World [] [] disk0) (World [] [] disk0) (RuntimeError "cannot read")
           eq_refl eq_refl eq_refl eq_refl eq_refl eq_refl eq_refl).
Defined.


Lemma makedirs_failure_A_witness :
  VariantA.unpack_step readonly_host "/assets/model_noTextures.fbx" {["a.png"]} 1
    (start packed_session) =
  (Raise (SystemExit (Some 1)),
   State packed_session
     [Print VariantA.Attempting; Call (Makedirs "/assets/textures");
      Print (VariantA.ErrUnpack "Read-only file system"); Call QuitBlender]).
Proof.
  apply (makedirs_failure_A readonly_host "/assets/model_noTextures.fbx" {["a.png"]} 1
           (start packed_session) "Read-only file system").
  - lia.
  - reflexivity.
Defined.

Lemma parse_failure_interactive_witness :
  VariantB.main (scripted_host false plain_session Ok) (env_of []) (start plain_session) =
  (Raise (SystemExit (Some 2)),
   State plain_session
     [Print VariantB.InfoUiNoArgs; Print (VariantB.ArgParseFailed (Some 2))]).
Proof.
  apply (proj2 (parse_failure_interactive (scripted_host false plain_session Ok)
                  (env_of []) (Some 2) eq_refl) (start plain_session)).
  reflexivity.
Defined.

End ConcreteMore.
